(** * Change-control approval workflow: embedding and verification

    A shallow embedding of the Django application's models (models.py),
    tracking-number generator (utils.py), workflow state machine
    (workflow.py) and permission predicates (permissions.py), followed by
    the properties of the specification that were checked against it and
    by further properties of the same functions: invariants of the
    database under any sequence of calls, the calls that are refused and
    what they leave behind, and the effect of each step.

    Conventions of the embedding.
    - A database table is a list of rows in insertion order; a row carries
      its primary key.  [Model.objects.create] appends a row with a fresh
      key, [instance.save()] overwrites the row with the same key.
    - The database runs in Django's default autocommit mode (workflow.py
      imports [transaction] and never uses it): a write is durable as soon
      as it is executed, so a computation is a function from the store to
      an outcome together with the store reached, also when the outcome is
      an exception.
    - [timezone.now()] is the argument [now] of an operation.  Columns that
      Django maintains by itself (auto_now, auto_now_add) are not modelled.
    - Users and departments are never written by the workflow; a row that
      references one carries it by value.
    - The database is SQLite, the engine of a Django project unless its
      settings name another (the application has no settings of its own).
      There the lookup [startswith] takes an ASCII letter for its other
      case, whereas the exact lookup and a unique column compare the bytes.
    - A Python string is embedded as its UTF-8 encoding, one [ascii] per
      byte; [int] reads a string as CPython does, digits and white space of
      every script included.
    - Integers are unbounded.  CPython refuses, in its default setting
      (sys.set_int_max_str_digits), to convert between an integer and a
      string of more than 4300 digits; [int] and [str] are embedded without
      that limit, and the theorems that characterise the numbers read from
      stored tracking numbers are stated for last segments below that
      length. *)

From Stdlib Require Import ZArith List String Ascii Bool Arith Lia.
Import ListNotations.
Local Open Scope string_scope.
Local Open Scope list_scope.

(** ** Users and departments *)

Definition datetime := Z.

Record User := mkUser { user_pk : nat; username : string }.

(** Django compares model instances by primary key. *)
Definition user_eqb (u v : User) : bool := Nat.eqb (user_pk u) (user_pk v).

Module Department.
Record t := mk { pk : nat; code : string; name : string; head : option User }.
Definition eqb (d e : t) : bool := Nat.eqb (pk d) (pk e).
End Department.

(** ** models.py *)

Module ChangeControlRequest.

Inductive StatusChoices :=
| DRAFT
| PENDING_DEPT_HEAD
| PENDING_QA_REGISTRATION
| PENDING_CFT_EVALUATION
| PENDING_RISK_ASSESSMENT
| PENDING_DOCUMENT_UPDATE
| PENDING_ACTION_PLAN
| PENDING_QA_EVALUATION
| PENDING_QA_HEAD_APPROVAL
| PENDING_VERIFICATION
| CLOSED
| REJECTED.

Definition status_eqb (a b : StatusChoices) : bool :=
  match a, b with
  | DRAFT, DRAFT
  | PENDING_DEPT_HEAD, PENDING_DEPT_HEAD
  | PENDING_QA_REGISTRATION, PENDING_QA_REGISTRATION
  | PENDING_CFT_EVALUATION, PENDING_CFT_EVALUATION
  | PENDING_RISK_ASSESSMENT, PENDING_RISK_ASSESSMENT
  | PENDING_DOCUMENT_UPDATE, PENDING_DOCUMENT_UPDATE
  | PENDING_ACTION_PLAN, PENDING_ACTION_PLAN
  | PENDING_QA_EVALUATION, PENDING_QA_EVALUATION
  | PENDING_QA_HEAD_APPROVAL, PENDING_QA_HEAD_APPROVAL
  | PENDING_VERIFICATION, PENDING_VERIFICATION
  | CLOSED, CLOSED
  | REJECTED, REJECTED => true
  | _, _ => false
  end.

Inductive ImpactLevelChoices := MINOR | MAJOR | CRITICAL.

(** The stored value of each choice, as qa_registration receives it. *)
Definition impact_value (l : ImpactLevelChoices) : string :=
  match l with MINOR => "Minor" | MAJOR => "Major" | CRITICAL => "Critical" end.

Definition choices : list ImpactLevelChoices := [MINOR; MAJOR; CRITICAL].

Record t := mk {
  pk : nat;
  temporary_cc_number : string;
  final_cc_number : option string;
  initiator : User;
  department : Department.t;
  title : string;
  description : string;
  impact_level : option ImpactLevelChoices;
  target_completion_time : option Z;
  qa_registered_by : option User;
  qa_registration_date : option datetime;
  status : StatusChoices;
  current_step : Z;
  closed_at : option datetime;
  rejection_reason : string;
  rejected_by : option User;
  rejected_at : option datetime
}.

(** Attribute assignments [request.<field> = v]. *)
Definition set_final_cc_number v r :=
  let 'mk a b _ d e f g h i j k l m n o p q := r in mk a b v d e f g h i j k l m n o p q.
Definition set_impact_level v r :=
  let 'mk a b c d e f g _ i j k l m n o p q := r in mk a b c d e f g v i j k l m n o p q.
Definition set_target_completion_time v r :=
  let 'mk a b c d e f g h _ j k l m n o p q := r in mk a b c d e f g h v j k l m n o p q.
Definition set_qa_registered_by v r :=
  let 'mk a b c d e f g h i _ k l m n o p q := r in mk a b c d e f g h i v k l m n o p q.
Definition set_qa_registration_date v r :=
  let 'mk a b c d e f g h i j _ l m n o p q := r in mk a b c d e f g h i j v l m n o p q.
Definition set_status v r :=
  let 'mk a b c d e f g h i j k _ m n o p q := r in mk a b c d e f g h i j k v m n o p q.
Definition set_current_step v r :=
  let 'mk a b c d e f g h i j k l _ n o p q := r in mk a b c d e f g h i j k l v n o p q.
Definition set_closed_at v r :=
  let 'mk a b c d e f g h i j k l m _ o p q := r in mk a b c d e f g h i j k l m v o p q.
Definition set_rejection_reason v r :=
  let 'mk a b c d e f g h i j k l m n _ p q := r in mk a b c d e f g h i j k l m n v p q.
Definition set_rejected_by v r :=
  let 'mk a b c d e f g h i j k l m n o _ q := r in mk a b c d e f g h i j k l m n o v q.
Definition set_rejected_at v r :=
  let 'mk a b c d e f g h i j k l m n o p _ := r in mk a b c d e f g h i j k l m n o p v.

End ChangeControlRequest.

Module CFTEvaluator.
(** unique_together = (request, department). *)
Record t := mk { request : nat; department : Department.t; evaluator : User }.
End CFTEvaluator.

Module CFTEvaluation.

Inductive ImpactTypeChoices :=
  OPERATIONAL | QUALITY | REGULATORY | FINANCIAL | TECHNICAL | OTHER.
Inductive DecisionChoices :=
  APPROVED | APPROVED_WITH_CONDITIONS | REJECTED | PENDING.
Inductive RiskLevelChoices := LOW | MEDIUM | HIGH | CRITICAL.

Definition decision_eqb (a b : DecisionChoices) : bool :=
  match a, b with
  | APPROVED, APPROVED | APPROVED_WITH_CONDITIONS, APPROVED_WITH_CONDITIONS
  | REJECTED, REJECTED | PENDING, PENDING => true
  | _, _ => false
  end.

Definition decision_value (d : DecisionChoices) : string :=
  match d with
  | APPROVED => "Approved"
  | APPROVED_WITH_CONDITIONS => "Approved_with_Conditions"
  | REJECTED => "Rejected"
  | PENDING => "Pending"
  end.

Definition risk_level_value (l : RiskLevelChoices) : string :=
  match l with
  | LOW => "Low" | MEDIUM => "Medium" | HIGH => "High" | CRITICAL => "Critical"
  end.

(** unique_together = (request, department). *)
Record t := mk {
  pk : nat;
  request : nat;
  department : Department.t;
  evaluator : User;
  impact_type : ImpactTypeChoices;
  decision : DecisionChoices;
  risk_level : RiskLevelChoices;
  evaluation_notes : string;
  completed_at : option datetime
}.

End CFTEvaluation.

Module CFTEvaluationDocument.
Record t := mk { evaluation : nat; document : option string; description : string }.
End CFTEvaluationDocument.

Module RiskAssessment.
Inductive StatusChoices := PENDING | IN_PROGRESS | COMPLETED | CANCELLED.
Definition status_eqb (a b : StatusChoices) : bool :=
  match a, b with
  | PENDING, PENDING | IN_PROGRESS, IN_PROGRESS
  | COMPLETED, COMPLETED | CANCELLED, CANCELLED => true
  | _, _ => false
  end.
(** One-to-one with the request. *)
Record t := mk {
  pk : nat;
  request : nat;
  assigned_to : User;
  status : StatusChoices;
  findings : string;
  recommendations : string;
  completion_date : option datetime
}.
End RiskAssessment.

Module DocumentRevision.
Inductive StatusChoices := PENDING | IN_PROGRESS | COMPLETED | NOT_REQUIRED.
Record t := mk {
  pk : nat;
  request : nat;
  document_name : string;
  document_code : string;
  assigned_department : Department.t;
  status : StatusChoices;
  revision_notes : string;
  revision_date : option datetime;
  revised_by : option User
}.
(** status__in=[PENDING, IN_PROGRESS] *)
Definition open (r : t) : bool :=
  match status r with PENDING | IN_PROGRESS => true | _ => false end.
End DocumentRevision.

Module ActionPlan.
Inductive StatusChoices := PENDING | IN_PROGRESS | COMPLETED | CANCELLED.
Record t := mk {
  pk : nat;
  request : nat;
  description : string;
  responsible_person : User;
  expected_timeline : Z;
  status : StatusChoices;
  completion_date : option datetime;
  notes : string
}.
(** status__in=[PENDING, IN_PROGRESS] *)
Definition open (r : t) : bool :=
  match status r with PENDING | IN_PROGRESS => true | _ => false end.
End ActionPlan.

Module WorkflowHistory.
Record t := mk {
  request : nat;
  step : Z;
  step_name : string;
  actor : User;
  action : string;
  comments : string;
  previous_status : ChangeControlRequest.StatusChoices;
  new_status : ChangeControlRequest.StatusChoices
}.
End WorkflowHistory.

(** ** The database *)

Record Store := mkStore {
  requests : list ChangeControlRequest.t;
  cft_evaluators : list CFTEvaluator.t;
  cft_evaluations : list CFTEvaluation.t;
  cft_evaluation_documents : list CFTEvaluationDocument.t;
  risk_assessments : list RiskAssessment.t;
  document_revisions : list DocumentRevision.t;
  action_plans : list ActionPlan.t;
  workflow_history : list WorkflowHistory.t
}.

Definition empty_store : Store := mkStore [] [] [] [] [] [] [] [].

Definition set_requests v s :=
  let 'mkStore _ b c d e f g h := s in mkStore v b c d e f g h.
Definition set_cft_evaluators v s :=
  let 'mkStore a _ c d e f g h := s in mkStore a v c d e f g h.
Definition set_cft_evaluations v s :=
  let 'mkStore a b _ d e f g h := s in mkStore a b v d e f g h.
Definition set_cft_evaluation_documents v s :=
  let 'mkStore a b c _ e f g h := s in mkStore a b c v e f g h.
Definition set_risk_assessments v s :=
  let 'mkStore a b c d _ f g h := s in mkStore a b c d v f g h.
Definition set_document_revisions v s :=
  let 'mkStore a b c d e _ g h := s in mkStore a b c d e v g h.
Definition set_action_plans v s :=
  let 'mkStore a b c d e f _ h := s in mkStore a b c d e f v h.
Definition set_workflow_history v s :=
  let 'mkStore a b c d e f g _ := s in mkStore a b c d e f g v.

(** Rows with a primary key: fresh keys and save. *)
Section Table.
Context {A : Type} (key : A -> nat).

Definition next_pk (rows : list A) : nat :=
  S (fold_right (fun r m => Nat.max (key r) m) 0%nat rows).

(** [instance.save()]: UPDATE the row with this key, INSERT when absent. *)
Fixpoint save_row (x : A) (rows : list A) : list A :=
  match rows with
  | [] => [x]
  | r :: rs => if Nat.eqb (key r) (key x) then x :: rs else r :: save_row x rs
  end.
End Table.

(** ** utils.py: tracking numbers *)

(** [s.split(sep)]: never empty, so [[-1]] below cannot raise IndexError. *)
Fixpoint split (sep : ascii) (s : string) : list string :=
  match s with
  | EmptyString => [EmptyString]
  | String c r =>
      if Ascii.eqb c sep then EmptyString :: split sep r
      else match split sep r with
           | h :: t => String c h :: t
           | [] => [String c EmptyString]
           end
  end.

(** [number.split('/')[-1]] *)
Definition sequence_part (number : string) : string :=
  last (split "/" number) EmptyString.

(** *** Strings

    A Python string is a sequence of code points; a [string] here is its
    UTF-8 encoding, byte by byte.  [split], the concatenations and [zfill]
    (applied to digits only) act on the bytes as they act on the code
    points: the separator and the padding are ASCII. *)

Definition byte (c : ascii) : Z := Z.of_nat (nat_of_ascii c).

Definition continuation (b : Z) : bool := andb (128 <=? b)%Z (b <? 192)%Z.

(** The code points of a string, [None] when the bytes are not the UTF-8
    encoding of a Python string (a stray or missing continuation byte, an
    overlong form, a surrogate, a value above U+10FFFF). *)
Fixpoint code_points (s : string) : option (list Z) :=
  match s with
  | EmptyString => Some []
  | String c0 r0 =>
      let b0 := byte c0 in
      if (b0 <? 128)%Z then option_map (cons b0) (code_points r0)
      else if (b0 <? 192)%Z then None
      else
        match r0 with
        | EmptyString => None
        | String c1 r1 =>
            let b1 := byte c1 in
            if negb (continuation b1) then None
            else if (b0 <? 224)%Z then
              let cp := ((b0 - 192) * 64 + (b1 - 128))%Z in
              if (cp <? 128)%Z then None else option_map (cons cp) (code_points r1)
            else
              match r1 with
              | EmptyString => None
              | String c2 r2 =>
                  let b2 := byte c2 in
                  if negb (continuation b2) then None
                  else if (b0 <? 240)%Z then
                    let cp := ((b0 - 224) * 4096 + (b1 - 128) * 64 + (b2 - 128))%Z in
                    if orb (cp <? 2048)%Z (andb (55296 <=? cp)%Z (cp <=? 57343)%Z)
                    then None
                    else option_map (cons cp) (code_points r2)
                  else
                    match r2 with
                    | EmptyString => None
                    | String c3 r3 =>
                        let b3 := byte c3 in
                        if negb (continuation b3) then None
                        else if (b0 <? 248)%Z then
                          let cp := ((b0 - 240) * 262144 + (b1 - 128) * 4096
                                     + (b2 - 128) * 64 + (b3 - 128))%Z in
                          if orb (cp <? 65536)%Z (1114111 <? cp)%Z then None
                          else option_map (cons cp) (code_points r3)
                        else None
                    end
              end
        end
  end.

(** *** [int(s)]

    [int] of a string, base 10 (CPython 3.11, Unicode 14.0).  The string is
    first brought to ASCII: a code point below 127 stays, a white-space
    character above becomes a blank, a decimal digit of any script becomes
    the ASCII digit of its value, and the first character that is none of
    these becomes a question mark, at which the string is cut.  The ASCII
    string is then read: surrounding white space (tab, line feed, vertical
    tab, form feed, carriage return, blank), an optional sign, then digits
    in which single underscores may separate two digits.  [None] is
    ValueError. *)

(** The white-space characters above U+007F ([str.isspace]). *)
Definition unicode_spaces : list Z :=
  [133; 160; 5760; 8192; 8193; 8194; 8195; 8196; 8197; 8198; 8199; 8200; 8201; 8202;
   8232; 8233; 8239; 8287; 12288]%Z.

Definition unicode_space (cp : Z) : bool :=
  existsb (Z.eqb cp) unicode_spaces.

(** The decimal digits above U+007F: each entry is the code point of a
    digit zero and the number of runs 0..9 that follow one another from
    there. *)
Definition decimal_runs : list (Z * Z) :=
  [(1632, 1); (1776, 1); (1984, 1); (2406, 1); (2534, 1); (2662, 1); (2790, 1);
   (2918, 1); (3046, 1); (3174, 1); (3302, 1); (3430, 1); (3558, 1); (3664, 1);
   (3792, 1); (3872, 1); (4160, 1); (4240, 1); (6112, 1); (6160, 1); (6470, 1);
   (6608, 1); (6784, 1); (6800, 1); (6992, 1); (7088, 1); (7232, 1); (7248, 1);
   (42528, 1); (43216, 1); (43264, 1); (43472, 1); (43504, 1); (43600, 1); (44016, 1);
   (65296, 1); (66720, 1); (68912, 1); (69734, 1); (69872, 1); (69942, 1); (70096, 1);
   (70384, 1); (70736, 1); (70864, 1); (71248, 1); (71360, 1); (71472, 1); (71904, 1);
   (72016, 1); (72784, 1); (73040, 1); (73120, 1); (92768, 1); (92864, 1); (93008, 1);
   (120782, 5); (123200, 1); (123632, 1); (125264, 1); (130032, 1)]%Z.

Definition unicode_decimal (cp : Z) : option Z :=
  match find (fun run => andb (fst run <=? cp)%Z (cp <? fst run + 10 * snd run)%Z)
             decimal_runs with
  | Some run => Some ((cp - fst run) mod 10)%Z
  | None => None
  end.

Definition chr (cp : Z) : ascii := ascii_of_nat (Z.to_nat cp).

Fixpoint transform_decimal_and_space (cps : list Z) : string :=
  match cps with
  | [] => EmptyString
  | cp :: rest =>
      if (cp <? 127)%Z then String (chr cp) (transform_decimal_and_space rest)
      else if unicode_space cp then String " " (transform_decimal_and_space rest)
      else
        match unicode_decimal cp with
        | Some d => String (chr (48 + d)) (transform_decimal_and_space rest)
        | None => "?"
        end
  end.

Definition is_space (c : ascii) : bool :=
  match nat_of_ascii c with
  | 9 | 10 | 11 | 12 | 13 | 32 => true
  | _ => false
  end%nat.

Definition digit_value (c : ascii) : option Z :=
  let n := nat_of_ascii c in
  if andb (Nat.leb 48 n) (Nat.leb n 57) then Some (Z.of_nat (n - 48)) else None.

Fixpoint lstrip (s : string) : string :=
  match s with
  | String c r => if is_space c then lstrip r else s
  | EmptyString => s
  end.

Fixpoint all_space (s : string) : bool :=
  match s with
  | String c r => andb (is_space c) (all_space r)
  | EmptyString => true
  end.

(** Scans the digits; [seen] says that a digit has been read, [under] that
    the previous character was an underscore. *)
Fixpoint scan_digits (s : string) (acc : Z) (seen under : bool) : option Z :=
  match s with
  | EmptyString => if andb seen (negb under) then Some acc else None
  | String c r =>
      match digit_value c with
      | Some d => scan_digits r (10 * acc + d) true false
      | None =>
          if Ascii.eqb c "_" then
            if andb seen (negb under) then scan_digits r acc seen true else None
          else if andb (andb seen (negb under)) (all_space s) then Some acc
          else None
      end
  end.

(** The reading of the ASCII string. *)
Definition long_from_string (s : string) : option Z :=
  match lstrip s with
  | String c r =>
      if Ascii.eqb c "-" then option_map Z.opp (scan_digits r 0 false false)
      else if Ascii.eqb c "+" then scan_digits r 0 false false
      else scan_digits (String c r) 0 false false
  | EmptyString => None
  end.

Definition py_int (s : string) : option Z :=
  match code_points s with
  | Some cps => long_from_string (transform_decimal_and_space cps)
  | None => None
  end.

(** [str(n)] for an integer. *)
Definition digit_char (d : Z) : ascii := ascii_of_nat (48 + Z.to_nat d).

Fixpoint str_digits (fuel : nat) (n : Z) (acc : string) : string :=
  match fuel with
  | O => acc
  | S f =>
      let acc' := String (digit_char (n mod 10)) acc in
      if (n / 10 =? 0)%Z then acc' else str_digits f (n / 10) acc'
  end.

Definition str (n : Z) : string :=
  if (n <? 0)%Z
  then String "-" (str_digits (S (Z.to_nat (Z.log2 (- n)))) (- n) EmptyString)
  else str_digits (S (Z.to_nat (Z.log2 n))) n EmptyString.

Fixpoint zeros (k : nat) : string :=
  match k with O => EmptyString | S k' => String "0" (zeros k') end.

(** [s.zfill(width)]: the padding goes after a leading sign. *)
Definition zfill (width : nat) (s : string) : string :=
  if Nat.leb width (String.length s) then s
  else
    let fill := zeros (width - String.length s) in
    match s with
    | String c r =>
        if orb (Ascii.eqb c "+") (Ascii.eqb c "-") then String c (fill ++ r)
        else fill ++ s
    | EmptyString => fill
    end.

(** The loop over [existing_numbers]: a suffix that [int] rejects is
    skipped by [except (ValueError, IndexError): continue]. *)
Fixpoint max_sequence_from (max_sequence : Z) (existing_numbers : list string) : Z :=
  match existing_numbers with
  | [] => max_sequence
  | number :: rest =>
      match py_int (sequence_part number) with
      | Some sequence =>
          if (sequence >? max_sequence)%Z then max_sequence_from sequence rest
          else max_sequence_from max_sequence rest
      | None => max_sequence_from max_sequence rest
      end
  end.

Definition next_number (prefix : string) (existing_numbers : list string) : string :=
  let max_sequence := max_sequence_from 0 existing_numbers in
  let next_sequence := (max_sequence + 1)%Z in
  let sequence_str := zfill 5 (str next_sequence) in
  prefix ++ sequence_str.

(** [current_year] is [datetime.now().strftime('%y')]. *)
Definition temp_prefix (current_year department_code : string) : string :=
  "REQ/CC/" ++ current_year ++ "/" ++ department_code ++ "/".

(** *** The lookup [startswith]

    On SQLite the lookup [field__startswith=prefix] is the test
    [field LIKE pattern ESCAPE '\'], the pattern being the prefix, with a
    backslash put before each backslash, percent sign and underscore,
    followed by a percent sign.  SQLite compares the characters of the
    pattern with those of the value one by one and takes an ASCII letter
    for its other case; a character outside ASCII matches itself only.  The
    pattern ends at a NUL character, and a pattern that ends before its
    percent sign matches the values that end there too. *)
Definition to_lower (c : ascii) : ascii :=
  let n := nat_of_ascii c in
  if andb (Nat.leb 65 n) (Nat.leb n 90) then ascii_of_nat (n + 32) else c.

Fixpoint like_startswith (prefix value : string) : bool :=
  match prefix with
  | EmptyString => true
  | String c p =>
      if Ascii.eqb c zero then
        match value with
        | EmptyString => true
        | String c' _ => Ascii.eqb c' zero
        end
      else
        match value with
        | EmptyString => false
        | String c' v =>
            if Ascii.eqb (to_lower c) (to_lower c') then like_startswith p v else false
        end
  end.

(** [filter(temporary_cc_number__startswith=prefix).values_list(...)] *)
Definition existing_temp_numbers (prefix : string) (db : Store) : list string :=
  filter (like_startswith prefix)
         (map ChangeControlRequest.temporary_cc_number (requests db)).

Definition generate_temp_cc_number
    (current_year department_code : string) (db : Store) : string :=
  let prefix := temp_prefix current_year department_code in
  next_number prefix (existing_temp_numbers prefix db).

Definition final_prefix (current_year department_code : string) : string :=
  if String.eqb department_code EmptyString
  then "REQ/CC/" ++ current_year ++ "/GEN/"
  else "REQ/CC/" ++ current_year ++ "/" ++ department_code ++ "/".

(** [filter(final_cc_number__startswith=prefix).exclude(final_cc_number__isnull=True)] *)
Definition existing_final_numbers (prefix : string) (db : Store) : list string :=
  flat_map
    (fun r => match ChangeControlRequest.final_cc_number r with
              | Some n => if like_startswith prefix n then [n] else []
              | None => []
              end)
    (requests db).

Definition generate_final_cc_number
    (current_year department_code : string) (db : Store) : string :=
  let prefix := final_prefix current_year department_code in
  next_number prefix (existing_final_numbers prefix db).

(** ** Computations on the database *)

Inductive Exception :=
| ValidationError (message : string)
| UnboundLocalError (name : string)
| IntegrityError
| MultipleObjectsReturned.

Inductive outcome (A : Type) :=
| Return (a : A)
| Raise (e : Exception).
Arguments Return {A} a.
Arguments Raise {A} e.

(** The store component is the database after the computation, whether it
    returned or raised: nothing rolls a write back. *)
Definition M (A : Type) : Type := Store -> outcome A * Store.

Definition ret {A} (a : A) : M A := fun db => (Return a, db).
Definition raise {A} (e : Exception) : M A := fun db => (Raise e, db).
Definition bind {A B} (m : M A) (k : A -> M B) : M B :=
  fun db =>
    match m db with
    | (Return a, db') => k a db'
    | (Raise e, db') => (Raise e, db')
    end.
Definition query {A} (f : Store -> A) : M A := fun db => (Return (f db), db).
Definition write (f : Store -> Store) : M unit := fun db => (Return tt, f db).

Declare Scope db_scope.
Delimit Scope db_scope with db.
Notation "x <- m ;; k" := (bind m (fun x => k))
  (at level 61, m at next level, right associativity) : db_scope.
Notation "m ;; k" := (bind m (fun _ => k))
  (at level 61, right associativity) : db_scope.
Local Open Scope db_scope.

(** [for x in xs: body(x)] *)
Fixpoint for_each {A} (xs : list A) (body : A -> M unit) : M unit :=
  match xs with
  | [] => ret tt
  | x :: rest => body x ;; for_each rest body
  end.

(** Querysets of one request. *)
Definition evaluators_of (request : ChangeControlRequest.t) (db : Store) :=
  filter (fun e => Nat.eqb (CFTEvaluator.request e) (ChangeControlRequest.pk request))
         (cft_evaluators db).
Definition evaluations_of (request : ChangeControlRequest.t) (db : Store) :=
  filter (fun e => Nat.eqb (CFTEvaluation.request e) (ChangeControlRequest.pk request))
         (cft_evaluations db).
Definition revisions_of (request : ChangeControlRequest.t) (db : Store) :=
  filter (fun r => Nat.eqb (DocumentRevision.request r) (ChangeControlRequest.pk request))
         (document_revisions db).
Definition plans_of (request : ChangeControlRequest.t) (db : Store) :=
  filter (fun p => Nat.eqb (ActionPlan.request p) (ChangeControlRequest.pk request))
         (action_plans db).

(** [request.risk_assessment]: the reverse side of the one-to-one field;
    [hasattr(request, 'risk_assessment')] is whether this is [Some]. *)
Definition risk_assessment_of (request : ChangeControlRequest.t) (db : Store)
  : option RiskAssessment.t :=
  find (fun a => Nat.eqb (RiskAssessment.request a) (ChangeControlRequest.pk request))
       (risk_assessments db).

(** [request.save()] and the saves of the sub-records. *)
Definition save_request (request : ChangeControlRequest.t) : M unit :=
  write (fun db => set_requests (save_row ChangeControlRequest.pk request (requests db)) db).
Definition save_evaluation (e : CFTEvaluation.t) : M unit :=
  write (fun db => set_cft_evaluations (save_row CFTEvaluation.pk e (cft_evaluations db)) db).
Definition save_risk_assessment (a : RiskAssessment.t) : M unit :=
  write (fun db => set_risk_assessments (save_row RiskAssessment.pk a (risk_assessments db)) db).
Definition save_revision (r : DocumentRevision.t) : M unit :=
  write (fun db => set_document_revisions (save_row DocumentRevision.pk r (document_revisions db)) db).
Definition save_plan (p : ActionPlan.t) : M unit :=
  write (fun db => set_action_plans (save_row ActionPlan.pk p (action_plans db)) db).

(** [self.get_object()] of the views: the row of the URL's key. *)
Definition get_object (pk : nat) (db : Store) : option ChangeControlRequest.t :=
  find (fun r => Nat.eqb (ChangeControlRequest.pk r) pk) (requests db).

(** ** workflow.py *)

Import ChangeControlRequest.

Definition log_workflow_history
    (request : ChangeControlRequest.t) (step : Z) (step_name : string)
    (actor : User) (action comments : string)
    (previous_status new_status : option StatusChoices) : M unit :=
  write (fun db =>
    set_workflow_history
      (workflow_history db ++
       [WorkflowHistory.mk (pk request) step step_name actor action comments
          (match previous_status with Some s => s | None => status request end)
          (match new_status with Some s => s | None => status request end)])
      db).

Definition route_to_dept_head (request : ChangeControlRequest.t) (actor : User)
  : M ChangeControlRequest.t :=
  if negb (status_eqb (status request) DRAFT) then
    raise (ValidationError "Request must be in Draft status to route to department head")
  else
    let department := department request in
    match Department.head department with
    | None =>
        raise (ValidationError ("Department " ++ Department.code department ++
                                " does not have a department head assigned"))
    | Some head =>
        let previous_status := status request in
        let request := set_status PENDING_DEPT_HEAD request in
        let request := set_current_step 2 request in
        save_request request ;;
        log_workflow_history request 2 "Department Head Feasibility" actor
          "Routed to department head" ("Routed to " ++ username head)
          (Some previous_status) (Some (status request)) ;;
        ret request
    end.

(** [ChangeControlRequest.objects.create(...)]; temporary_cc_number is a
    unique column. *)
Definition create_request (row : nat -> ChangeControlRequest.t) : M ChangeControlRequest.t :=
  fun db =>
    let request := row (next_pk pk (requests db)) in
    if existsb (fun r => String.eqb (temporary_cc_number r) (temporary_cc_number request))
               (requests db)
    then (Raise IntegrityError, db)
    else (Return request, set_requests (requests db ++ [request]) db).

Definition initiate_request (current_year : string)
    (user : User) (department : option Department.t) (title description : string)
  : M ChangeControlRequest.t :=
  match department with
  | None => raise (ValidationError "Department is required to initiate a request")
  | Some department =>
      temp_cc_number <- query (generate_temp_cc_number current_year (Department.code department)) ;;
      request <- create_request (fun k =>
        mk k temp_cc_number None user department title description
           None None None None DRAFT 1 None EmptyString None None) ;;
      log_workflow_history request 1 "Initiation" user "Request initiated"
        ("Temporary CC number: " ++ temp_cc_number) None None ;;
      (* Auto-route to department head (Step 2) *)
      request <- route_to_dept_head request user ;;
      ret request
  end.

Definition dept_head_decision (now : datetime)
    (request : ChangeControlRequest.t) (actor : User) (approved : bool)
    (rejection_reason : string) : M ChangeControlRequest.t :=
  if negb (status_eqb (status request) PENDING_DEPT_HEAD) then
    raise (ValidationError "Request must be pending department head approval")
  else if match Department.head (department request) with
          | Some head => negb (user_eqb head actor)
          | None => true
          end then
    raise (ValidationError "Only the department head can make this decision")
  else
    let previous_status := status request in
    request <-
      (if approved then
         let request := set_status PENDING_QA_REGISTRATION request in
         let request := set_current_step 3 request in
         log_workflow_history request 2 "Department Head Feasibility" actor
           "Approved by department head" EmptyString
           (Some previous_status) (Some (status request)) ;;
         ret request
       else
         let request := set_status REJECTED request in
         let request :=
           set_rejection_reason
             (if String.eqb rejection_reason EmptyString
              then "Rejected by department head" else rejection_reason) request in
         let request := set_rejected_by (Some actor) request in
         let request := set_rejected_at (Some now) request in
         let request := set_current_step 2 request in
         log_workflow_history request 2 "Department Head Feasibility" actor
           "Rejected by department head" rejection_reason
           (Some previous_status) (Some (status request)) ;;
         ret request) ;;
    save_request request ;;
    ret request.

(** [create_risk_assessment] mutates [request] in place; the embedding
    returns the request next to the assessment. *)
Definition create_risk_assessment
    (request : ChangeControlRequest.t) (actor : User) (assigned_to : option User)
  : M (ChangeControlRequest.t * RiskAssessment.t) :=
  existing <- query (risk_assessment_of request) ;;
  match existing with
  | Some risk_assessment => ret (request, risk_assessment)
  | None =>
      let assigned_to :=
        match assigned_to with
        | Some u => u
        | None => match qa_registered_by request with Some u => u | None => actor end
        end in
      key <- query (fun db => next_pk RiskAssessment.pk (risk_assessments db)) ;;
      let risk_assessment :=
        RiskAssessment.mk key (pk request) assigned_to RiskAssessment.PENDING
                          EmptyString EmptyString None in
      write (fun db => set_risk_assessments (risk_assessments db ++ [risk_assessment]) db) ;;
      request <-
        (if status_eqb (status request) PENDING_CFT_EVALUATION then
           all_evaluators <- query (evaluators_of request) ;;
           all_evaluations <- query (evaluations_of request) ;;
           if Nat.eqb (List.length all_evaluators) (List.length all_evaluations) then
             let request := set_status PENDING_RISK_ASSESSMENT request in
             let request := set_current_step 5 request in
             save_request request ;;
             ret request
           else ret request
         else ret request) ;;
      log_workflow_history request 5 "Risk Assessment" actor
        "Risk assessment task created" ("Assigned to " ++ username assigned_to)
        None None ;;
      ret (request, risk_assessment)
  end.

(** An entry of [cft_evaluators]: a dict read with [.get]. *)
Record evaluator_data := mk_evaluator_data {
  ed_department : option Department.t;
  ed_evaluator : option User
}.

(** [CFTEvaluator.objects.get_or_create(request, department, evaluator)]:
    the lookup is on the three columns, the unique constraint on two. *)
Definition get_or_create_evaluator
    (request : ChangeControlRequest.t) (department : Department.t) (evaluator : User)
  : M unit :=
  fun db =>
    match filter (fun e => andb (Department.eqb (CFTEvaluator.department e) department)
                                (user_eqb (CFTEvaluator.evaluator e) evaluator))
                 (evaluators_of request db) with
    | [_] => (Return tt, db)
    | _ :: _ :: _ => (Raise MultipleObjectsReturned, db)
    | [] =>
        if existsb (fun e => Department.eqb (CFTEvaluator.department e) department)
                   (evaluators_of request db)
        then (Raise IntegrityError, db)
        else (Return tt,
              set_cft_evaluators
                (cft_evaluators db ++ [CFTEvaluator.mk (pk request) department evaluator]) db)
    end.

Definition impact_of_value (v : string) : option ImpactLevelChoices :=
  find (fun c => String.eqb (impact_value c) v) choices.

Definition qa_registration (current_year : string) (now : datetime)
    (request : ChangeControlRequest.t) (actor : User)
    (final_cc_number : option string) (impact_level : string)
    (cft_evaluators : list evaluator_data) (target_completion_time : Z)
  : M ChangeControlRequest.t :=
  if negb (status_eqb (status request) PENDING_QA_REGISTRATION) then
    raise (ValidationError "Request must be pending QA registration")
  else
    match impact_of_value impact_level with
    | None => raise (ValidationError ("Invalid impact level: " ++ impact_level))
    | Some level =>
        let previous_status := status request in
        final_cc_number <-
          match final_cc_number with
          | Some (String c s) => ret (String c s)
          | _ => query (generate_final_cc_number current_year
                          (Department.code (department request)))
          end ;;
        taken <- query (fun db =>
          existsb (fun r => andb (match ChangeControlRequest.final_cc_number r with
                                  | Some n => String.eqb n final_cc_number
                                  | None => false
                                  end)
                                 (negb (Nat.eqb (pk r) (pk request))))
                  (requests db)) ;;
        if taken : bool then
          raise (ValidationError ("Final CC number " ++ final_cc_number ++ " already exists"))
        else
          let request := set_final_cc_number (Some final_cc_number) request in
          let request := set_impact_level (Some level) request in
          let request := set_target_completion_time (Some target_completion_time) request in
          let request := set_qa_registered_by (Some actor) request in
          let request := set_qa_registration_date (Some now) request in
          let request := set_status PENDING_CFT_EVALUATION request in
          let request := set_current_step 4 request in
          save_request request ;;
          for_each cft_evaluators (fun evaluator_data =>
            match ed_department evaluator_data, ed_evaluator evaluator_data with
            | Some department, Some evaluator =>
                get_or_create_evaluator request department evaluator
            | _, _ => ret tt
            end) ;;
          log_workflow_history request 3 "QA-QMS Registration" actor
            "QA registration completed"
            ("Final CC: " ++ final_cc_number ++ ", Impact: " ++ impact_level)
            (Some previous_status) (Some (status request)) ;;
          match level with
          | MAJOR | CRITICAL =>
              created <- create_risk_assessment request actor None ;;
              ret (fst created)
          | MINOR => ret request
          end
    end.

(** An entry of [documents]: [doc.get('file')], [doc.get('description', '')]. *)
Record document_data := mk_document_data {
  dd_file : option string;
  dd_description : option string
}.

(** [CFTEvaluation.objects.get_or_create(request=, department=, defaults=)] *)
Definition get_or_create_evaluation
    (request : ChangeControlRequest.t) (department : Department.t)
    (defaults : nat -> CFTEvaluation.t) : M (CFTEvaluation.t * bool) :=
  fun db =>
    match filter (fun e => Department.eqb (CFTEvaluation.department e) department)
                 (evaluations_of request db) with
    | [] =>
        let evaluation := defaults (next_pk CFTEvaluation.pk (cft_evaluations db)) in
        (Return (evaluation, true),
         set_cft_evaluations (cft_evaluations db ++ [evaluation]) db)
    | [evaluation] => (Return (evaluation, false), db)
    | _ :: _ :: _ => (Raise MultipleObjectsReturned, db)
    end.

Definition cft_evaluation (now : datetime)
    (request : ChangeControlRequest.t) (actor : User) (department : Department.t)
    (impact_type : CFTEvaluation.ImpactTypeChoices)
    (decision : CFTEvaluation.DecisionChoices)
    (risk_level : CFTEvaluation.RiskLevelChoices)
    (evaluation_notes : string) (documents : list document_data)
  : M ChangeControlRequest.t :=
  if negb (status_eqb (status request) PENDING_CFT_EVALUATION) then
    raise (ValidationError "Request must be pending CFT evaluation")
  else
    assigned <- query (fun db =>
      existsb (fun e => andb (Department.eqb (CFTEvaluator.department e) department)
                             (user_eqb (CFTEvaluator.evaluator e) actor))
              (evaluators_of request db)) ;;
    if negb assigned then
      raise (ValidationError ("User " ++ username actor ++
                              " is not assigned as evaluator for " ++
                              Department.code department))
    else
      got <- get_or_create_evaluation request department (fun k =>
        CFTEvaluation.mk k (pk request) department actor impact_type decision
          risk_level evaluation_notes
          (if CFTEvaluation.decision_eqb decision CFTEvaluation.PENDING
           then None else Some now)) ;;
      let '(evaluation, created) := got in
      evaluation <-
        (if created : bool then ret evaluation
         else
           let evaluation :=
             CFTEvaluation.mk
               (CFTEvaluation.pk evaluation) (CFTEvaluation.request evaluation)
               (CFTEvaluation.department evaluation) (CFTEvaluation.evaluator evaluation)
               impact_type decision risk_level evaluation_notes
               (if CFTEvaluation.decision_eqb decision CFTEvaluation.PENDING
                then CFTEvaluation.completed_at evaluation else Some now) in
           save_evaluation evaluation ;;
           ret evaluation) ;;
      for_each documents (fun doc =>
        write (fun db =>
          set_cft_evaluation_documents
            (cft_evaluation_documents db ++
             [CFTEvaluationDocument.mk (CFTEvaluation.pk evaluation) (dd_file doc)
                (match dd_description doc with Some d => d | None => EmptyString end)])
            db)) ;;
      log_workflow_history request 4 "CFT Evaluation" actor
        ("CFT evaluation completed for " ++ Department.code department)
        ("Decision: " ++ CFTEvaluation.decision_value decision ++
         ", Risk: " ++ CFTEvaluation.risk_level_value risk_level)
        None None ;;
      (* Check if all CFT evaluations are complete *)
      all_evaluators <- query (evaluators_of request) ;;
      all_evaluations <- query (evaluations_of request) ;;
      if Nat.eqb (List.length all_evaluators) (List.length all_evaluations) then
        let rejected :=
          existsb (fun e => CFTEvaluation.decision_eqb (CFTEvaluation.decision e)
                                                       CFTEvaluation.REJECTED)
                  all_evaluations in
        risk_assessment <- query (risk_assessment_of request) ;;
        let request :=
          if rejected then
            let request := set_status REJECTED request in
            let request := set_rejection_reason "Rejected during CFT evaluation" request in
            let request := set_rejected_by (Some actor) request in
            set_rejected_at (Some now) request
          else
            match impact_level request with
            | Some MINOR =>
                set_current_step 6 (set_status PENDING_DOCUMENT_UPDATE request)
            | _ =>
                match risk_assessment with
                | Some assessment =>
                    if RiskAssessment.status_eqb (RiskAssessment.status assessment)
                                                 RiskAssessment.COMPLETED
                    then set_current_step 6 (set_status PENDING_DOCUMENT_UPDATE request)
                    else set_current_step 5 (set_status PENDING_RISK_ASSESSMENT request)
                | None =>
                    set_current_step 5 (set_status PENDING_RISK_ASSESSMENT request)
                end
            end in
        save_request request ;;
        ret request
      else ret request.

Definition complete_risk_assessment (now : datetime)
    (request : ChangeControlRequest.t) (actor : User)
    (findings recommendations : string)
  : M (ChangeControlRequest.t * RiskAssessment.t) :=
  existing <- query (risk_assessment_of request) ;;
  match existing with
  | None => raise (ValidationError "Risk assessment does not exist for this request")
  | Some risk_assessment =>
      if negb (user_eqb (RiskAssessment.assigned_to risk_assessment) actor) then
        raise (ValidationError "Only the assigned user can complete the risk assessment")
      else
        let risk_assessment :=
          RiskAssessment.mk
            (RiskAssessment.pk risk_assessment) (RiskAssessment.request risk_assessment)
            (RiskAssessment.assigned_to risk_assessment)
            RiskAssessment.COMPLETED findings recommendations (Some now) in
        save_risk_assessment risk_assessment ;;
        (* Move to document management step *)
        let previous_status := status request in
        let request := set_status PENDING_DOCUMENT_UPDATE request in
        let request := set_current_step 6 request in
        save_request request ;;
        log_workflow_history request 5 "Risk Assessment" actor
          "Risk assessment completed" EmptyString
          (Some previous_status) (Some (status request)) ;;
        ret (request, risk_assessment)
  end.

(** An entry of [suggested_documents]. *)
Record revision_data := mk_revision_data {
  rd_document_name : option string;
  rd_document_code : option string;
  rd_assigned_department : option Department.t
}.

(** [DocumentRevision.objects.get_or_create(request=, document_name=,
    document_code=, assigned_department=, defaults={'status': PENDING})];
    a lookup on a missing value matches no row, and the INSERT of a NULL
    in a NOT NULL column is refused. *)
Definition get_or_create_revision
    (request : ChangeControlRequest.t) (doc_data : revision_data) : M unit :=
  fun db =>
    match rd_document_name doc_data, rd_assigned_department doc_data with
    | Some document_name, Some assigned_department =>
        let document_code :=
          match rd_document_code doc_data with Some c => c | None => EmptyString end in
        match filter (fun r =>
                        andb (String.eqb (DocumentRevision.document_name r) document_name)
                          (andb (String.eqb (DocumentRevision.document_code r) document_code)
                                (Department.eqb (DocumentRevision.assigned_department r)
                                                assigned_department)))
                     (revisions_of request db) with
        | [] =>
            (Return tt,
             set_document_revisions
               (document_revisions db ++
                [DocumentRevision.mk
                   (next_pk DocumentRevision.pk (document_revisions db)) (pk request)
                   document_name document_code assigned_department
                   DocumentRevision.PENDING EmptyString None None])
               db)
        | [_] => (Return tt, db)
        | _ :: _ :: _ => (Raise MultipleObjectsReturned, db)
        end
    | _, _ => (Raise IntegrityError, db)
    end.

Definition document_management
    (request : ChangeControlRequest.t) (actor : User)
    (suggested_documents : list revision_data) : M ChangeControlRequest.t :=
  if negb (orb (status_eqb (status request) PENDING_DOCUMENT_UPDATE)
               (status_eqb (status request) PENDING_ACTION_PLAN)) then
    raise (ValidationError "Request is not in the correct status for document management")
  else
    for_each suggested_documents (get_or_create_revision request) ;;
    request <-
      (if status_eqb (status request) PENDING_DOCUMENT_UPDATE then
         let request := set_current_step 6 request in
         save_request request ;;
         ret request
       else ret request) ;;
    log_workflow_history request 6 "Document Management" actor
      "Document revisions suggested/updated" EmptyString None None ;;
    ret request.

(** The permission test that opens the source function has an empty body
    ([pass]) and is left out. *)
Definition complete_document_revision (now : datetime)
    (request : ChangeControlRequest.t) (actor : User)
    (document_revision : DocumentRevision.t) (revision_notes : string)
  : M (ChangeControlRequest.t * DocumentRevision.t) :=
  let document_revision :=
    DocumentRevision.mk
      (DocumentRevision.pk document_revision) (DocumentRevision.request document_revision)
      (DocumentRevision.document_name document_revision)
      (DocumentRevision.document_code document_revision)
      (DocumentRevision.assigned_department document_revision)
      DocumentRevision.COMPLETED revision_notes (Some now) (Some actor) in
  save_revision document_revision ;;
  pending_revisions <- query (fun db => filter DocumentRevision.open (revisions_of request db)) ;;
  match pending_revisions with
  | [] =>
      if status_eqb (status request) PENDING_DOCUMENT_UPDATE then
        let previous_status := status request in
        let request := set_status PENDING_ACTION_PLAN request in
        let request := set_current_step 7 request in
        save_request request ;;
        log_workflow_history request 6 "Document Management" actor
          "All document revisions completed" EmptyString
          (Some previous_status) (Some (status request)) ;;
        ret (request, document_revision)
      else ret (request, document_revision)
  | _ :: _ => ret (request, document_revision)
  end.

(** An entry of [action_plans]. *)
Record action_data := mk_action_data {
  ad_description : option string;
  ad_responsible_person : option User;
  ad_expected_timeline : option Z
}.

(** [ActionPlan.objects.create(...)]: the three columns are NOT NULL. *)
Definition create_plan (request : ChangeControlRequest.t) (data : action_data) : M unit :=
  fun db =>
    match ad_description data, ad_responsible_person data, ad_expected_timeline data with
    | Some description, Some responsible_person, Some expected_timeline =>
        (Return tt,
         set_action_plans
           (action_plans db ++
            [ActionPlan.mk (next_pk ActionPlan.pk (action_plans db)) (pk request)
               description responsible_person expected_timeline
               ActionPlan.PENDING None EmptyString])
           db)
    | _, _, _ => (Raise IntegrityError, db)
    end.

Definition action_plan_management
    (request : ChangeControlRequest.t) (actor : User) (action_plans : list action_data)
  : M ChangeControlRequest.t :=
  if negb (status_eqb (status request) PENDING_ACTION_PLAN) then
    raise (ValidationError "Request must be pending action plan")
  else
    for_each action_plans (create_plan request) ;;
    let request := set_current_step 7 request in
    save_request request ;;
    log_workflow_history request 7 "Action Plan & Implementation" actor
      "Action plan created/updated" EmptyString None None ;;
    ret request.

(** The statements of [complete_action_plan] that follow its permission
    test.  They are reached only if the name [ActionPlan] is bound when
    [ActionPlan.StatusChoices.COMPLETED] is read. *)
Definition complete_action_plan_body (now : datetime)
    (request : ChangeControlRequest.t) (actor : User)
    (action_plan : ActionPlan.t) (notes : string)
  : M (ChangeControlRequest.t * ActionPlan.t) :=
  let action_plan :=
    ActionPlan.mk
      (ActionPlan.pk action_plan) (ActionPlan.request action_plan)
      (ActionPlan.description action_plan) (ActionPlan.responsible_person action_plan)
      (ActionPlan.expected_timeline action_plan)
      ActionPlan.COMPLETED (Some now) notes in
  save_plan action_plan ;;
  pending_actions <- query (fun db => filter ActionPlan.open (plans_of request db)) ;;
  match pending_actions with
  | [] =>
      let previous_status := status request in
      let request := set_status PENDING_QA_EVALUATION request in
      let request := set_current_step 8 request in
      save_request request ;;
      log_workflow_history request 7 "Action Plan & Implementation" actor
        "All action plans completed" EmptyString
        (Some previous_status) (Some (status request)) ;;
      ret (request, action_plan)
  | _ :: _ => ret (request, action_plan)
  end.

(** workflow.py does not import [ActionPlan] at module level, and the
    function body contains [from .models import ActionPlan] (line 534),
    which makes the name local to the whole function.  The first statement
    after the permission test (line 528) reads it before that import has
    run, so Python raises UnboundLocalError there and the body above is
    never executed. *)
Definition complete_action_plan (now : datetime)
    (request : ChangeControlRequest.t) (actor : User)
    (action_plan : ActionPlan.t) (notes : string)
  : M (ChangeControlRequest.t * ActionPlan.t) :=
  if negb (user_eqb (ActionPlan.responsible_person action_plan) actor) then
    raise (ValidationError "Only the responsible person can complete this action")
  else raise (UnboundLocalError "ActionPlan").

Definition qa_final_evaluation
    (request : ChangeControlRequest.t) (actor : User)
    (cft_complete document_updates_complete risk_assessment_closed
     regulatory_filings_complete : bool) (comments : string)
  : M ChangeControlRequest.t :=
  if negb (status_eqb (status request) PENDING_QA_EVALUATION) then
    raise (ValidationError "Request must be pending QA evaluation")
  else if negb cft_complete then
    raise (ValidationError "CFT evaluations are not complete")
  else if negb document_updates_complete then
    raise (ValidationError "Document updates are not complete")
  else
    risk_assessment <- query (risk_assessment_of request) ;;
    let major_or_critical :=
      match impact_level request with
      | Some MAJOR | Some CRITICAL => true
      | _ => false
      end in
    if andb major_or_critical (negb risk_assessment_closed) then
      raise (ValidationError "Risk assessment is not closed")
    else if andb major_or_critical
                 (match risk_assessment with
                  | Some a => negb (RiskAssessment.status_eqb (RiskAssessment.status a)
                                                              RiskAssessment.COMPLETED)
                  | None => true
                  end) then
      raise (ValidationError "Risk assessment must be completed")
    else
      let previous_status := status request in
      let request := set_status PENDING_QA_HEAD_APPROVAL request in
      let request := set_current_step 9 request in
      save_request request ;;
      log_workflow_history request 8 "QA Final Evaluation" actor
        "QA final evaluation completed" comments
        (Some previous_status) (Some (status request)) ;;
      ret request.

Definition qa_head_approval
    (request : ChangeControlRequest.t) (actor : User) (approved : bool)
    (rejection_reason : string) : M ChangeControlRequest.t :=
  if negb (status_eqb (status request) PENDING_QA_HEAD_APPROVAL) then
    raise (ValidationError "Request must be pending QA head approval")
  else
    let previous_status := status request in
    request <-
      (if approved then
         let request := set_status PENDING_VERIFICATION request in
         let request := set_current_step 10 request in
         log_workflow_history request 9 "QA Head Approval" actor
           "Approved by QA head" EmptyString
           (Some previous_status) (Some (status request)) ;;
         ret request
       else
         let request := set_status PENDING_ACTION_PLAN request in
         let request := set_current_step 7 request in
         log_workflow_history request 9 "QA Head Approval" actor
           "Returned for correction" rejection_reason
           (Some previous_status) (Some (status request)) ;;
         ret request) ;;
    save_request request ;;
    ret request.

Definition qa_closure (request : ChangeControlRequest.t) (actor : User)
  : M ChangeControlRequest.t :=
  if negb (status_eqb (status request) CLOSED) then
    raise (ValidationError "Request must be closed before QA closure")
  else
    log_workflow_history request 11 "QA Closure" actor
      "Change control request closed" "Request successfully closed" None None ;;
    ret request.

Definition post_implementation_verification (now : datetime)
    (request : ChangeControlRequest.t) (actor : User)
    (change_implemented training_conducted no_adverse_impact : bool)
    (comments : string) : M ChangeControlRequest.t :=
  if negb (status_eqb (status request) PENDING_VERIFICATION) then
    raise (ValidationError "Request must be pending verification")
  else if negb (forallb (fun b => b)
                  [change_implemented; training_conducted; no_adverse_impact]) then
    raise (ValidationError "All verification checks must pass")
  else
    let previous_status := status request in
    let request := set_status CLOSED request in
    let request := set_current_step 11 request in
    let request := set_closed_at (Some now) request in
    save_request request ;;
    log_workflow_history request 10 "Post-Implementation Verification" actor
      "Verification completed" comments
      (Some previous_status) (Some (status request)) ;;
    (* Auto-close (Step 11) *)
    request <- qa_closure request actor ;;
    ret request.

(** ** The operations as the boundary layer invokes them

    A view loads the request afresh ([self.get_object()]), loads the
    sub-record the call names ([get_object_or_404(Model, id=, request=)])
    and calls the workflow function.  The permission oracle is outside the
    core and is not consulted here. *)

Inductive Operation :=
| Initiate (current_year : string) (user : User) (department : option Department.t)
           (title description : string)
| DeptHeadDecision (now : datetime) (request : nat) (actor : User) (approved : bool)
                   (rejection_reason : string)
| QARegister (current_year : string) (now : datetime) (request : nat) (actor : User)
             (final_cc_number : option string) (impact_level : string)
             (cft_evaluators : list evaluator_data) (target_completion_time : Z)
| SubmitCFTEvaluation (now : datetime) (request : nat) (actor : User)
                      (department : Department.t)
                      (impact_type : CFTEvaluation.ImpactTypeChoices)
                      (decision : CFTEvaluation.DecisionChoices)
                      (risk_level : CFTEvaluation.RiskLevelChoices)
                      (evaluation_notes : string)
| CompleteRiskAssessment (now : datetime) (request : nat) (actor : User)
                         (findings recommendations : string)
| CompleteDocumentRevision (now : datetime) (request : nat) (actor : User)
                           (revision_id : nat) (revision_notes : string)
| CreateActionPlans (request : nat) (actor : User) (action_plans : list action_data)
| CompleteActionPlanItem (now : datetime) (request : nat) (actor : User)
                         (action_plan_id : nat) (notes : string)
| QAFinalEvaluation (request : nat) (actor : User)
                    (cft_complete document_updates_complete risk_assessment_closed
                     regulatory_filings_complete : bool) (comments : string)
| QAHeadApproval (request : nat) (actor : User) (approved : bool)
                 (rejection_reason : string)
| Verify (now : datetime) (request : nat) (actor : User)
         (change_implemented training_conducted no_adverse_impact : bool)
         (comments : string).

(** What a call answers: the request as serialised, or the error. *)
Inductive Response :=
| Ok (request : ChangeControlRequest.t)
| Failed (e : Exception)
| NotFound.

Definition respond {A} (to_request : A -> ChangeControlRequest.t) (m : M A) (db : Store)
  : Response * Store :=
  match m db with
  | (Return a, db') => (Ok (to_request a), db')
  | (Raise e, db') => (Failed e, db')
  end.

Definition with_request (key : nat) (db : Store)
    (k : ChangeControlRequest.t -> Response * Store) : Response * Store :=
  match get_object key db with
  | Some request => k request
  | None => (NotFound, db)
  end.

Definition perform (op : Operation) (db : Store) : Response * Store :=
  match op with
  | Initiate current_year user department title description =>
      respond id (initiate_request current_year user department title description) db
  | DeptHeadDecision now key actor approved rejection_reason =>
      with_request key db (fun request =>
        respond id (dept_head_decision now request actor approved rejection_reason) db)
  | QARegister current_year now key actor final_cc_number impact_level evaluators target =>
      with_request key db (fun request =>
        respond id (qa_registration current_year now request actor final_cc_number
                                    impact_level evaluators target) db)
  | SubmitCFTEvaluation now key actor department impact_type decision risk_level notes =>
      with_request key db (fun request =>
        respond id (cft_evaluation now request actor department impact_type decision
                                   risk_level notes []) db)
  | CompleteRiskAssessment now key actor findings recommendations =>
      with_request key db (fun request =>
        respond fst (complete_risk_assessment now request actor findings recommendations) db)
  | CompleteDocumentRevision now key actor revision_id revision_notes =>
      with_request key db (fun request =>
        match find (fun r => andb (Nat.eqb (DocumentRevision.pk r) revision_id)
                                  (Nat.eqb (DocumentRevision.request r) key))
                   (document_revisions db) with
        | Some revision =>
            respond fst (complete_document_revision now request actor revision
                                                    revision_notes) db
        | None => (NotFound, db)
        end)
  | CreateActionPlans key actor plans =>
      with_request key db (fun request =>
        respond id (action_plan_management request actor plans) db)
  | CompleteActionPlanItem now key actor action_plan_id notes =>
      with_request key db (fun request =>
        match find (fun p => andb (Nat.eqb (ActionPlan.pk p) action_plan_id)
                                  (Nat.eqb (ActionPlan.request p) key))
                   (action_plans db) with
        | Some plan => respond fst (complete_action_plan now request actor plan notes) db
        | None => (NotFound, db)
        end)
  | QAFinalEvaluation key actor cft docs risk filings comments =>
      with_request key db (fun request =>
        respond id (qa_final_evaluation request actor cft docs risk filings comments) db)
  | QAHeadApproval key actor approved rejection_reason =>
      with_request key db (fun request =>
        respond id (qa_head_approval request actor approved rejection_reason) db)
  | Verify now key actor implemented trained no_impact comments =>
      with_request key db (fun request =>
        respond id (post_implementation_verification now request actor implemented
                                                     trained no_impact comments) db)
  end.

(** A sequence of calls, each on the database the previous one left. *)
Fixpoint run (ops : list Operation) (db : Store) : Store :=
  match ops with
  | [] => db
  | op :: rest => run rest (snd (perform op db))
  end.

(** ** permissions.py *)

(** [department.head == user if department and department.head else False] *)
Definition is_department_head (user : User) (department : option Department.t) : bool :=
  match department with
  | Some department =>
      match Department.head department with
      | Some head => user_eqb head user
      | None => false
      end
  | None => false
  end.

(** [CFTEvaluator.objects.filter(request=, evaluator=)], narrowed to the
    department when one is given, [.exists()]. *)
Definition is_cft_evaluator (user : User) (request : ChangeControlRequest.t)
    (department : option Department.t) (db : Store) : bool :=
  let evaluators :=
    filter (fun e => user_eqb (CFTEvaluator.evaluator e) user) (evaluators_of request db) in
  let evaluators :=
    match department with
    | Some department =>
        filter (fun e => Department.eqb (CFTEvaluator.department e) department) evaluators
    | None => evaluators
    end in
  match evaluators with [] => false | _ :: _ => true end.

Definition can_approve_dept_head (user : User) (request : ChangeControlRequest.t) : bool :=
  is_department_head user (Some (department request)).

Definition can_evaluate_cft (user : User) (request : ChangeControlRequest.t)
    (department : option Department.t) (db : Store) : bool :=
  is_cft_evaluator user request department db.

(** ** utils.py: the department of a user *)

(** utils.py: [get_user_department].  [Department.objects.get(head=user)]
    over the rows of the department table; only [DoesNotExist] is caught. *)
Definition get_user_department (departments : list Department.t) (user : User)
  : outcome (option Department.t) :=
  match filter (fun d => is_department_head user (Some d)) departments with
  | [] => Return None
  | [department] => Return (Some department)
  | _ :: _ :: _ => Raise MultipleObjectsReturned
  end.

(** ** models.py: validation *)

(** models.py: [ChangeControlRequest.clean]. *)
Definition clean (r : ChangeControlRequest.t) : outcome unit :=
  if andb (status_eqb (status r) REJECTED) (String.eqb (rejection_reason r) EmptyString)
  then Raise (ValidationError "Rejection reason is required when status is Rejected")
  else Return tt.

(** ** Predicates of the specification *)

(** The rejection fields of a request are populated. *)
Definition rejection_populated (r : ChangeControlRequest.t) : bool :=
  andb (negb (String.eqb (rejection_reason r) EmptyString))
       (andb (match rejected_by r with Some _ => true | None => false end)
             (match rejected_at r with Some _ => true | None => false end)).

(** The audit log grew by exactly the entries of [transitions], in order:
    each is an entry of request [key] with that previous and new status. *)
Definition logged (db db' : Store) (key : nat)
    (transitions : list (StatusChoices * StatusChoices)) : Prop :=
  exists entries,
    workflow_history db' = workflow_history db ++ entries /\
    map (fun h => (WorkflowHistory.request h,
                   (WorkflowHistory.previous_status h, WorkflowHistory.new_status h)))
        entries =
    map (fun t => (key, t)) transitions.

(** Primary keys of the evaluation table are distinct. *)
Definition evaluation_keys_distinct (db : Store) : Prop :=
  NoDup (map CFTEvaluation.pk (cft_evaluations db)).

(** The evaluations of [request] made for [department]. *)
Definition evaluations_for
    (request : ChangeControlRequest.t) (department : Department.t) (db : Store)
  : list CFTEvaluation.t :=
  filter (fun e => Department.eqb (CFTEvaluation.department e) department)
         (evaluations_of request db).

(** [actor] is the evaluator assigned to [request] for [department]. *)
Definition assigned_evaluator
    (request : ChangeControlRequest.t) (department : Department.t) (actor : User)
    (db : Store) : bool :=
  existsb (fun e => andb (Department.eqb (CFTEvaluator.department e) department)
                         (user_eqb (CFTEvaluator.evaluator e) actor))
          (evaluators_of request db).

(** Some evaluation of [request] carries the decision Rejected. *)
Definition any_rejected (request : ChangeControlRequest.t) (db : Store) : Prop :=
  exists e, In e (evaluations_of request db) /\
            CFTEvaluation.decision e = CFTEvaluation.REJECTED.

(** The risk assessment of [request] exists and is Completed. *)
Definition risk_assessment_completed (request : ChangeControlRequest.t) (db : Store) : Prop :=
  exists a, risk_assessment_of request db = Some a /\
            RiskAssessment.status a = RiskAssessment.COMPLETED.

(** The final tracking number that [qa_registration] assigns: the one
    passed in, or a generated one when none (or an empty one) is passed. *)
Definition assigned_final_number (current_year : string)
    (request : ChangeControlRequest.t) (final_cc_number : option string) (db : Store)
  : string :=
  match final_cc_number with
  | Some (String c s) => String c s
  | _ => generate_final_cc_number current_year (Department.code (department request)) db
  end.

(** ** The two halves of [cft_evaluation]

    Used by the proofs only: the database after the upsert, the document
    rows and the history entry, and the request after the completion check.
    [cft_evaluation_run] below proves that [cft_evaluation] computes exactly
    these. *)
Section Upsert.
Variables (now : datetime) (request : ChangeControlRequest.t) (actor : User)
          (department : Department.t)
          (impact_type : CFTEvaluation.ImpactTypeChoices)
          (decision : CFTEvaluation.DecisionChoices)
          (risk_level : CFTEvaluation.RiskLevelChoices)
          (notes : string) (documents : list document_data).

Definition upserted_row (db : Store) : CFTEvaluation.t :=
  match evaluations_for request department db with
  | [] =>
      CFTEvaluation.mk (next_pk CFTEvaluation.pk (cft_evaluations db)) (pk request)
        department actor impact_type decision risk_level notes
        (if CFTEvaluation.decision_eqb decision CFTEvaluation.PENDING
         then None else Some now)
  | old :: _ =>
      CFTEvaluation.mk (CFTEvaluation.pk old) (CFTEvaluation.request old)
        (CFTEvaluation.department old) (CFTEvaluation.evaluator old)
        impact_type decision risk_level notes
        (if CFTEvaluation.decision_eqb decision CFTEvaluation.PENDING
         then CFTEvaluation.completed_at old else Some now)
  end.

Definition after_upsert (db : Store) : Store :=
  mkStore
    (requests db)
    (cft_evaluators db)
    (match evaluations_for request department db with
     | [] => cft_evaluations db ++ [upserted_row db]
     | _ :: _ => save_row CFTEvaluation.pk (upserted_row db) (cft_evaluations db)
     end)
    (cft_evaluation_documents db ++
     map (fun doc =>
            CFTEvaluationDocument.mk (CFTEvaluation.pk (upserted_row db)) (dd_file doc)
              (match dd_description doc with Some d => d | None => EmptyString end))
         documents)
    (risk_assessments db)
    (document_revisions db)
    (action_plans db)
    (workflow_history db ++
     [WorkflowHistory.mk (pk request) 4 "CFT Evaluation" actor
        ("CFT evaluation completed for " ++ Department.code department)
        ("Decision: " ++ CFTEvaluation.decision_value decision ++
         ", Risk: " ++ CFTEvaluation.risk_level_value risk_level)
        (status request) (status request)]).

Definition decided (db : Store) : ChangeControlRequest.t :=
  if existsb (fun e => CFTEvaluation.decision_eqb (CFTEvaluation.decision e)
                                                  CFTEvaluation.REJECTED)
             (evaluations_of request db)
  then set_rejected_at (Some now)
         (set_rejected_by (Some actor)
            (set_rejection_reason "Rejected during CFT evaluation"
               (set_status REJECTED request)))
  else
    match impact_level request with
    | Some MINOR => set_current_step 6 (set_status PENDING_DOCUMENT_UPDATE request)
    | _ =>
        match risk_assessment_of request db with
        | Some assessment =>
            if RiskAssessment.status_eqb (RiskAssessment.status assessment)
                                         RiskAssessment.COMPLETED
            then set_current_step 6 (set_status PENDING_DOCUMENT_UPDATE request)
            else set_current_step 5 (set_status PENDING_RISK_ASSESSMENT request)
        | None => set_current_step 5 (set_status PENDING_RISK_ASSESSMENT request)
        end
    end.
End Upsert.

Definition submission_payload : Type :=
  datetime * CFTEvaluation.ImpactTypeChoices * CFTEvaluation.RiskLevelChoices * string.

(** The submission, with decision Pending, of the evaluator assigned by
    [row]; [payload] gives the other fields. *)
Definition pending_submission (key : nat) (payload : CFTEvaluator.t -> submission_payload)
    (row : CFTEvaluator.t) : Operation :=
  let '(now, impact_type, risk_level, notes) := payload row in
  SubmitCFTEvaluation now key (CFTEvaluator.evaluator row)
    (CFTEvaluator.department row) impact_type CFTEvaluation.PENDING risk_level notes.

(** One such submission per evaluator assignment, in their order. *)
Definition pending_submissions (key : nat) (payload : CFTEvaluator.t -> submission_payload)
    (rows : list CFTEvaluator.t) : list Operation :=
  map (pending_submission key payload) rows.

(** The database once the assignments in [done] have submitted Pending:
    the request row is untouched, [rows] are its assignments, [risk] its
    risk assessment, and it has one Pending evaluation without completion
    time per assignment in [done]. *)
Definition submitted (key : nat) (request : ChangeControlRequest.t)
    (rows : list CFTEvaluator.t) (risk : option RiskAssessment.t)
    (done : list CFTEvaluator.t) (db : Store) : Prop :=
  get_object key db = Some request /\
  evaluators_of request db = rows /\
  risk_assessment_of request db = risk /\
  List.length (evaluations_of request db) = List.length done /\
  forall e, In e (evaluations_of request db) ->
            CFTEvaluation.decision e = CFTEvaluation.PENDING /\
            CFTEvaluation.completed_at e = None /\
            exists row, In row done /\
                        Department.eqb (CFTEvaluation.department e)
                                       (CFTEvaluator.department row) = true.

(** The database once the last assignment has submitted: the saved request
    is the one the completion check decided. *)
Definition advanced (key : nat) (request : ChangeControlRequest.t)
    (rows : list CFTEvaluator.t) (risk : option RiskAssessment.t) (db' : Store) : Prop :=
  exists request' now actor,
    request' = decided now request actor db' /\
    get_object key db' = Some request' /\
    evaluators_of request db' = rows /\
    risk_assessment_of request db' = risk /\
    List.length (evaluations_of request db') = List.length rows /\
    forall e, In e (evaluations_of request db') ->
              CFTEvaluation.decision e = CFTEvaluation.PENDING /\
              CFTEvaluation.completed_at e = None.

(** ** Further predicates *)

(** A string of ASCII characters other than DEL: [int] brings it to ASCII
    as it stands. *)
Fixpoint plain (s : string) : bool :=
  match s with
  | EmptyString => true
  | String c r => andb (byte c <? 127)%Z (plain r)
  end.

(** The string holds no slash. *)
Fixpoint no_slash (s : string) : bool :=
  match s with
  | EmptyString => true
  | String c r => andb (negb (Ascii.eqb c "/")) (no_slash r)
  end.




(** The impact level calls for a risk assessment. *)
Definition major_or_critical (request : ChangeControlRequest.t) : bool :=
  match impact_level request with
  | Some MAJOR | Some CRITICAL => true
  | _ => false
  end.

(** The assessment as [complete_risk_assessment] saves it. *)
Definition completed_assessment (now : datetime) (a : RiskAssessment.t)
    (findings recommendations : string) : RiskAssessment.t :=
  RiskAssessment.mk (RiskAssessment.pk a) (RiskAssessment.request a)
                    (RiskAssessment.assigned_to a) RiskAssessment.COMPLETED
                    findings recommendations (Some now).

(** An entry of [action_plans] that names the three mandatory columns. *)
Definition complete_plan (data : action_data) : bool :=
  match ad_description data, ad_responsible_person data, ad_expected_timeline data with
  | Some _, Some _, Some _ => true
  | _, _, _ => false
  end.

(** What an action plan row records of the entry it was created from. *)
Definition plan_summary (p : ActionPlan.t)
  : nat * option string * option User * option Z * ActionPlan.StatusChoices :=
  (ActionPlan.request p, Some (ActionPlan.description p),
   Some (ActionPlan.responsible_person p), Some (ActionPlan.expected_timeline p),
   ActionPlan.status p).

Definition wanted_plan (request : ChangeControlRequest.t) (data : action_data)
  : nat * option string * option User * option Z * ActionPlan.StatusChoices :=
  (pk request, ad_description data, ad_responsible_person data,
   ad_expected_timeline data, ActionPlan.PENDING).

(** The revision as [complete_document_revision] saves it. *)
Definition completed_revision (now : datetime) (actor : User)
    (revision : DocumentRevision.t) (notes : string) : DocumentRevision.t :=
  DocumentRevision.mk
    (DocumentRevision.pk revision) (DocumentRevision.request revision)
    (DocumentRevision.document_name revision) (DocumentRevision.document_code revision)
    (DocumentRevision.assigned_department revision)
    DocumentRevision.COMPLETED notes (Some now) (Some actor).

(** The revisions of [request], other than [revision], that are Pending or
    InProgress. *)
Definition other_open_revisions (request : ChangeControlRequest.t)
    (revision : DocumentRevision.t) (db : Store) : list DocumentRevision.t :=
  filter (fun r => andb (DocumentRevision.open r)
                        (negb (Nat.eqb (DocumentRevision.pk r)
                                       (DocumentRevision.pk revision))))
         (revisions_of request db).

(** The lookup of [get_or_create_revision]. *)
Definition revision_matches (document_name document_code : string)
    (assigned_department : Department.t) (r : DocumentRevision.t) : bool :=
  andb (String.eqb (DocumentRevision.document_name r) document_name)
       (andb (String.eqb (DocumentRevision.document_code r) document_code)
             (Department.eqb (DocumentRevision.assigned_department r) assigned_department)).

(** The request has exactly one revision for the document of [doc_data]. *)
Definition recorded (request : ChangeControlRequest.t) (doc_data : revision_data)
    (db : Store) : Prop :=
  exists document_name assigned_department revision,
    rd_document_name doc_data = Some document_name /\
    rd_assigned_department doc_data = Some assigned_department /\
    filter (revision_matches document_name
              (match rd_document_code doc_data with Some c => c | None => EmptyString end)
              assigned_department)
           (revisions_of request db) = [revision].

(** The evaluation is recorded for a user who is assigned as evaluator to
    its request and department. *)
Definition by_assigned_evaluator (db : Store) (e : CFTEvaluation.t) : bool :=
  existsb (fun a => andb (Nat.eqb (CFTEvaluator.request a) (CFTEvaluation.request e))
                      (andb (Department.eqb (CFTEvaluator.department a)
                                            (CFTEvaluation.department e))
                            (user_eqb (CFTEvaluator.evaluator a)
                                      (CFTEvaluation.evaluator e))))
          (cft_evaluators db).

(** ** Invariants of the database *)

(** [m] keeps [P], whether it returns or raises. *)
Definition preserves {A} (P : Store -> Prop) (m : M A) : Prop :=
  forall db, P db -> P (snd (m db)).

(** [m] keeps [P], and what it returns satisfies [post]. *)
Definition establishes {A} (P : Store -> Prop) (m : M A) (post : A -> Prop) : Prop :=
  forall db, P db ->
    P (snd (m db)) /\ forall a, fst (m db) = Return a -> post a.

(** Every stored request satisfies [Q]. *)
Definition rows (Q : ChangeControlRequest.t -> Prop) (db : Store) : Prop :=
  Forall Q (requests db).

(** The row that [initiate_request] creates. *)
Definition created_row (key : nat) (temp_cc_number : string) (user : User)
    (department : Department.t) (title description : string) : ChangeControlRequest.t :=
  mk key temp_cc_number None user department title description
     None None None None DRAFT 1 None EmptyString None None.

(** The changes that the workflow functions save to a request, each with
    the status test that guards it. *)
Inductive row_step : ChangeControlRequest.t -> ChangeControlRequest.t -> Prop :=
| routed r :
    status r = DRAFT ->
    row_step r (set_current_step 2 (set_status PENDING_DEPT_HEAD r))
| approved_by_head r :
    status r = PENDING_DEPT_HEAD ->
    row_step r (set_current_step 3 (set_status PENDING_QA_REGISTRATION r))
| rejected_by_head r reason actor now :
    status r = PENDING_DEPT_HEAD -> reason <> EmptyString ->
    row_step r (set_current_step 2
                  (set_rejected_at (Some now)
                     (set_rejected_by (Some actor)
                        (set_rejection_reason reason (set_status REJECTED r)))))
| registered r final level target actor now :
    status r = PENDING_QA_REGISTRATION ->
    row_step r (set_current_step 4
                  (set_status PENDING_CFT_EVALUATION
                     (set_qa_registration_date (Some now)
                        (set_qa_registered_by (Some actor)
                           (set_target_completion_time (Some target)
                              (set_impact_level (Some level)
                                 (set_final_cc_number (Some final) r)))))))
| awaiting_risk_assessment r :
    status r = PENDING_CFT_EVALUATION ->
    row_step r (set_current_step 5 (set_status PENDING_RISK_ASSESSMENT r))
| rejected_by_evaluators r actor now :
    status r = PENDING_CFT_EVALUATION ->
    row_step r (set_rejected_at (Some now)
                  (set_rejected_by (Some actor)
                     (set_rejection_reason "Rejected during CFT evaluation"
                        (set_status REJECTED r))))
| awaiting_documents r :
    row_step r (set_current_step 6 (set_status PENDING_DOCUMENT_UPDATE r))
| documents_suggested r :
    status r = PENDING_DOCUMENT_UPDATE ->
    row_step r (set_current_step 6 r)
| documents_revised r :
    status r = PENDING_DOCUMENT_UPDATE ->
    row_step r (set_current_step 7 (set_status PENDING_ACTION_PLAN r))
| plans_created r :
    status r = PENDING_ACTION_PLAN ->
    row_step r (set_current_step 7 r)
| evaluated_by_qa r :
    status r = PENDING_QA_EVALUATION ->
    row_step r (set_current_step 9 (set_status PENDING_QA_HEAD_APPROVAL r))
| approved_by_qa_head r :
    status r = PENDING_QA_HEAD_APPROVAL ->
    row_step r (set_current_step 10 (set_status PENDING_VERIFICATION r))
| returned_by_qa_head r :
    status r = PENDING_QA_HEAD_APPROVAL ->
    row_step r (set_current_step 7 (set_status PENDING_ACTION_PLAN r))
| verified r now :
    status r = PENDING_VERIFICATION ->
    row_step r (set_closed_at (Some now)
                  (set_current_step 11 (set_status CLOSED r))).

(** The step number that the workflow functions assign together with each
    status; a request is rejected at step 2 or at step 4. *)
Definition step_matches_status (r : ChangeControlRequest.t) : bool :=
  match status r with
  | DRAFT => Z.eqb (current_step r) 1
  | PENDING_DEPT_HEAD => Z.eqb (current_step r) 2
  | PENDING_QA_REGISTRATION => Z.eqb (current_step r) 3
  | PENDING_CFT_EVALUATION => Z.eqb (current_step r) 4
  | PENDING_RISK_ASSESSMENT => Z.eqb (current_step r) 5
  | PENDING_DOCUMENT_UPDATE => Z.eqb (current_step r) 6
  | PENDING_ACTION_PLAN => Z.eqb (current_step r) 7
  | PENDING_QA_EVALUATION => Z.eqb (current_step r) 8
  | PENDING_QA_HEAD_APPROVAL => Z.eqb (current_step r) 9
  | PENDING_VERIFICATION => Z.eqb (current_step r) 10
  | CLOSED => Z.eqb (current_step r) 11
  | REJECTED => orb (Z.eqb (current_step r) 2) (Z.eqb (current_step r) 4)
  end.

(** The request has not reached the QA final evaluation and carries no
    closing date. *)
Definition before_qa_evaluation (r : ChangeControlRequest.t) : bool :=
  match status r, closed_at r with
  | (PENDING_QA_EVALUATION | PENDING_QA_HEAD_APPROVAL | PENDING_VERIFICATION | CLOSED), _ =>
      false
  | _, Some _ => false
  | _, None => true
  end.

(** [l'] is [l] followed by further rows. *)
Definition extended {A} (l l' : list A) : Prop := exists added, l' = l ++ added.

(** No table has lost or reordered a row; the tables whose rows the
    workflow saves again are compared by primary key. *)
Definition grown (db db' : Store) : Prop :=
  extended (map pk (requests db)) (map pk (requests db')) /\
  extended (cft_evaluators db) (cft_evaluators db') /\
  extended (map CFTEvaluation.pk (cft_evaluations db))
           (map CFTEvaluation.pk (cft_evaluations db')) /\
  extended (cft_evaluation_documents db) (cft_evaluation_documents db') /\
  extended (map RiskAssessment.pk (risk_assessments db))
           (map RiskAssessment.pk (risk_assessments db')) /\
  extended (map DocumentRevision.pk (document_revisions db))
           (map DocumentRevision.pk (document_revisions db')) /\
  extended (action_plans db) (action_plans db') /\
  extended (workflow_history db) (workflow_history db').

(** ** Calls that are refused *)

(** [m] never raises. *)
Definition returns {A} (m : M A) : Prop :=
  forall db, exists a db', m db = (Return a, db').

(** When [m] raises, the database is as it was before. *)
Definition all_or_nothing {A} (m : M A) : Prop :=
  forall db e db', m db = (Raise e, db') -> db' = db.

(** The operations that validate everything before the first write. *)
Definition validates_first (op : Operation) : bool :=
  match op with
  | Initiate _ _ _ _ _ => false
  | QARegister _ _ _ _ _ _ _ _ => false
  | CreateActionPlans _ _ _ => false
  | _ => true
  end.

(** ** Concrete data used by the examples *)

Definition alice : User := mkUser 1 "alice".
Definition bob : User := mkUser 2 "bob".
Definition quinn : User := mkUser 3 "quinn".
Definition eve : User := mkUser 4 "eve".
Definition dana : User := mkUser 5 "dana".

Definition dept_qa : Department.t := Department.mk 1 "QA" "Quality Assurance" (Some bob).
Definition dept_pd : Department.t := Department.mk 2 "PD" "Production" (Some dana).
Definition dept_ra : Department.t := Department.mk 3 "RA" "Regulatory Affairs" None.

(** Initiation in QA, approval by the department head. *)
Definition approved_ops : list Operation :=
  [ Initiate "26" alice (Some dept_qa) "X" "change X";
    DeptHeadDecision 10%Z 1 bob true EmptyString ].

(** A Major request with one evaluator, whose evaluation rejects it. *)
Definition rejected_ops : list Operation :=
  approved_ops ++
  [ QARegister "26" 20%Z 1 quinn None "Major"
      [mk_evaluator_data (Some dept_pd) (Some eve)] 400%Z;
    SubmitCFTEvaluation 30%Z 1 eve dept_pd CFTEvaluation.QUALITY CFTEvaluation.REJECTED
      CFTEvaluation.HIGH "no" ].

(** A Major request with two evaluators, registered. *)
Definition registered_ops : list Operation :=
  approved_ops ++
  [ QARegister "26" 20%Z 1 quinn None "Major"
      [mk_evaluator_data (Some dept_pd) (Some eve);
       mk_evaluator_data (Some dept_qa) (Some bob)] 400%Z ].

(** A Minor request with one evaluator, registered. *)
Definition minor_ops : list Operation :=
  approved_ops ++
  [ QARegister "26" 20%Z 1 quinn None "Minor"
      [mk_evaluator_data (Some dept_pd) (Some eve)] 400%Z ].

(** A registered request at a later stage of the workflow, and a database
    that holds it. *)
Definition sample_request (s : StatusChoices) (step : Z)
    (level : option ImpactLevelChoices) : ChangeControlRequest.t :=
  mk 1 "REQ/CC/26/QA/00001" (Some "REQ/CC/26/QA/00001") alice dept_qa "X" "change X"
     level (Some 400%Z) (Some quinn) (Some 20%Z) s step None EmptyString None None.

Definition store_of (request : ChangeControlRequest.t) : Store :=
  set_requests [request] empty_store.

(** The first stored request. *)
Definition first_request (db : Store) : ChangeControlRequest.t :=
  hd (sample_request DRAFT 1 None) (requests db).

(** A request in PendingDocumentUpdate with two revisions to make. *)
Definition revising_request : ChangeControlRequest.t :=
  sample_request PENDING_DOCUMENT_UPDATE 6 (Some MINOR).

Definition revision_sop : DocumentRevision.t :=
  DocumentRevision.mk 1 1 "SOP-7" "S7" dept_pd DocumentRevision.PENDING EmptyString None None.

Definition revision_form : DocumentRevision.t :=
  DocumentRevision.mk 2 1 "FORM-2" "F2" dept_qa DocumentRevision.PENDING EmptyString None None.

Definition revising_store : Store :=
  set_document_revisions [revision_sop; revision_form] (store_of revising_request).

(** A plan to create, and an entry that lacks its description. *)
Definition training_plan : action_data :=
  mk_action_data (Some "train the operators"%string) (Some eve) (Some 50%Z).
Definition nameless_plan : action_data :=
  mk_action_data None (Some eve) (Some 60%Z).

(** A document to revise. *)
Definition sop_document : revision_data :=
  mk_revision_data (Some "SOP-7"%string) (Some "S7"%string) (Some dept_pd).

(** The database that holds the registered Minor request. *)
Definition registered_minor_store : Store := run minor_ops empty_store.

(** A second department, whose code is that of QA in small letters, and
    the database after one initiation in QA. *)
Definition dept_qa_small : Department.t :=
  Department.mk 4 "qa" "Quality Analytics" (Some dana).

Definition initiated_store : Store :=
  run [Initiate "26" alice (Some dept_qa) "X" "change X"] empty_store.

(** A final number typed in at registration: its department code is in
    small letters and its last segment is the Arabic-Indic digit three
    (U+0663, the bytes D9 A3). *)
Definition typed_number : string :=
  "REQ/CC/26/qa/" ++ String (ascii_of_nat 217) (String (ascii_of_nat 163) EmptyString).

Definition typed_ops : list Operation :=
  approved_ops ++
  [ QARegister "26" 20%Z 1 quinn (Some typed_number) "Minor"
      [mk_evaluator_data (Some dept_pd) (Some eve)] 400%Z ].

(** * Verification *)

(** ** Tracking numbers *)

Section TrackingNumbers.

Local Open Scope Z_scope.

Lemma digit_value_digit_char d :
  0 <= d <= 9 -> digit_value (digit_char d) = Some d.
Proof.
  intros Hd.
  assert (Hcases : d = 0 \/ d = 1 \/ d = 2 \/ d = 3 \/ d = 4 \/
                   d = 5 \/ d = 6 \/ d = 7 \/ d = 8 \/ d = 9) by lia.
  repeat (destruct Hcases as [-> | Hcases]; [reflexivity |]).
  subst d; reflexivity.
Qed.

(** Reading back the digits that [str_digits] wrote in front of [acc]. *)
Lemma scan_str_digits fuel :
  forall n acc, (1 <= fuel)%nat -> 0 <= n < 10 ^ Z.of_nat fuel ->
    exists k : nat,
      (1 <= k)%nat /\
      String.length (str_digits fuel n acc) = (k + String.length acc)%nat /\
      n < 10 ^ Z.of_nat k /\
      (n < 10 -> k = 1%nat) /\
      (exists d r, str_digits fuel n acc = String (digit_char d) r /\ 0 <= d <= 9) /\
      forall a seen,
        scan_digits (str_digits fuel n acc) a seen false =
        scan_digits acc (a * 10 ^ Z.of_nat k + n) true false.
Proof.
  induction fuel as [| fuel IH]; intros n acc Hfuel Hn; [lia |].
  - cbn [str_digits].
    assert (Hmod : 0 <= n mod 10 <= 9) by (pose proof (Z.mod_pos_bound n 10); lia).
    destruct (Z.eqb_spec (n / 10) 0) as [Hq | Hq].
    + assert (Hsmall : n < 10).
      { pose proof (Z.div_mod n 10 ltac:(lia)). lia. }
      exists 1%nat. change (10 ^ Z.of_nat 1) with 10.
      split; [lia |]. split; [reflexivity |]. split; [exact Hsmall |].
      split; [reflexivity |]. split.
      * exists (n mod 10), acc. split; [reflexivity | exact Hmod].
      * intros a seen. cbn [scan_digits].
        rewrite digit_value_digit_char by exact Hmod.
        rewrite Z.mod_small by lia. f_equal. lia.
    + assert (Hdiv : 0 <= n / 10 < 10 ^ Z.of_nat fuel).
      { split; [apply Z.div_pos; lia |].
        apply Z.div_lt_upper_bound; [lia |].
        rewrite Nat2Z.inj_succ, Z.pow_succ_r in Hn by lia. lia. }
      assert (Hpos : (1 <= fuel)%nat).
      { destruct fuel; [| lia]. change (10 ^ Z.of_nat 0) with 1 in Hdiv. lia. }
      destruct (IH (n / 10) (String (digit_char (n mod 10)) acc) Hpos Hdiv)
        as (k & Hk & Hlen & Hlt & _ & Hhead & Hscan).
      exists (S k). repeat split.
      * lia.
      * rewrite Hlen. simpl. lia.
      * rewrite Nat2Z.inj_succ, Z.pow_succ_r by lia.
        pose proof (Z.div_mod n 10 ltac:(lia)). lia.
      * intros Hsmall. exfalso. apply Hq. apply Z.div_small. lia.
      * exact Hhead.
      * intros a seen. rewrite Hscan. cbn [scan_digits].
        rewrite digit_value_digit_char by exact Hmod.
        f_equal. rewrite Nat2Z.inj_succ, Z.pow_succ_r by lia.
        pose proof (Z.div_mod n 10 ltac:(lia)). lia.
Qed.

Lemma str_fuel n : 0 <= n -> n < 10 ^ Z.of_nat (S (Z.to_nat (Z.log2 n))).
Proof.
  intros Hn.
  destruct (Z.eq_dec n 0) as [-> | Hne]; [reflexivity |].
  pose proof (Z.log2_nonneg n) as Hlog.
  rewrite Nat2Z.inj_succ, Z2Nat.id by lia.
  assert (Hlt : n < 2 ^ Z.succ (Z.log2 n)) by (apply Z.log2_spec; lia).
  assert (Hle : 2 ^ Z.succ (Z.log2 n) <= 10 ^ Z.succ (Z.log2 n))
    by (apply Z.pow_le_mono_l; lia).
  lia.
Qed.

Lemma scan_zeros k s a seen :
  a = 0 -> (1 <= k)%nat ->
  scan_digits (zeros k ++ s) a seen false = scan_digits s 0 true false.
Proof.
  intros -> Hk. revert seen.
  induction k as [| k IH]; intros seen; [lia |].
  destruct k as [| k'].
  - reflexivity.
  - change (zeros (S (S k')) ++ s)%string
      with (String "0" (zeros (S k') ++ s)).
    cbn [scan_digits]. change (digit_value "0") with (Some 0).
    cbv iota. change (10 * 0 + 0) with 0. apply IH. lia.
Qed.

Lemma length_zeros k : String.length (zeros k) = k.
Proof. induction k; simpl; congruence. Qed.

Lemma length_append (s t : string) :
  String.length (s ++ t) = (String.length s + String.length t)%nat.
Proof. induction s; simpl; congruence. Qed.

(** [str] of a natural number is a non-empty run of digits that [int]
    reads back, and so is its zero-filled form. *)
Lemma str_shape n :
  0 <= n ->
  exists k d r,
    (1 <= k)%nat /\ String.length (str n) = k /\ n < 10 ^ Z.of_nat k /\
    str n = String (digit_char d) r /\ 0 <= d <= 9 /\
    forall a seen, scan_digits (str n) a seen false = Some (a * 10 ^ Z.of_nat k + n).
Proof.
  intros Hn. unfold str.
  destruct (Z.ltb_spec n 0) as [Hneg | _]; [lia |].
  destruct (scan_str_digits (S (Z.to_nat (Z.log2 n))) n EmptyString
              (le_n_S _ _ (Nat.le_0_l _)) (conj Hn (str_fuel n Hn)))
    as (k & Hk & Hlen & Hlt & _ & (d & r & Hhead & Hd) & Hscan).
  exists k, d, r.
  split; [exact Hk |]. split; [rewrite Hlen; simpl; lia |].
  split; [exact Hlt |]. split; [exact Hhead |]. split; [exact Hd |].
  intros a seen. rewrite Hscan. reflexivity.
Qed.

Lemma long_from_string_digits d r :
  0 <= d <= 9 ->
  long_from_string (String (digit_char d) r) =
  scan_digits (String (digit_char d) r) 0 false false.
Proof.
  intros Hd.
  assert (Hcases : d = 0 \/ d = 1 \/ d = 2 \/ d = 3 \/ d = 4 \/
                   d = 5 \/ d = 6 \/ d = 7 \/ d = 8 \/ d = 9) by lia.
  repeat (destruct Hcases as [-> | Hcases]; [reflexivity |]).
  subst d; reflexivity.
Qed.

Lemma str_digits_length j :
  forall fuel n acc,
    (1 <= j)%nat -> 0 <= n < 10 ^ Z.of_nat j ->
    (String.length (str_digits fuel n acc) <= j + String.length acc)%nat.
Proof.
  induction j as [| j IH]; intros fuel n acc Hj Hn; [lia |].
  destruct fuel as [| fuel]; [simpl; lia |].
  cbn [str_digits].
  destruct (Z.eqb_spec (n / 10) 0) as [Hq | Hq]; [simpl; lia |].
  assert (Hdiv : 0 <= n / 10 < 10 ^ Z.of_nat j).
  { split; [apply Z.div_pos; lia |].
    apply Z.div_lt_upper_bound; [lia |].
    rewrite Nat2Z.inj_succ, Z.pow_succ_r in Hn by lia. lia. }
  assert (Hpos : (1 <= j)%nat).
  { destruct j; [| lia]. change (10 ^ Z.of_nat 0) with 1 in Hdiv. lia. }
  specialize (IH fuel (n / 10) (String (digit_char (n mod 10)) acc) Hpos Hdiv).
  simpl in IH. lia.
Qed.

Lemma str_length_small n :
  0 <= n < 100000 -> (String.length (str n) <= 5)%nat.
Proof.
  intros Hn. unfold str.
  destruct (Z.ltb_spec n 0) as [Hneg | _]; [lia |].
  pose proof (str_digits_length 5 (S (Z.to_nat (Z.log2 n))) n EmptyString) as Hlen.
  change (10 ^ Z.of_nat 5) with 100000 in Hlen.
  specialize (Hlen ltac:(lia) Hn).
  change (String.length EmptyString) with 0%nat in Hlen. lia.
Qed.

Lemma digit_char_not_sign d :
  0 <= d <= 9 ->
  (Ascii.eqb (digit_char d) "+" || Ascii.eqb (digit_char d) "-")%bool = false.
Proof.
  intros Hd.
  assert (Hcases : d = 0 \/ d = 1 \/ d = 2 \/ d = 3 \/ d = 4 \/
                   d = 5 \/ d = 6 \/ d = 7 \/ d = 8 \/ d = 9) by lia.
  repeat (destruct Hcases as [-> | Hcases]; [reflexivity |]).
  subst d; reflexivity.
Qed.

(** A plain string has itself as code points brought to ASCII. *)
Lemma transform_plain s :
  plain s = true ->
  exists cps, code_points s = Some cps /\ transform_decimal_and_space cps = s.
Proof.
  induction s as [| c r IH]; intros Hs.
  - exists []. split; reflexivity.
  - cbn [plain] in Hs. apply andb_prop in Hs. destruct Hs as (Hc & Hr).
    destruct (IH Hr) as (cps & Hcps & Htr).
    apply Z.ltb_lt in Hc.
    exists (byte c :: cps). split.
    + cbn [code_points]. cbv zeta.
      destruct (Z.ltb_spec (byte c) 128); [| lia].
      rewrite Hcps. reflexivity.
    + cbn [transform_decimal_and_space].
      destruct (Z.ltb_spec (byte c) 127); [| lia].
      rewrite Htr. f_equal. unfold chr, byte.
      rewrite Nat2Z.id. apply ascii_nat_embedding.
Qed.

Lemma py_int_plain s : plain s = true -> py_int s = long_from_string s.
Proof.
  intros Hs. destruct (transform_plain s Hs) as (cps & Hcps & Htr).
  unfold py_int. now rewrite Hcps, Htr.
Qed.

Lemma plain_append s t : plain s = true -> plain t = true -> plain (s ++ t) = true.
Proof.
  intros Hs Ht. induction s as [| c s IH]; [exact Ht |].
  cbn [plain append] in *. apply andb_prop in Hs. destruct Hs as (Hc & Hs).
  rewrite Hc. now apply IH.
Qed.

Lemma plain_zeros k : plain (zeros k) = true.
Proof. induction k; [reflexivity | exact IHk]. Qed.

Lemma digit_char_plain d : 0 <= d <= 9 -> (byte (digit_char d) <? 127) = true.
Proof.
  intros Hd.
  assert (Hcases : d = 0 \/ d = 1 \/ d = 2 \/ d = 3 \/ d = 4 \/
                   d = 5 \/ d = 6 \/ d = 7 \/ d = 8 \/ d = 9) by lia.
  repeat (destruct Hcases as [-> | Hcases]; [reflexivity |]).
  subst d; reflexivity.
Qed.

Lemma plain_str_digits fuel :
  forall n acc, plain acc = true -> plain (str_digits fuel n acc) = true.
Proof.
  induction fuel as [| fuel IH]; intros n acc Hacc; [exact Hacc |].
  cbn [str_digits].
  assert (Hnext : plain (String (digit_char (n mod 10)) acc) = true).
  { cbn [plain]. rewrite digit_char_plain, Hacc; [reflexivity |].
    pose proof (Z.mod_pos_bound n 10). lia. }
  destruct (n / 10 =? 0); [exact Hnext | now apply IH].
Qed.

(** The zero-filled decimal form of a natural number is plain. *)
Lemma plain_zfill_str n : 0 <= n -> plain (zfill 5 (str n)) = true.
Proof.
  intros Hn.
  assert (Hstr : plain (str n) = true).
  { unfold str. destruct (Z.ltb_spec n 0); [lia |]. now apply plain_str_digits. }
  unfold zfill. destruct (Nat.leb 5 (String.length (str n))); [exact Hstr |].
  destruct (str n) as [| c r] eqn:Hs; [apply plain_zeros |].
  destruct (orb (Ascii.eqb c "+") (Ascii.eqb c "-")).
  - cbn [plain] in *. apply andb_prop in Hstr. destruct Hstr as (Hc & Hr).
    rewrite Hc. cbn [andb]. apply plain_append; [apply plain_zeros | exact Hr].
  - apply plain_append; [apply plain_zeros | exact Hstr].
Qed.

(** The zero-filled decimal form of a natural number: [int] reads the
    number back, the width is at least five and exactly five below
    100000. *)
Lemma zfill_str n :
  0 <= n ->
  py_int (zfill 5 (str n)) = Some n /\
  (5 <= String.length (zfill 5 (str n)))%nat /\
  (n < 100000 -> String.length (zfill 5 (str n)) = 5%nat).
Proof.
  intros Hn.
  rewrite py_int_plain by now apply plain_zfill_str.
  destruct (str_shape n Hn) as (k & d & r & Hk & Hlen & Hlt & Hhead & Hd & Hscan).
  assert (Hread : long_from_string (str n) = Some n).
  { rewrite Hhead, long_from_string_digits by exact Hd.
    rewrite <- Hhead, Hscan. f_equal; lia. }
  destruct (Nat.leb_spec 5 k) as [Hwide | Hnarrow].
  - assert (Hsame : zfill 5 (str n) = str n).
    { unfold zfill. rewrite Hlen.
      destruct (Nat.leb_spec 5 k); [reflexivity | lia]. }
    rewrite Hsame. split; [exact Hread |]. split; [lia |].
    intros Hsmall. pose proof (str_length_small n (conj Hn Hsmall)). lia.
  - assert (Hpad : zfill 5 (str n) = (zeros (5 - k) ++ str n)%string).
    { unfold zfill. rewrite Hlen.
      destruct (Nat.leb_spec 5 k); [lia |].
      rewrite Hhead at 1. rewrite (digit_char_not_sign d Hd). reflexivity. }
    assert (Hwidth : String.length (zeros (5 - k) ++ str n) = 5%nat)
      by (rewrite length_append, length_zeros, Hlen; lia).
    rewrite Hpad, Hwidth.
    split; [| split; [lia | reflexivity]].
    assert (Hfill : exists j, (5 - k)%nat = S j) by (exists (4 - k)%nat; lia).
    destruct Hfill as (j & Hj). rewrite Hj.
    change (long_from_string (zeros (S j) ++ str n))
      with (scan_digits (zeros (S j) ++ str n) 0 false false).
    rewrite scan_zeros by (reflexivity || lia).
    rewrite Hscan. f_equal; lia.
Qed.

Lemma max_sequence_from_ge numbers :
  forall acc, acc <= max_sequence_from acc numbers.
Proof.
  induction numbers as [| number rest IH]; intros acc; cbn [max_sequence_from]; [lia |].
  destruct (py_int (sequence_part number)) as [v |]; [| apply IH].
  destruct (Z.gtb_spec v acc); [| apply IH].
  specialize (IH v). lia.
Qed.

Lemma max_sequence_from_upper numbers :
  forall acc number v,
    In number numbers -> py_int (sequence_part number) = Some v ->
    v <= max_sequence_from acc numbers.
Proof.
  induction numbers as [| first rest IH]; intros acc number v Hin Hv; [destruct Hin |].
  cbn [max_sequence_from].
  destruct Hin as [-> | Hin].
  - rewrite Hv. destruct (Z.gtb_spec v acc).
    + apply max_sequence_from_ge.
    + pose proof (max_sequence_from_ge rest acc). lia.
  - destruct (py_int (sequence_part first)) as [w |]; [| eapply IH; eassumption].
    destruct (Z.gtb_spec w acc); eapply IH; eassumption.
Qed.

Lemma max_sequence_from_attained numbers :
  forall acc,
    max_sequence_from acc numbers = acc \/
    exists number, In number numbers /\
                   py_int (sequence_part number) = Some (max_sequence_from acc numbers).
Proof.
  induction numbers as [| first rest IH]; intros acc; cbn [max_sequence_from]; [now left |].
  destruct (py_int (sequence_part first)) as [w |] eqn:Hw.
  - destruct (Z.gtb_spec w acc).
    + right. destruct (IH w) as [-> | (number & Hin & Hnum)].
      * exists first. split; [now left | exact Hw].
      * exists number. split; [now right | exact Hnum].
    + destruct (IH acc) as [Heq | (number & Hin & Hnum)]; [now left |].
      right. exists number. split; [now right | exact Hnum].
  - destruct (IH acc) as [Heq | (number & Hin & Hnum)]; [now left |].
    right. exists number. split; [now right | exact Hnum].
Qed.

Lemma digit_value_range c d : digit_value c = Some d -> 0 <= d <= 9.
Proof.
  unfold digit_value.
  destruct (Nat.leb_spec 48 (nat_of_ascii c)) as [Hlo | _]; [| discriminate].
  destruct (Nat.leb_spec (nat_of_ascii c) 57) as [Hhi | _]; [| discriminate].
  cbn [andb]. intros [= <-]. lia.
Qed.

(** The number read from a run of characters has no more digits than the
    run has characters. *)
Lemma scan_digits_bound s :
  forall acc seen under v,
    0 <= acc -> scan_digits s acc seen under = Some v ->
    acc <= v < (acc + 1) * 10 ^ Z.of_nat (String.length s).
Proof.
  induction s as [| c r IH]; intros acc seen under v Hacc Hscan.
  - cbn [scan_digits] in Hscan.
    destruct (andb seen (negb under)); [| discriminate].
    injection Hscan as <-. cbn. lia.
  - cbn [String.length]. rewrite Nat2Z.inj_succ, Z.pow_succ_r by lia.
    assert (Hpow : 0 < 10 ^ Z.of_nat (String.length r)) by (apply Z.pow_pos_nonneg; lia).
    cbn [scan_digits] in Hscan.
    destruct (digit_value c) as [d |] eqn:Hd.
    + apply digit_value_range in Hd.
      apply IH in Hscan; [| lia]. nia.
    + destruct (Ascii.eqb c "_").
      * destruct (andb seen (negb under)); [| discriminate].
        apply IH in Hscan; [| lia]. nia.
      * destruct (andb (andb seen (negb under)) (all_space (String c r))); [| discriminate].
        injection Hscan as <-. nia.
Qed.

Lemma lstrip_length s : (String.length (lstrip s) <= String.length s)%nat.
Proof.
  induction s as [| c r IH]; [apply Nat.le_refl |].
  cbn [lstrip]. destruct (is_space c); cbn [String.length] in *; lia.
Qed.

Lemma long_from_string_bound s v :
  long_from_string s = Some v -> v < 10 ^ Z.of_nat (String.length s).
Proof.
  unfold long_from_string. intros Hread.
  pose proof (lstrip_length s) as Hlen.
  assert (Hmono : forall k : nat, (k <= String.length (lstrip s))%nat ->
                            10 ^ Z.of_nat k <= 10 ^ Z.of_nat (String.length s))
    by (intros k Hk; apply Z.pow_le_mono_r; lia).
  destruct (lstrip s) as [| c r]; [discriminate |].
  cbn [String.length] in Hmono.
  destruct (Ascii.eqb c "-").
  - destruct (scan_digits r 0 false false) as [w |] eqn:Hw; [| discriminate].
    injection Hread as <-.
    apply scan_digits_bound in Hw; [| lia].
    assert (0 < 10 ^ Z.of_nat (String.length s)) by (apply Z.pow_pos_nonneg; lia).
    lia.
  - destruct (Ascii.eqb c "+").
    + apply scan_digits_bound in Hread; [| lia].
      specialize (Hmono (String.length r) ltac:(lia)). lia.
    + apply scan_digits_bound in Hread; [| lia].
      specialize (Hmono (String.length (String c r)) ltac:(cbn [String.length]; lia)). lia.
Qed.

Lemma transform_length cps :
  (String.length (transform_decimal_and_space cps) <= List.length cps)%nat.
Proof.
  induction cps as [| cp rest IH]; [apply Nat.le_refl |].
  cbn [transform_decimal_and_space List.length].
  destruct (cp <? 127); [cbn [String.length]; lia |].
  destruct (unicode_space cp); [cbn [String.length]; lia |].
  destruct (unicode_decimal cp); cbn [String.length]; lia.
Qed.

Lemma code_points_length n :
  forall s cps, (String.length s <= n)%nat -> code_points s = Some cps ->
                (List.length cps <= String.length s)%nat.
Proof.
  induction n as [| n IH]; intros s cps Hn Hs.
  - destruct s; [| cbn [String.length] in Hn; lia].
    injection Hs as <-. apply Nat.le_refl.
  - destruct s as [| c0 r0]; [injection Hs as <-; apply Nat.le_0_l |].
    cbn [code_points] in Hs. cbv zeta in Hs. cbn [String.length] in *.
    repeat
      match type of Hs with
      | option_map _ (code_points ?r) = Some _ =>
          let rest := fresh "rest" in
          let Hr := fresh "Hr" in
          destruct (code_points r) as [rest |] eqn:Hr; [| discriminate];
          injection Hs as <-; apply IH in Hr; [cbn [List.length]; lia | lia]
      | (if ?b then _ else _) = Some _ => destruct b; [try discriminate | try discriminate]
      | match ?r with EmptyString => _ | String _ _ => _ end = Some _ =>
          destruct r; [discriminate |]; cbn [String.length] in *
      end.
Qed.

Lemma py_int_bound s v : py_int s = Some v -> v < 10 ^ Z.of_nat (String.length s).
Proof.
  unfold py_int. destruct (code_points s) as [cps |] eqn:Hcps; [| discriminate].
  intros Hread. apply long_from_string_bound in Hread.
  pose proof (transform_length cps).
  pose proof (code_points_length _ s cps (Nat.le_refl _) Hcps).
  assert (10 ^ Z.of_nat (String.length (transform_decimal_and_space cps))
          <= 10 ^ Z.of_nat (String.length s)) by (apply Z.pow_le_mono_r; lia).
  lia.
Qed.

(** Below 4300 characters a segment, the next number has at most 4300
    digits. *)
Lemma next_sequence_small numbers :
  (forall number, In number numbers -> (String.length (sequence_part number) < 4300)%nat) ->
  max_sequence_from 0 numbers + 1 < 10 ^ 4300.
Proof.
  intros Hshort.
  assert (Hstep : 10 ^ 4299 < 10 ^ 4300) by (apply Z.pow_lt_mono_r; lia).
  assert (Hone : 1 <= 10 ^ 4299) by (apply Z.lt_pred_le, Z.pow_pos_nonneg; lia).
  destruct (max_sequence_from_attained numbers 0) as [-> | (number & Hin & Hnum)].
  - revert Hstep Hone. generalize (10 ^ 4299) (10 ^ 4300). intros; lia.
  - apply py_int_bound in Hnum. specialize (Hshort number Hin).
    assert (Hle : 10 ^ Z.of_nat (String.length (sequence_part number)) <= 10 ^ 4299)
      by (apply Z.pow_le_mono_r; lia).
    revert Hstep Hle Hnum.
    generalize (10 ^ 4299) (10 ^ 4300)
               (10 ^ Z.of_nat (String.length (sequence_part number))).
    intros; lia.
Qed.

Lemma existing_temp_numbers_spec prefix db number :
  In number (existing_temp_numbers prefix db) <->
  exists r, In r (requests db) /\
            ChangeControlRequest.temporary_cc_number r = number /\
            like_startswith prefix number = true.
Proof.
  unfold existing_temp_numbers. rewrite filter_In, in_map_iff.
  split.
  - intros ((r & Hr & Hin) & Hp). exists r. auto.
  - intros (r & Hin & Hr & Hp). split; [exists r; auto | exact Hp].
Qed.

End TrackingNumbers.

(** X28.  For every department code and year, and for a database whose
    temporary numbers under the prefix have a last segment of fewer than
    4300 characters, the temporary tracking number is the prefix
    REQ/CC/<YY>/<DEPT>/ followed by the decimal form, zero padded to five
    digits, of [m + 1].  Here [m] is the largest number that [int] reads
    from the last segment of an existing temporary number that the lookup
    [startswith] finds for the prefix (0 when there is none): [m] bounds
    every such segment that [int] accepts and is attained unless it is 0,
    segments that [int] rejects play no part, and [m + 1] has at most 4300
    digits.  The padded suffix reads back as [m + 1], has five characters
    below 100000, and is 00001 when the lookup finds no number. *)
Theorem generate_temp_cc_number_spec :
  forall (current_year department_code : string) (db : Store),
    let prefix := ("REQ/CC/" ++ current_year ++ "/" ++ department_code ++ "/")%string in
    let shares := fun number =>
      exists r, In r (requests db) /\
                ChangeControlRequest.temporary_cc_number r = number /\
                like_startswith prefix number = true in
    (forall number, shares number ->
                    (String.length (sequence_part number) < 4300)%nat) ->
    exists m : Z,
      (0 <= m)%Z /\
      (forall number v,
          shares number -> py_int (sequence_part number) = Some v -> (v <= m)%Z) /\
      (m = 0%Z \/
       exists number, shares number /\ py_int (sequence_part number) = Some m) /\
      (m + 1 < 10 ^ 4300)%Z /\
      generate_temp_cc_number current_year department_code db =
        (prefix ++ zfill 5 (str (m + 1)))%string /\
      py_int (zfill 5 (str (m + 1))) = Some (m + 1)%Z /\
      (5 <= String.length (zfill 5 (str (m + 1))))%nat /\
      ((m + 1 < 100000)%Z -> String.length (zfill 5 (str (m + 1))) = 5%nat) /\
      ((forall number, ~ shares number) ->
       generate_temp_cc_number current_year department_code db
       = (prefix ++ "00001")%string).
Proof.
  intros current_year department_code db prefix shares Hshort.
  set (existing := existing_temp_numbers prefix db).
  assert (Hshares : forall number, In number existing <-> shares number)
    by (intros number; apply existing_temp_numbers_spec).
  exists (max_sequence_from 0 existing).
  pose proof (max_sequence_from_ge existing 0) as Hge.
  destruct (zfill_str (max_sequence_from 0 existing + 1) ltac:(lia))
    as (Hread & Hwide & Hfive).
  split; [exact Hge |].
  split.
  { intros number v Hnumber Hv.
    apply (max_sequence_from_upper existing 0 number v); [apply Hshares |]; assumption. }
  split.
  { destruct (max_sequence_from_attained existing 0) as [Hzero | (number & Hin & Hnum)].
    - left. exact Hzero.
    - right. exists number. split; [apply Hshares |]; assumption. }
  split.
  { apply next_sequence_small. intros number Hin. apply Hshort, Hshares, Hin. }
  split; [reflexivity |].
  split; [exact Hread |].
  split; [exact Hwide |].
  split; [exact Hfive |].
  intros Hnone.
  assert (Hgen : generate_temp_cc_number current_year department_code db =
                 (prefix ++ zfill 5 (str (max_sequence_from 0 existing + 1)))%string)
    by reflexivity.
  rewrite Hgen. clear Hgen Hread Hwide Hfive Hge.
  destruct existing as [| number rest].
  - reflexivity.
  - exfalso. apply (Hnone number). apply Hshares. now left.
Qed.

(** C7.  The sequence of a department is not its own where another
    department has the same code in letters of the other case.  After one
    initiation in the department QA of the year 26, no temporary number
    starts with REQ/CC/26/qa/, and yet the generator answers
    REQ/CC/26/qa/00002, not REQ/CC/26/qa/00001, for the department qa: the
    lookup [startswith] has found REQ/CC/26/QA/00001.  The first request
    initiated in qa carries that number. *)
Theorem temp_number_sequence_ignores_case :
  map temporary_cc_number (requests initiated_store) = ["REQ/CC/26/QA/00001"%string] /\
  String.prefix "REQ/CC/26/qa/" "REQ/CC/26/QA/00001" = false /\
  generate_temp_cc_number "26" "qa" initiated_store = "REQ/CC/26/qa/00002"%string /\
  exists request' db',
    initiate_request "26" alice (Some dept_qa_small) "Y" "change Y" initiated_store =
      (Return request', db') /\
    temporary_cc_number request' = "REQ/CC/26/qa/00002"%string.
Proof.
  split; [vm_compute; reflexivity |].
  split; [vm_compute; reflexivity |].
  split; [vm_compute; reflexivity |].
  eexists. eexists. split; [vm_compute; reflexivity | reflexivity].
Qed.

(** ** Tables and rows *)

Lemma status_eqb_eq a b : status_eqb a b = true <-> a = b.
Proof. split; [destruct a, b; simpl; congruence | intros ->; destruct b; reflexivity]. Qed.

Lemma status_eqb_refl a : status_eqb a a = true.
Proof. now apply status_eqb_eq. Qed.

Lemma status_eqb_neq a b : a <> b -> status_eqb a b = false.
Proof.
  intros Hne. destruct (status_eqb a b) eqn:Heq; [| reflexivity].
  apply status_eqb_eq in Heq. contradiction.
Qed.

Lemma decision_eqb_eq a b : CFTEvaluation.decision_eqb a b = true <-> a = b.
Proof. split; [destruct a, b; simpl; congruence | intros ->; destruct b; reflexivity]. Qed.

Lemma risk_status_eqb_eq a b : RiskAssessment.status_eqb a b = true <-> a = b.
Proof. split; [destruct a, b; simpl; congruence | intros ->; destruct b; reflexivity]. Qed.

Section Rows.
Context {A : Type} (key : A -> nat).

(** After a save, the row found under the key is the saved one. *)
Lemma find_save_row (x : A) (rows : list A) :
  find (fun r => Nat.eqb (key r) (key x)) (save_row key x rows) = Some x.
Proof.
  induction rows as [| r rs IH]; cbn [save_row find].
  - now rewrite Nat.eqb_refl.
  - destruct (Nat.eqb (key r) (key x)) eqn:Hr; cbn [find].
    + now rewrite Nat.eqb_refl.
    + now rewrite Hr.
Qed.

(** Rows under other keys are untouched by a save. *)
Lemma find_save_row_other (x : A) (k : nat) (rows : list A) :
  k <> key x ->
  find (fun r => Nat.eqb (key r) k) (save_row key x rows) =
  find (fun r => Nat.eqb (key r) k) rows.
Proof.
  intros Hk. induction rows as [| r rs IH]; cbn [save_row find].
  - destruct (Nat.eqb_spec (key x) k); [congruence | reflexivity].
  - destruct (Nat.eqb_spec (key r) (key x)) as [Heq | Hne]; cbn [find].
    + destruct (Nat.eqb_spec (key x) k); [congruence |].
      destruct (Nat.eqb_spec (key r) k); [congruence | reflexivity].
    + now rewrite IH.
Qed.

(** With distinct keys, saving over an existing row rewrites that row
    and no other. *)
Lemma save_row_existing (x old : A) (rows : list A) :
  NoDup (map key rows) -> In old rows -> key x = key old ->
  save_row key x rows =
  map (fun r => if Nat.eqb (key r) (key old) then x else r) rows.
Proof.
  intros Hnodup Hin Hkey.
  induction rows as [| r rs IH]; [destruct Hin |].
  cbn [save_row map]. rewrite Hkey.
  inversion Hnodup as [| k ks Hfresh Hrest]; subst.
  destruct (Nat.eqb_spec (key r) (key old)) as [Heq | Hne].
  - f_equal. transitivity (map (fun r' : A => r') rs); [symmetry; apply map_id |].
    apply map_ext_in.
    intros r' Hr'. destruct (Nat.eqb_spec (key r') (key old)) as [Heq' | _]; [| reflexivity].
    exfalso. apply Hfresh. rewrite Heq, <- Heq'. now apply in_map.
  - f_equal. destruct Hin as [-> | Hin]; [congruence |].
    exact (IH Hrest Hin).
Qed.

Lemma save_row_keys (x old : A) (rows : list A) :
  NoDup (map key rows) -> In old rows -> key x = key old ->
  map key (save_row key x rows) = map key rows.
Proof.
  intros Hnodup Hin Hkey.
  rewrite (save_row_existing x old rows Hnodup Hin Hkey), map_map.
  apply map_ext. intros r.
  destruct (Nat.eqb_spec (key r) (key old)); congruence.
Qed.

(** A filter that cannot tell the new row from the old one commutes
    with the save. *)
Lemma filter_save_row (p : A -> bool) (x old : A) (rows : list A) :
  NoDup (map key rows) -> In old rows -> key x = key old -> p x = p old ->
  filter p (save_row key x rows) =
  map (fun r => if Nat.eqb (key r) (key old) then x else r) (filter p rows).
Proof.
  intros Hnodup Hin Hkey Hp.
  rewrite (save_row_existing x old rows Hnodup Hin Hkey).
  assert (Hunique : forall r, In r rows -> key r = key old -> r = old).
  { clear Hp Hkey x. induction rows as [| r0 rs IH]; intros r Hr Hk; [destruct Hr |].
    inversion Hnodup as [| k ks Hfresh Hrest]; subst.
    destruct Hin as [-> | Hin], Hr as [-> | Hr]; try reflexivity.
    - exfalso. apply Hfresh. rewrite <- Hk. now apply in_map.
    - exfalso. apply Hfresh. rewrite Hk. now apply in_map.
    - now apply IH. }
  clear Hnodup Hin.
  induction rows as [| r rs IH]; [reflexivity |].
  cbn [map filter].
  assert (Hhead : p (if Nat.eqb (key r) (key old) then x else r) = p r).
  { destruct (Nat.eqb_spec (key r) (key old)) as [Heq | _]; [| reflexivity].
    rewrite (Hunique r (or_introl eq_refl) Heq). exact Hp. }
  rewrite Hhead.
  assert (Htail : filter p (map (fun r => if Nat.eqb (key r) (key old) then x else r) rs) =
                  map (fun r => if Nat.eqb (key r) (key old) then x else r) (filter p rs)).
  { apply IH. intros r' Hr'. apply Hunique. now right. }
  rewrite Htail. destruct (p r); reflexivity.
Qed.

Lemma next_pk_fresh (rows : list A) : ~ In (next_pk key rows) (map key rows).
Proof.
  assert (Hbound : forall k, In k (map key rows) -> k < next_pk key rows).
  { unfold next_pk. induction rows as [| r rs IH]; intros k Hk; [destruct Hk |].
    cbn [map fold_right] in *. destruct Hk as [<- | Hk]; [lia |].
    specialize (IH k Hk). lia. }
  intros Hin. specialize (Hbound _ Hin). lia.
Qed.

End Rows.

(** ** CFT evaluation *)

Lemma for_each_documents evaluation documents :
  forall db,
    for_each documents (fun doc =>
      write (fun db =>
        set_cft_evaluation_documents
          (cft_evaluation_documents db ++
           [CFTEvaluationDocument.mk evaluation (dd_file doc)
              (match dd_description doc with Some d => d | None => EmptyString end)])
          db)) db =
    (Return tt,
     set_cft_evaluation_documents
       (cft_evaluation_documents db ++
        map (fun doc => CFTEvaluationDocument.mk evaluation (dd_file doc)
                          (match dd_description doc with Some d => d | None => EmptyString end))
            documents) db).
Proof.
  induction documents as [| doc rest IH]; intros db.
  - destruct db. cbn. now rewrite app_nil_r.
  - cbn [for_each]. unfold bind at 1. unfold write at 1. rewrite IH.
    destruct db. cbn. now rewrite <- app_assoc.
Qed.

(** [cft_evaluation], once its two guards pass, is the upsert followed by
    the completion check. *)
Lemma cft_evaluation_run
    now request actor department impact_type decision risk_level notes documents db :
  status request = PENDING_CFT_EVALUATION ->
  assigned_evaluator request department actor db = true ->
  (List.length (evaluations_for request department db) <= 1)%nat ->
  cft_evaluation now request actor department impact_type decision risk_level
                 notes documents db =
  let db1 := after_upsert now request actor department impact_type decision
                          risk_level notes documents db in
  if Nat.eqb (List.length (evaluators_of request db1))
             (List.length (evaluations_of request db1))
  then (Return (decided now request actor db1),
        set_requests (save_row pk (decided now request actor db1) (requests db1)) db1)
  else (Return request, db1).
Proof.
  intros Hstatus Hassigned Hone.
  unfold cft_evaluation. rewrite Hstatus. cbn [status_eqb negb].
  unfold bind at 1, query at 1.
  fold (assigned_evaluator request department actor db). rewrite Hassigned. cbn [negb].
  unfold bind at 1. unfold get_or_create_evaluation.
  fold (evaluations_for request department db).
  unfold after_upsert, upserted_row.
  destruct (evaluations_for request department db) as [| old [| other rest]] eqn:Hfor;
    [ | | simpl in Hone; lia].
  - unfold bind at 1. unfold ret at 1.
    unfold bind at 1. rewrite for_each_documents.
    unfold bind, log_workflow_history, write, query, ret, save_request.
    destruct db. cbn.
    match goal with |- context [Nat.eqb ?a ?b] => destruct (Nat.eqb a b) end; reflexivity.
  - unfold bind at 1. unfold bind at 1. unfold save_evaluation at 1.
    unfold write at 1. unfold ret at 1.
    unfold bind at 1. rewrite for_each_documents.
    unfold bind, log_workflow_history, write, query, ret, save_request.
    destruct db. cbn.
    match goal with |- context [Nat.eqb ?a ?b] => destruct (Nat.eqb a b) end; reflexivity.
Qed.

Lemma filter_filter {A} (p q : A -> bool) (l : list A) :
  filter p (filter q l) = filter (fun x => andb (q x) (p x)) l.
Proof.
  induction l as [| x l IH]; [reflexivity |].
  cbn [filter]. destruct (q x); cbn [filter andb]; [destruct (p x) |]; congruence.
Qed.

Lemma department_eqb_refl d : Department.eqb d d = true.
Proof. apply Nat.eqb_refl. Qed.

Section UpsertFacts.
Variables (now : datetime) (request : ChangeControlRequest.t) (actor : User)
          (department : Department.t)
          (impact_type : CFTEvaluation.ImpactTypeChoices)
          (decision : CFTEvaluation.DecisionChoices)
          (risk_level : CFTEvaluation.RiskLevelChoices)
          (notes : string) (documents : list document_data) (db : Store).

Let row := upserted_row now request actor department impact_type decision
                        risk_level notes db.
Let db1 := after_upsert now request actor department impact_type decision
                        risk_level notes documents db.

Lemma upsert_create :
  evaluations_for request department db = [] ->
  cft_evaluations db1 = cft_evaluations db ++ [row] /\
  evaluations_for request department db1 = [row] /\
  evaluations_of request db1 = evaluations_of request db ++ [row] /\
  CFTEvaluation.evaluator row = actor /\
  CFTEvaluation.completed_at row =
    (if CFTEvaluation.decision_eqb decision CFTEvaluation.PENDING then None else Some now).
Proof.
  intros Hnone. subst row db1.
  unfold after_upsert, upserted_row, evaluations_for, evaluations_of in *.
  rewrite Hnone. cbn [cft_evaluations].
  rewrite !filter_app, Hnone. cbn [filter CFTEvaluation.request CFTEvaluation.department].
  rewrite Nat.eqb_refl. cbn [filter CFTEvaluation.department].
  rewrite department_eqb_refl. repeat split; reflexivity.
Qed.

Lemma upsert_update old :
  evaluation_keys_distinct db ->
  evaluations_for request department db = [old] ->
  cft_evaluations db1 = save_row CFTEvaluation.pk row (cft_evaluations db) /\
  evaluations_for request department db1 = [row] /\
  List.length (evaluations_of request db1) = List.length (evaluations_of request db) /\
  CFTEvaluation.pk row = CFTEvaluation.pk old /\
  CFTEvaluation.evaluator row = CFTEvaluation.evaluator old.
Proof.
  intros Hkeys Hold. subst row db1.
  assert (Hin : In old (evaluations_for request department db))
    by (rewrite Hold; now left).
  unfold evaluations_for, evaluations_of in Hin.
  apply filter_In in Hin. destruct Hin as (Hin & Hdept).
  apply filter_In in Hin. destruct Hin as (Hin & Hreq).
  unfold after_upsert, upserted_row. rewrite Hold.
  set (new := CFTEvaluation.mk _ _ _ _ _ _ _ _ _).
  split; [reflexivity |].
  unfold evaluations_for, evaluations_of in *. cbn [cft_evaluations].
  rewrite filter_filter in *.
  split; [| split; [| split; reflexivity]].
  - rewrite (filter_save_row CFTEvaluation.pk _ new old (cft_evaluations db) Hkeys Hin eq_refl).
    + rewrite Hold. cbn [map]. now rewrite Nat.eqb_refl.
    + reflexivity.
  - rewrite (filter_save_row CFTEvaluation.pk _ new old (cft_evaluations db) Hkeys Hin eq_refl).
    + apply length_map.
    + reflexivity.
Qed.

End UpsertFacts.

Section Frames.
Variables (v : list ChangeControlRequest.t) (request : ChangeControlRequest.t)
          (department : Department.t) (db : Store).

Lemma requests_set_requests : requests (set_requests v db) = v.
Proof. destruct db; reflexivity. Qed.
Lemma evaluators_set_requests : cft_evaluators (set_requests v db) = cft_evaluators db.
Proof. destruct db; reflexivity. Qed.
Lemma evaluations_set_requests : cft_evaluations (set_requests v db) = cft_evaluations db.
Proof. destruct db; reflexivity. Qed.
Lemma history_set_requests : workflow_history (set_requests v db) = workflow_history db.
Proof. destruct db; reflexivity. Qed.
Lemma evaluators_of_set_requests :
  evaluators_of request (set_requests v db) = evaluators_of request db.
Proof. destruct db; reflexivity. Qed.
Lemma evaluations_of_set_requests :
  evaluations_of request (set_requests v db) = evaluations_of request db.
Proof. destruct db; reflexivity. Qed.
Lemma evaluations_for_set_requests :
  evaluations_for request department (set_requests v db) =
  evaluations_for request department db.
Proof. destruct db; reflexivity. Qed.
Lemma risk_assessment_of_set_requests :
  risk_assessment_of request (set_requests v db) = risk_assessment_of request db.
Proof. destruct db; reflexivity. Qed.
End Frames.

Lemma get_object_saved request db :
  get_object (pk request) (set_requests (save_row pk request (requests db)) db) = Some request.
Proof. unfold get_object. rewrite requests_set_requests. apply find_save_row. Qed.

Lemma decided_pk now request actor db : pk (decided now request actor db) = pk request.
Proof.
  unfold decided. destruct request.
  repeat match goal with |- context [if ?c then _ else _] => destruct c end;
    repeat match goal with |- context [match ?c with _ => _ end] => destruct c end;
    reflexivity.
Qed.

(** The status that the completion check assigns. *)
Lemma decided_status now request actor db :
  (any_rejected request db -> status (decided now request actor db) = REJECTED) /\
  (~ any_rejected request db ->
   (impact_level request = Some MINOR ->
    status (decided now request actor db) = PENDING_DOCUMENT_UPDATE) /\
   (impact_level request <> Some MINOR ->
    (risk_assessment_completed request db ->
     status (decided now request actor db) = PENDING_DOCUMENT_UPDATE) /\
    (~ risk_assessment_completed request db ->
     status (decided now request actor db) = PENDING_RISK_ASSESSMENT))).
Proof.
  unfold decided, any_rejected, risk_assessment_completed.
  destruct (existsb _ (evaluations_of request db)) eqn:Hrej.
  - apply existsb_exists in Hrej. destruct Hrej as (e & Hin & He).
    apply decision_eqb_eq in He.
    split; [intros _; destruct request; reflexivity |].
    intros Hnone. exfalso. apply Hnone. exists e. auto.
  - split.
    + intros (e & Hin & He). exfalso.
      assert (Htrue : existsb (fun e => CFTEvaluation.decision_eqb (CFTEvaluation.decision e)
                                          CFTEvaluation.REJECTED)
                              (evaluations_of request db) = true).
      { apply existsb_exists. exists e. split; [exact Hin | now apply decision_eqb_eq]. }
      congruence.
    + intros _. split.
      * intros ->. destruct request; reflexivity.
      * intros Hlevel.
        assert (Hbranch :
          status (match impact_level request with
                  | Some MINOR => set_current_step 6 (set_status PENDING_DOCUMENT_UPDATE request)
                  | _ =>
                      match risk_assessment_of request db with
                      | Some a =>
                          if RiskAssessment.status_eqb (RiskAssessment.status a)
                                                       RiskAssessment.COMPLETED
                          then set_current_step 6 (set_status PENDING_DOCUMENT_UPDATE request)
                          else set_current_step 5 (set_status PENDING_RISK_ASSESSMENT request)
                      | None => set_current_step 5 (set_status PENDING_RISK_ASSESSMENT request)
                      end
                  end) =
          match risk_assessment_of request db with
          | Some a =>
              if RiskAssessment.status_eqb (RiskAssessment.status a) RiskAssessment.COMPLETED
              then PENDING_DOCUMENT_UPDATE else PENDING_RISK_ASSESSMENT
          | None => PENDING_RISK_ASSESSMENT
          end).
        { destruct (impact_level request) as [[| |] |] eqn:Hl; try congruence;
            destruct (risk_assessment_of request db) as [a |];
            try destruct (RiskAssessment.status_eqb (RiskAssessment.status a)
                                                    RiskAssessment.COMPLETED);
            destruct request; reflexivity. }
        rewrite Hbranch. clear Hbranch.
        destruct (risk_assessment_of request db) as [a |] eqn:Ha.
        -- destruct (RiskAssessment.status_eqb (RiskAssessment.status a)
                                                RiskAssessment.COMPLETED) eqn:Hs.
           ++ split; [reflexivity |]. intros Hnot. exfalso. apply Hnot.
              exists a. split; [reflexivity | now apply risk_status_eqb_eq].
           ++ split; [| reflexivity]. intros (a' & Ha' & Hs').
              inversion Ha'; subst a'. apply risk_status_eqb_eq in Hs'. congruence.
        -- split; [| reflexivity]. intros (a' & Ha' & _). discriminate.
Qed.

Lemma upsert_keys_distinct
    now request actor department impact_type decision risk_level notes documents db :
  evaluation_keys_distinct db ->
  (List.length (evaluations_for request department db) <= 1)%nat ->
  evaluation_keys_distinct
    (after_upsert now request actor department impact_type decision risk_level
                  notes documents db).
Proof.
  intros Hkeys Hone. unfold evaluation_keys_distinct in *.
  destruct (evaluations_for request department db) as [| old [| other rest]] eqn:Hfor;
    [ | | simpl in Hone; lia].
  - destruct (upsert_create now request actor department impact_type decision
                            risk_level notes documents db Hfor) as (Htable & _).
    rewrite Htable, map_app. cbn [map].
    apply NoDup_app; [exact Hkeys | repeat constructor; intros [] |].
    intros k Hk [<- | []]. revert Hk.
    unfold upserted_row. rewrite Hfor. cbn [CFTEvaluation.pk].
    apply next_pk_fresh.
  - destruct (upsert_update now request actor department impact_type decision
                            risk_level notes documents db old Hkeys Hfor)
      as (Htable & _ & _ & Hpk & _).
    rewrite Htable.
    assert (Hin : In old (cft_evaluations db)).
    { assert (Hmem : In old (evaluations_for request department db))
        by (rewrite Hfor; now left).
      unfold evaluations_for, evaluations_of in Hmem.
      apply filter_In in Hmem. destruct Hmem as (Hmem & _).
      apply filter_In in Hmem. tauto. }
    rewrite (save_row_keys CFTEvaluation.pk _ old _ Hkeys Hin Hpk). exact Hkeys.
Qed.

(** The row that a submission leaves for its (request, department) pair. *)
Lemma upsert_row
    now request actor department impact_type decision risk_level notes documents db :
  evaluation_keys_distinct db ->
  (List.length (evaluations_for request department db) <= 1)%nat ->
  exists e,
    evaluations_for request department
      (after_upsert now request actor department impact_type decision risk_level
                    notes documents db) = [e] /\
    CFTEvaluation.impact_type e = impact_type /\
    CFTEvaluation.decision e = decision /\
    CFTEvaluation.risk_level e = risk_level /\
    CFTEvaluation.evaluation_notes e = notes.
Proof.
  intros Hkeys Hone.
  exists (upserted_row now request actor department impact_type decision risk_level notes db).
  destruct (evaluations_for request department db) as [| old [| other rest]] eqn:Hfor;
    [ | | simpl in Hone; lia].
  - destruct (upsert_create now request actor department impact_type decision
                            risk_level notes documents db Hfor) as (_ & Hrow & _).
    split; [exact Hrow |]. unfold upserted_row. rewrite Hfor. repeat split.
  - destruct (upsert_update now request actor department impact_type decision
                            risk_level notes documents db old Hkeys Hfor)
      as (_ & Hrow & _).
    split; [exact Hrow |]. unfold upserted_row. rewrite Hfor. repeat split.
Qed.

(** C1.  On a request in PendingCFTEvaluation, a submission by an assigned
    evaluator returns and leaves exactly one evaluation for the (request,
    department) pair, carrying the submitted fields.  If the request then
    has as many evaluations as evaluator assignments, the saved request is
    Rejected when some evaluation is Rejected; otherwise it is in
    PendingDocumentUpdate when its impact level is Minor; otherwise it is
    in PendingRiskAssessment, unless its risk assessment is Completed, in
    which case it is in PendingDocumentUpdate.  If the two counts differ,
    the request and its stored row are unchanged. *)
Theorem cft_evaluation_transition :
  forall now request actor department impact_type decision risk_level notes documents db,
    status request = PENDING_CFT_EVALUATION ->
    assigned_evaluator request department actor db = true ->
    evaluation_keys_distinct db ->
    (List.length (evaluations_for request department db) <= 1)%nat ->
    exists request' db',
      cft_evaluation now request actor department impact_type decision risk_level
                     notes documents db = (Return request', db') /\
      (exists e,
          evaluations_for request department db' = [e] /\
          CFTEvaluation.impact_type e = impact_type /\
          CFTEvaluation.decision e = decision /\
          CFTEvaluation.risk_level e = risk_level /\
          CFTEvaluation.evaluation_notes e = notes) /\
      cft_evaluators db' = cft_evaluators db /\
      (List.length (evaluations_of request db') = List.length (evaluators_of request db') ->
       get_object (pk request) db' = Some request' /\
       (any_rejected request db' -> status request' = REJECTED) /\
       (~ any_rejected request db' ->
        (impact_level request = Some MINOR -> status request' = PENDING_DOCUMENT_UPDATE) /\
        (impact_level request <> Some MINOR ->
         (risk_assessment_completed request db' ->
          status request' = PENDING_DOCUMENT_UPDATE) /\
         (~ risk_assessment_completed request db' ->
          status request' = PENDING_RISK_ASSESSMENT)))) /\
      (List.length (evaluations_of request db') <> List.length (evaluators_of request db') ->
       request' = request /\ requests db' = requests db).
Proof.
  intros now request actor department impact_type decision risk_level notes documents db
         Hstatus Hassigned Hkeys Hone.
  rewrite cft_evaluation_run by assumption. cbv zeta.
  pose proof (upsert_row now request actor department impact_type decision risk_level
                         notes documents db Hkeys Hone) as Hrow.
  set (db1 := after_upsert now request actor department impact_type decision
                           risk_level notes documents db) in *.
  assert (Hevaluators : cft_evaluators db1 = cft_evaluators db) by reflexivity.
  assert (Hrequests : requests db1 = requests db) by reflexivity.
  destruct (Nat.eqb_spec (List.length (evaluators_of request db1))
                         (List.length (evaluations_of request db1))) as [Heq | Hne].
  - exists (decided now request actor db1),
           (set_requests (save_row pk (decided now request actor db1) (requests db1)) db1).
    split; [reflexivity |].
    rewrite evaluations_for_set_requests, evaluators_set_requests,
            evaluations_of_set_requests, evaluators_of_set_requests.
    split; [exact Hrow |]. split; [exact Hevaluators |]. split.
    + intros _. split.
      * rewrite <- (decided_pk now request actor db1). apply get_object_saved.
      * unfold any_rejected, risk_assessment_completed.
        rewrite evaluations_of_set_requests, risk_assessment_of_set_requests.
        apply decided_status.
    + intros Hdiff. congruence.
  - exists request, db1.
    split; [reflexivity |]. split; [exact Hrow |]. split; [exact Hevaluators |]. split.
    + intros Hsame. congruence.
    + intros _. split; [reflexivity | exact Hrequests].
Qed.

(** A submission that returns has passed both guards and found at most one
    evaluation for the pair; the database it leaves is the one after the
    upsert, up to the request table. *)
Lemma cft_evaluation_returns
    now request actor department impact_type decision risk_level notes documents
    db request' db' :
  cft_evaluation now request actor department impact_type decision risk_level
                 notes documents db = (Return request', db') ->
  status request = PENDING_CFT_EVALUATION /\
  assigned_evaluator request department actor db = true /\
  (List.length (evaluations_for request department db) <= 1)%nat /\
  exists v,
    db' = set_requests v
            (after_upsert now request actor department impact_type decision
                          risk_level notes documents db).
Proof.
  intros Hrun.
  assert (Hstatus : status request = PENDING_CFT_EVALUATION).
  { destruct (status_eqb (status request) PENDING_CFT_EVALUATION) eqn:Hs;
      [now apply status_eqb_eq |].
    unfold cft_evaluation in Hrun. rewrite Hs in Hrun. discriminate Hrun. }
  assert (Hassigned : assigned_evaluator request department actor db = true).
  { destruct (assigned_evaluator request department actor db) eqn:Ha; [reflexivity |].
    unfold cft_evaluation in Hrun. rewrite Hstatus in Hrun.
    cbn [status_eqb negb] in Hrun. unfold bind at 1, query at 1 in Hrun.
    fold (assigned_evaluator request department actor db) in Hrun.
    rewrite Ha in Hrun. discriminate Hrun. }
  assert (Hone : (List.length (evaluations_for request department db) <= 1)%nat).
  { destruct (evaluations_for request department db) as [| old [| other rest]] eqn:Hfor;
      [simpl; lia | simpl; lia |].
    unfold cft_evaluation in Hrun. rewrite Hstatus in Hrun.
    cbn [status_eqb negb] in Hrun. unfold bind at 1, query at 1 in Hrun.
    fold (assigned_evaluator request department actor db) in Hrun.
    rewrite Hassigned in Hrun. cbn [negb] in Hrun.
    unfold bind at 1 in Hrun. unfold get_or_create_evaluation in Hrun.
    fold (evaluations_for request department db) in Hrun.
    rewrite Hfor in Hrun. discriminate Hrun. }
  repeat split; try assumption.
  rewrite cft_evaluation_run in Hrun by assumption. cbv zeta in Hrun.
  destruct (Nat.eqb _ _) in Hrun; inversion Hrun; subst.
  - eexists. reflexivity.
  - exists (requests db). unfold after_upsert. reflexivity.
Qed.

Lemma evaluations_for_pk request request' department db :
  pk request' = pk request ->
  evaluations_for request' department db = evaluations_for request department db.
Proof. intros Hpk. unfold evaluations_for, evaluations_of. now rewrite Hpk. Qed.

Lemma evaluations_of_pk request request' db :
  pk request' = pk request ->
  evaluations_of request' db = evaluations_of request db.
Proof. intros Hpk. unfold evaluations_of. now rewrite Hpk. Qed.

(** Whatever the completion check decides, it is not PendingCFTEvaluation. *)
Lemma decided_leaves_evaluation now request actor db :
  status (decided now request actor db) <> PENDING_CFT_EVALUATION.
Proof.
  unfold decided.
  destruct (existsb _ _); [destruct request; discriminate |].
  destruct (impact_level request) as [[| |] |];
    try (destruct request; discriminate);
    destruct (risk_assessment_of request db) as [a |];
    try (destruct request; discriminate);
    destruct (RiskAssessment.status_eqb _ _); destruct request; discriminate.
Qed.

(** A submission that passes the two guards and finds at most one
    evaluation for the pair returns. *)
Lemma cft_evaluation_accepts
    now request actor department impact_type decision risk_level notes documents db :
  status request = PENDING_CFT_EVALUATION ->
  assigned_evaluator request department actor db = true ->
  (List.length (evaluations_for request department db) <= 1)%nat ->
  exists request' v,
    cft_evaluation now request actor department impact_type decision risk_level
                   notes documents db =
      (Return request',
       set_requests v (after_upsert now request actor department impact_type decision
                                    risk_level notes documents db)).
Proof.
  intros Hstatus Hassigned Hone.
  rewrite cft_evaluation_run by assumption. cbv zeta.
  destruct (Nat.eqb _ _).
  - eexists. eexists. reflexivity.
  - exists request, (requests db). unfold after_upsert. reflexivity.
Qed.

(** The request that a submission hands back is still in
    PendingCFTEvaluation exactly when the evaluations on file are not as
    many as the assignments. *)
Lemma cft_evaluation_leaves_pending
    now request actor department impact_type decision risk_level notes documents
    db request' db' :
  cft_evaluation now request actor department impact_type decision risk_level
                 notes documents db = (Return request', db') ->
  pk request' = pk request /\
  (status request' = PENDING_CFT_EVALUATION <->
   List.length (evaluators_of request db') <> List.length (evaluations_of request db')).
Proof.
  intros Hrun.
  destruct (cft_evaluation_returns _ _ _ _ _ _ _ _ _ _ _ _ Hrun)
    as (Hstatus & Hassigned & Hone & _).
  rewrite cft_evaluation_run in Hrun by assumption. cbv zeta in Hrun.
  destruct (Nat.eqb_spec
              (List.length (evaluators_of request
                 (after_upsert now request actor department impact_type decision
                               risk_level notes documents db)))
              (List.length (evaluations_of request
                 (after_upsert now request actor department impact_type decision
                               risk_level notes documents db)))) as [Heq | Hne];
    apply pair_equal_spec in Hrun; destruct Hrun as (Hreturn & <-);
    injection Hreturn as <-.
  - split; [apply decided_pk |].
    rewrite evaluators_of_set_requests, evaluations_of_set_requests.
    split; [intros Hpending; now apply decided_leaves_evaluation in Hpending |].
    intros Hne. contradiction.
  - split; [reflexivity |]. split; [intros _; exact Hne | intros _; exact Hstatus].
Qed.

Lemma assigned_evaluator_pk request request' department actor db db' :
  pk request' = pk request -> cft_evaluators db' = cft_evaluators db ->
  assigned_evaluator request' department actor db' =
  assigned_evaluator request department actor db.
Proof.
  intros Hpk Htable. unfold assigned_evaluator, evaluators_of. now rewrite Hpk, Htable.
Qed.

(** C8, as amended.  A submission that returns leaves exactly one
    evaluation for its (request, department), with its impact type,
    decision, risk level and notes, and hands the request back in
    PendingCFTEvaluation exactly when the evaluations on file are still
    fewer or more than the assignments.  A second submission for the pair,
    by an evaluator assigned for the department and with the same or
    another payload, is accepted while the request it is made on is in
    PendingCFTEvaluation: it returns and leaves exactly one evaluation for
    the pair, the same row (same key, same recorded evaluator), now with the
    payload of the second submission, and adds no evaluation to the
    request.  On a request in any other status it is refused with a
    validation error and writes nothing, so that the row keeps the payload
    of the first. *)
Theorem cft_evaluation_resubmission :
  forall now1 now2 request request2 actor1 actor2 department
         impact_type1 decision1 risk_level1 notes1 documents1
         impact_type2 decision2 risk_level2 notes2 documents2
         db request1' db1,
    evaluation_keys_distinct db ->
    cft_evaluation now1 request actor1 department impact_type1 decision1 risk_level1
                   notes1 documents1 db = (Return request1', db1) ->
    pk request2 = pk request ->
    assigned_evaluator request department actor2 db = true ->
    exists e1,
      evaluations_for request department db1 = [e1] /\
      CFTEvaluation.impact_type e1 = impact_type1 /\
      CFTEvaluation.decision e1 = decision1 /\
      CFTEvaluation.risk_level e1 = risk_level1 /\
      CFTEvaluation.evaluation_notes e1 = notes1 /\
      pk request1' = pk request /\
      (status request1' = PENDING_CFT_EVALUATION <->
       List.length (evaluators_of request db1) <> List.length (evaluations_of request db1)) /\
      (status request2 = PENDING_CFT_EVALUATION ->
       exists request2' db2 e2,
         cft_evaluation now2 request2 actor2 department impact_type2 decision2 risk_level2
                        notes2 documents2 db1 = (Return request2', db2) /\
         evaluations_for request department db2 = [e2] /\
         CFTEvaluation.pk e2 = CFTEvaluation.pk e1 /\
         CFTEvaluation.evaluator e2 = CFTEvaluation.evaluator e1 /\
         CFTEvaluation.impact_type e2 = impact_type2 /\
         CFTEvaluation.decision e2 = decision2 /\
         CFTEvaluation.risk_level e2 = risk_level2 /\
         CFTEvaluation.evaluation_notes e2 = notes2 /\
         List.length (evaluations_of request db2) =
         List.length (evaluations_of request db1)) /\
      (status request2 <> PENDING_CFT_EVALUATION ->
       cft_evaluation now2 request2 actor2 department impact_type2 decision2 risk_level2
                      notes2 documents2 db1 =
         (Raise (ValidationError "Request must be pending CFT evaluation"), db1)).
Proof.
  intros now1 now2 request request2 actor1 actor2 department
         impact_type1 decision1 risk_level1 notes1 documents1
         impact_type2 decision2 risk_level2 notes2 documents2
         db request1' db1 Hkeys Hfirst Hpk Hassigned2.
  destruct (cft_evaluation_leaves_pending _ _ _ _ _ _ _ _ _ _ _ _ Hfirst)
    as (Hpk1 & Hpending).
  destruct (cft_evaluation_returns _ _ _ _ _ _ _ _ _ _ _ _ Hfirst)
    as (_ & _ & Hone & v1 & ->).
  set (mid := after_upsert now1 request actor1 department impact_type1 decision1
                           risk_level1 notes1 documents1 db) in *.
  destruct (upsert_row now1 request actor1 department impact_type1 decision1 risk_level1
                       notes1 documents1 db Hkeys Hone)
    as (e1 & He1 & Himpact & Hdecision & Hrisk & Hnotes).
  fold mid in He1.
  exists e1.
  split; [rewrite evaluations_for_set_requests; exact He1 |].
  split; [exact Himpact |]. split; [exact Hdecision |].
  split; [exact Hrisk |]. split; [exact Hnotes |].
  split; [exact Hpk1 |]. split; [exact Hpending |].
  split.
  - intros Hstatus2.
    assert (Hmidkeys : evaluation_keys_distinct (set_requests v1 mid)).
    { unfold evaluation_keys_distinct. rewrite evaluations_set_requests.
      apply upsert_keys_distinct; assumption. }
    assert (Hfor : evaluations_for request2 department (set_requests v1 mid) = [e1]).
    { rewrite (evaluations_for_pk request request2 department _ Hpk),
              evaluations_for_set_requests. exact He1. }
    assert (Hassigned : assigned_evaluator request2 department actor2
                                           (set_requests v1 mid) = true).
    { rewrite (assigned_evaluator_pk request request2 department actor2 db _ Hpk);
        [exact Hassigned2 |].
      rewrite evaluators_set_requests. reflexivity. }
    destruct (cft_evaluation_accepts now2 request2 actor2 department impact_type2
                decision2 risk_level2 notes2 documents2 (set_requests v1 mid)
                Hstatus2 Hassigned ltac:(rewrite Hfor; apply Nat.le_refl))
      as (request2' & v2 & Hsecond).
    destruct (upsert_update now2 request2 actor2 department impact_type2 decision2
                            risk_level2 notes2 documents2 (set_requests v1 mid) e1
                            Hmidkeys Hfor)
      as (_ & Hrow & Hlen & Hkey & Hevaluator).
    exists request2',
           (set_requests v2
              (after_upsert now2 request2 actor2 department impact_type2 decision2
                            risk_level2 notes2 documents2 (set_requests v1 mid))),
           (upserted_row now2 request2 actor2 department impact_type2 decision2
                         risk_level2 notes2 (set_requests v1 mid)).
    split; [exact Hsecond |].
    rewrite !evaluations_for_set_requests, !evaluations_of_set_requests.
    rewrite (evaluations_for_pk request request2 department _ Hpk) in Hrow.
    rewrite !(evaluations_of_pk request request2 _ Hpk) in Hlen.
    rewrite evaluations_of_set_requests in Hlen.
    split; [exact Hrow |].
    split; [exact Hkey |]. split; [exact Hevaluator |].
    unfold upserted_row. rewrite Hfor.
    repeat split. exact Hlen.
  - intros Hstatus2. unfold cft_evaluation.
    rewrite (status_eqb_neq _ _ Hstatus2). reflexivity.
Qed.

(** C8, as stated, fails.  A Minor request with one evaluator: the first
    submission completes the evaluations and moves the stored request to
    PendingDocumentUpdate; the second submission for the same pair, made on
    the stored request, is refused, and the one evaluation of the pair
    keeps the payload of the first submission. *)
Lemma resubmission_after_completion_is_refused :
  exists request1' db1 e1,
    cft_evaluation 30%Z (first_request registered_minor_store) eve dept_pd
                   CFTEvaluation.QUALITY CFTEvaluation.APPROVED CFTEvaluation.LOW
                   "fine" [] registered_minor_store = (Return request1', db1) /\
    get_object 1 db1 = Some request1' /\
    status request1' = PENDING_DOCUMENT_UPDATE /\
    cft_evaluation 31%Z request1' eve dept_pd CFTEvaluation.REGULATORY
                   CFTEvaluation.APPROVED_WITH_CONDITIONS CFTEvaluation.MEDIUM
                   "on condition" [] db1 =
      (Raise (ValidationError "Request must be pending CFT evaluation"), db1) /\
    evaluations_for request1' dept_pd db1 = [e1] /\
    CFTEvaluation.impact_type e1 = CFTEvaluation.QUALITY /\
    CFTEvaluation.decision e1 = CFTEvaluation.APPROVED /\
    CFTEvaluation.risk_level e1 = CFTEvaluation.LOW /\
    CFTEvaluation.evaluation_notes e1 = "fine"%string /\
    ~ (exists e2,
          evaluations_for request1' dept_pd db1 = [e2] /\
          CFTEvaluation.impact_type e2 = CFTEvaluation.REGULATORY /\
          CFTEvaluation.decision e2 = CFTEvaluation.APPROVED_WITH_CONDITIONS /\
          CFTEvaluation.risk_level e2 = CFTEvaluation.MEDIUM /\
          CFTEvaluation.evaluation_notes e2 = "on condition"%string).
Proof.
  do 3 eexists.
  split; [vm_compute; reflexivity |].
  split; [vm_compute; reflexivity |].
  split; [reflexivity |].
  split; [vm_compute; reflexivity |].
  split; [vm_compute; reflexivity |].
  split; [reflexivity |]. split; [reflexivity |].
  split; [reflexivity |]. split; [reflexivity |].
  intros (e2 & Hrow & Himpact & _).
  vm_compute in Hrow. injection Hrow as <-. discriminate Himpact.
Qed.

(** The last submission.  When every other assigned evaluator has an
    evaluation on file and all of them are Pending without a completion
    time, the submission of the last one, also Pending, returns, brings the
    evaluation count to the assignment count, and moves the saved request
    out of PendingCFTEvaluation: to PendingDocumentUpdate for a Minor
    impact or a Completed risk assessment, to PendingRiskAssessment
    otherwise.  Every evaluation of the request is then still Pending and
    none has a completion time. *)
Lemma pending_evaluations_reach_threshold :
  forall now request actor department impact_type risk_level notes documents db,
    status request = PENDING_CFT_EVALUATION ->
    assigned_evaluator request department actor db = true ->
    evaluations_for request department db = [] ->
    List.length (evaluators_of request db) = S (List.length (evaluations_of request db)) ->
    (forall e, In e (evaluations_of request db) ->
               CFTEvaluation.decision e = CFTEvaluation.PENDING /\
               CFTEvaluation.completed_at e = None) ->
    exists request' db',
      cft_evaluation now request actor department impact_type CFTEvaluation.PENDING
                     risk_level notes documents db = (Return request', db') /\
      get_object (pk request) db' = Some request' /\
      List.length (evaluations_of request db') = List.length (evaluators_of request db') /\
      (forall e, In e (evaluations_of request db') ->
                 CFTEvaluation.decision e = CFTEvaluation.PENDING /\
                 CFTEvaluation.completed_at e = None) /\
      status request' <> PENDING_CFT_EVALUATION /\
      (impact_level request = Some MINOR -> status request' = PENDING_DOCUMENT_UPDATE) /\
      (impact_level request <> Some MINOR ->
       (risk_assessment_completed request db' -> status request' = PENDING_DOCUMENT_UPDATE) /\
       (~ risk_assessment_completed request db' ->
        status request' = PENDING_RISK_ASSESSMENT)).
Proof.
  intros now request actor department impact_type risk_level notes documents db
         Hstatus Hassigned Hnone Hcount Hpending.
  rewrite cft_evaluation_run by (try assumption; rewrite Hnone; simpl; lia).
  cbv zeta.
  destruct (upsert_create now request actor department impact_type CFTEvaluation.PENDING
                          risk_level notes documents db Hnone)
    as (_ & _ & Hof & _ & Hcompleted).
  set (db1 := after_upsert now request actor department impact_type CFTEvaluation.PENDING
                           risk_level notes documents db) in *.
  set (row := upserted_row now request actor department impact_type CFTEvaluation.PENDING
                           risk_level notes db) in *.
  assert (Hdecision : CFTEvaluation.decision row = CFTEvaluation.PENDING)
    by (subst row; unfold upserted_row; rewrite Hnone; reflexivity).
  assert (Hevaluators : evaluators_of request db1 = evaluators_of request db) by reflexivity.
  assert (Hall : forall e, In e (evaluations_of request db1) ->
                           CFTEvaluation.decision e = CFTEvaluation.PENDING /\
                           CFTEvaluation.completed_at e = None).
  { intros e. rewrite Hof, in_app_iff. intros [He | [<- | []]]; [now apply Hpending |].
    split; [exact Hdecision | exact Hcompleted]. }
  assert (Hlen : List.length (evaluators_of request db1) =
                 List.length (evaluations_of request db1)).
  { rewrite Hevaluators, Hof, length_app, Hcount. simpl. lia. }
  rewrite Hlen, Nat.eqb_refl.
  assert (Hnot : ~ any_rejected request db1).
  { intros (e & Hin & Hrej). destruct (Hall e Hin) as (Hp & _). congruence. }
  destruct (decided_status now request actor db1) as (_ & Hdecided).
  specialize (Hdecided Hnot). destruct Hdecided as (Hminor & Hmajor).
  exists (decided now request actor db1),
         (set_requests (save_row pk (decided now request actor db1) (requests db1)) db1).
  rewrite evaluations_of_set_requests, evaluators_of_set_requests.
  unfold risk_assessment_completed. rewrite risk_assessment_of_set_requests.
  split; [reflexivity |].
  split; [rewrite <- (decided_pk now request actor db1); apply get_object_saved |].
  split; [symmetry; exact Hlen |].
  split; [exact Hall |].
  split; [| split; [exact Hminor | exact Hmajor]].
  apply decided_leaves_evaluation.
Qed.

(** ** QA registration *)


Lemma find_app_none {A} (p : A -> bool) l x :
  find p l = None -> find p (l ++ [x]) = (if p x then Some x else None).
Proof.
  induction l as [| y l IH]; cbn [find app]; [reflexivity |].
  destruct (p y); [discriminate | exact IH].
Qed.



(** ** Status guards *)

(** X24.  The operations that test the status reject any other status with
    a ValidationError and write nothing. *)
Lemma guarded_operations_reject_other_status :
  forall (request : ChangeControlRequest.t) (actor : User) (db : Store),
    (status request <> DRAFT ->
     exists m, route_to_dept_head request actor db = (Raise (ValidationError m), db)) /\
    (status request <> PENDING_DEPT_HEAD ->
     forall now approved reason,
     exists m, dept_head_decision now request actor approved reason db =
               (Raise (ValidationError m), db)) /\
    (status request <> PENDING_QA_REGISTRATION ->
     forall year now number level entries target,
     exists m, qa_registration year now request actor number level entries target db =
               (Raise (ValidationError m), db)) /\
    (status request <> PENDING_CFT_EVALUATION ->
     forall now department impact_type decision risk_level notes documents,
     exists m, cft_evaluation now request actor department impact_type decision
                              risk_level notes documents db =
               (Raise (ValidationError m), db)) /\
    (status request <> PENDING_ACTION_PLAN ->
     forall plans,
     exists m, action_plan_management request actor plans db =
               (Raise (ValidationError m), db)) /\
    (status request <> PENDING_QA_EVALUATION ->
     forall cft docs risk filings comments,
     exists m, qa_final_evaluation request actor cft docs risk filings comments db =
               (Raise (ValidationError m), db)) /\
    (status request <> PENDING_QA_HEAD_APPROVAL ->
     forall approved reason,
     exists m, qa_head_approval request actor approved reason db =
               (Raise (ValidationError m), db)) /\
    (status request <> PENDING_VERIFICATION ->
     forall now implemented trained no_impact comments,
     exists m, post_implementation_verification now request actor implemented trained
                                                no_impact comments db =
               (Raise (ValidationError m), db)).
Proof.
  intros request actor db.
  repeat split; intros Hstatus; intros;
    eexists;
    match goal with
    | |- ?f = _ =>
        let h := eval cbv delta [route_to_dept_head dept_head_decision qa_registration
                                  cft_evaluation action_plan_management
                                  qa_final_evaluation qa_head_approval
                                  post_implementation_verification] beta in f in
        change f with h
    end;
    rewrite (status_eqb_neq _ _ Hstatus); reflexivity.
Qed.

(** [complete_risk_assessment] does not look at the status of the request:
    whenever the actor is the assignee it completes the assessment and
    saves the request in PendingDocumentUpdate. *)
Lemma complete_risk_assessment_any_status now request actor findings recommendations db a :
  risk_assessment_of request db = Some a ->
  user_eqb (RiskAssessment.assigned_to a) actor = true ->
  exists request' a' db',
    complete_risk_assessment now request actor findings recommendations db =
      (Return (request', a'), db') /\
    status request' = PENDING_DOCUMENT_UPDATE /\
    get_object (pk request) db' = Some request' /\
    logged db db' (pk request) [(status request, PENDING_DOCUMENT_UPDATE)].
Proof.
  intros Ha Hactor.
  unfold complete_risk_assessment.
  unfold bind at 1. unfold query at 1. rewrite Ha, Hactor. cbn [negb].
  unfold bind, save_risk_assessment, save_request, log_workflow_history, write, ret.
  set (saved := set_current_step 6 _).
  assert (Hpk : pk saved = pk request) by (subst saved; destruct request; reflexivity).
  assert (Hsaved : status saved = PENDING_DOCUMENT_UPDATE)
    by (subst saved; destruct request; reflexivity).
  do 3 eexists. split; [reflexivity |].
  split; [exact Hsaved |]. split.
  - unfold get_object. destruct db; cbn [requests set_workflow_history set_requests
                                          set_risk_assessments].
    rewrite <- Hpk. apply find_save_row.
  - eexists. split.
    + destruct db; cbn [workflow_history set_workflow_history set_requests
                        set_risk_assessments]. reflexivity.
    + cbn [map WorkflowHistory.request WorkflowHistory.previous_status
             WorkflowHistory.new_status]. rewrite Hpk, Hsaved. reflexivity.
Qed.

(** [complete_action_plan] never returns: past the permission test it
    raises UnboundLocalError before any write. *)
Lemma complete_action_plan_never_returns now request actor plan notes db :
  exists e, complete_action_plan now request actor plan notes db = (Raise e, db).
Proof.
  unfold complete_action_plan.
  destruct (negb (user_eqb (ActionPlan.responsible_person plan) actor));
    eexists; reflexivity.
Qed.

(** C2 (defect in the code).  The registered Major request of
    [registered_ops] is in PendingCFTEvaluation with none of its two
    evaluations submitted.  CompleteRiskAssessment by the assignee is not
    refused: it returns, and the request is saved in
    PendingDocumentUpdate with one more history entry. *)
Theorem complete_risk_assessment_without_status_guard :
  let db := run registered_ops empty_store in
  exists before after db',
    get_object 1 db = Some before /\
    status before = PENDING_CFT_EVALUATION /\
    evaluations_of before db = [] /\
    perform (CompleteRiskAssessment 40%Z 1 quinn "findings" "none") db = (Ok after, db') /\
    status after = PENDING_DOCUMENT_UPDATE /\
    get_object 1 db' = Some after /\
    List.length (workflow_history db') = S (List.length (workflow_history db)).
Proof.
  cbv zeta. do 3 eexists.
  split; [vm_compute; reflexivity |].
  split; [reflexivity |].
  split; [reflexivity |].
  split; [vm_compute; reflexivity |].
  split; [reflexivity |].
  split; reflexivity.
Qed.

(** The value of [regulatory_filings_complete] is never read. *)
Lemma regulatory_filings_never_read request actor cft docs risk filings filings' comments db :
  qa_final_evaluation request actor cft docs risk filings comments db =
  qa_final_evaluation request actor cft docs risk filings' comments db.
Proof. reflexivity. Qed.

(** C4 (defect in the code).  On a Minor request in PendingQAEvaluation,
    QAFinalEvaluation with regulatory_filings_complete false is not
    refused: it returns with the request in PendingQAHeadApproval. *)
Theorem qa_final_evaluation_without_regulatory_filings :
  let request := sample_request PENDING_QA_EVALUATION 8 (Some MINOR) in
  exists after db',
    qa_final_evaluation request quinn true true true false "checked" (store_of request) =
      (Return after, db') /\
    status after = PENDING_QA_HEAD_APPROVAL /\
    get_object 1 db' = Some after.
Proof.
  cbv zeta. do 2 eexists.
  split; [vm_compute; reflexivity |].
  split; reflexivity.
Qed.

(** C5 (defect in the code).  After initiation, approval, registration as
    Major and a rejecting evaluation the request is Rejected with its three
    rejection fields populated; CompleteRiskAssessment by the assignee then
    moves it to PendingDocumentUpdate and the fields stay populated. *)
Theorem rejection_fields_outlive_rejected_status :
  let rejected := run rejected_ops empty_store in
  let db := run (rejected_ops ++ [CompleteRiskAssessment 40%Z 1 quinn "findings" "none"])
                empty_store in
  exists r r',
    get_object 1 rejected = Some r /\
    status r = REJECTED /\ rejection_populated r = true /\
    get_object 1 db = Some r' /\
    status r' = PENDING_DOCUMENT_UPDATE /\ rejection_populated r' = true.
Proof.
  cbv zeta. do 2 eexists.
  split; [vm_compute; reflexivity |].
  split; [reflexivity |].
  split; [reflexivity |].
  split; [vm_compute; reflexivity |].
  split; reflexivity.
Qed.

(** Verify with a failed check is refused before anything is written. *)
Lemma verification_failure_writes_nothing
    now request actor implemented trained no_impact comments db :
  status request = PENDING_VERIFICATION ->
  andb implemented (andb trained no_impact) = false ->
  post_implementation_verification now request actor implemented trained no_impact
                                   comments db =
  (Raise (ValidationError "All verification checks must pass"), db).
Proof.
  intros Hstatus Hchecks. unfold post_implementation_verification.
  rewrite Hstatus. cbn [status_eqb negb forallb].
  replace (implemented && (trained && (no_impact && true)))%bool with false
    by (destruct implemented, trained, no_impact; simpl in *; congruence).
  reflexivity.
Qed.

(** C6 (defect in the code).  Initiate on a department without a head
    raises a ValidationError after the request and the history entry of
    the initiation have been written: the database holds a Draft request
    and one history entry. *)
Theorem initiate_without_head_persists :
  exists message db',
    initiate_request "26" alice (Some dept_ra) "X" "change X" empty_store =
      (Raise (ValidationError message), db') /\
    map status (requests db') = [DRAFT] /\
    map temporary_cc_number (requests db') = ["REQ/CC/26/RA/00001"%string] /\
    map WorkflowHistory.action (workflow_history db') = ["Request initiated"%string].
Proof.
  do 2 eexists.
  split; [vm_compute; reflexivity |].
  split; [reflexivity |]. split; reflexivity.
Qed.

(** ** The audit log *)

(** Attribute assignments and the fields read back. *)
Section SetterFacts.
Variable r : ChangeControlRequest.t.
Lemma pk_set_final_cc_number v : pk (set_final_cc_number v r) = pk r.
Proof. destruct r; reflexivity. Qed.
Lemma status_set_final_cc_number v : status (set_final_cc_number v r) = status r.
Proof. destruct r; reflexivity. Qed.
Lemma pk_set_impact_level v : pk (set_impact_level v r) = pk r.
Proof. destruct r; reflexivity. Qed.
Lemma status_set_impact_level v : status (set_impact_level v r) = status r.
Proof. destruct r; reflexivity. Qed.
Lemma pk_set_target_completion_time v : pk (set_target_completion_time v r) = pk r.
Proof. destruct r; reflexivity. Qed.
Lemma status_set_target_completion_time v : status (set_target_completion_time v r) = status r.
Proof. destruct r; reflexivity. Qed.
Lemma pk_set_qa_registered_by v : pk (set_qa_registered_by v r) = pk r.
Proof. destruct r; reflexivity. Qed.
Lemma status_set_qa_registered_by v : status (set_qa_registered_by v r) = status r.
Proof. destruct r; reflexivity. Qed.
Lemma pk_set_qa_registration_date v : pk (set_qa_registration_date v r) = pk r.
Proof. destruct r; reflexivity. Qed.
Lemma status_set_qa_registration_date v : status (set_qa_registration_date v r) = status r.
Proof. destruct r; reflexivity. Qed.
Lemma pk_set_status v : pk (set_status v r) = pk r.
Proof. destruct r; reflexivity. Qed.
Lemma status_set_status v : status (set_status v r) = v.
Proof. destruct r; reflexivity. Qed.
Lemma pk_set_current_step v : pk (set_current_step v r) = pk r.
Proof. destruct r; reflexivity. Qed.
Lemma status_set_current_step v : status (set_current_step v r) = status r.
Proof. destruct r; reflexivity. Qed.
Lemma pk_set_closed_at v : pk (set_closed_at v r) = pk r.
Proof. destruct r; reflexivity. Qed.
Lemma status_set_closed_at v : status (set_closed_at v r) = status r.
Proof. destruct r; reflexivity. Qed.
Lemma pk_set_rejection_reason v : pk (set_rejection_reason v r) = pk r.
Proof. destruct r; reflexivity. Qed.
Lemma status_set_rejection_reason v : status (set_rejection_reason v r) = status r.
Proof. destruct r; reflexivity. Qed.
Lemma pk_set_rejected_by v : pk (set_rejected_by v r) = pk r.
Proof. destruct r; reflexivity. Qed.
Lemma status_set_rejected_by v : status (set_rejected_by v r) = status r.
Proof. destruct r; reflexivity. Qed.
Lemma pk_set_rejected_at v : pk (set_rejected_at v r) = pk r.
Proof. destruct r; reflexivity. Qed.
Lemma status_set_rejected_at v : status (set_rejected_at v r) = status r.
Proof. destruct r; reflexivity. Qed.
End SetterFacts.

Ltac request_fields :=
  repeat first
    [ rewrite pk_set_final_cc_number
    | rewrite status_set_final_cc_number
    | rewrite pk_set_impact_level
    | rewrite status_set_impact_level
    | rewrite pk_set_target_completion_time
    | rewrite status_set_target_completion_time
    | rewrite pk_set_qa_registered_by
    | rewrite status_set_qa_registered_by
    | rewrite pk_set_qa_registration_date
    | rewrite status_set_qa_registration_date
    | rewrite pk_set_status
    | rewrite status_set_status
    | rewrite pk_set_current_step
    | rewrite status_set_current_step
    | rewrite pk_set_closed_at
    | rewrite status_set_closed_at
    | rewrite pk_set_rejection_reason
    | rewrite status_set_rejection_reason
    | rewrite pk_set_rejected_by
    | rewrite status_set_rejected_by
    | rewrite pk_set_rejected_at
    | rewrite status_set_rejected_at ].

(** Closes a goal [logged db db' key transitions] once [db'] is explicit. *)
Ltac show_logged :=
  repeat match goal with d : Store |- _ => destruct d end;
  eexists; split;
  [ cbn; reflexivity
  | cbn [map WorkflowHistory.request WorkflowHistory.previous_status
           WorkflowHistory.new_status];
    request_fields; reflexivity ].

Lemma dept_head_decision_logged now request actor approved reason db request' db' :
  dept_head_decision now request actor approved reason db = (Return request', db') ->
  logged db db' (pk request) [(status request, status request')].
Proof.
  unfold dept_head_decision. intros Hrun.
  destruct (negb (status_eqb (status request) PENDING_DEPT_HEAD)); [discriminate |].
  destruct (match Department.head (department request) with
            | Some head => negb (user_eqb head actor) | None => true end); [discriminate |].
  destruct approved;
    unfold bind, log_workflow_history, save_request, write, ret in Hrun;
    inversion Hrun; subst; clear Hrun.
  - show_logged.
  - show_logged.
Qed.

Lemma route_to_dept_head_logged request actor db request' db' :
  route_to_dept_head request actor db = (Return request', db') ->
  logged db db' (pk request) [(status request, status request')].
Proof.
  unfold route_to_dept_head. intros Hrun.
  destruct (negb (status_eqb (status request) DRAFT)); [discriminate |].
  destruct (Department.head (department request)); [| discriminate].
  unfold bind, log_workflow_history, save_request, write, ret in Hrun.
  inversion Hrun; subst; clear Hrun. show_logged.
Qed.

Lemma complete_risk_assessment_logged
    now request actor findings recommendations db request' a' db' :
  complete_risk_assessment now request actor findings recommendations db =
    (Return (request', a'), db') ->
  logged db db' (pk request) [(status request, status request')].
Proof.
  unfold complete_risk_assessment. intros Hrun.
  unfold bind at 1 in Hrun. unfold query at 1 in Hrun.
  destruct (risk_assessment_of request db) as [a |]; [| discriminate].
  destruct (negb (user_eqb (RiskAssessment.assigned_to a) actor)); [discriminate |].
  unfold bind, log_workflow_history, save_request, save_risk_assessment, write, ret in Hrun.
  inversion Hrun; subst; clear Hrun. show_logged.
Qed.

Lemma qa_final_evaluation_logged
    request actor cft docs risk filings comments db request' db' :
  qa_final_evaluation request actor cft docs risk filings comments db =
    (Return request', db') ->
  logged db db' (pk request) [(status request, status request')].
Proof.
  unfold qa_final_evaluation. intros Hrun.
  destruct (negb (status_eqb (status request) PENDING_QA_EVALUATION)); [discriminate |].
  destruct (negb cft); [discriminate |].
  destruct (negb docs); [discriminate |].
  unfold bind at 1 in Hrun. unfold query at 1 in Hrun.
  destruct (andb _ (negb risk)); [discriminate |].
  destruct (andb _ _); [discriminate |].
  unfold bind, log_workflow_history, save_request, write, ret in Hrun.
  inversion Hrun; subst; clear Hrun. show_logged.
Qed.

Lemma qa_head_approval_logged request actor approved reason db request' db' :
  qa_head_approval request actor approved reason db = (Return request', db') ->
  logged db db' (pk request) [(status request, status request')].
Proof.
  unfold qa_head_approval. intros Hrun.
  destruct (negb (status_eqb (status request) PENDING_QA_HEAD_APPROVAL)); [discriminate |].
  destruct approved;
    unfold bind, log_workflow_history, save_request, write, ret in Hrun;
    inversion Hrun; subst; clear Hrun; show_logged.
Qed.

Lemma verification_logged
    now request actor implemented trained no_impact comments db request' db' :
  post_implementation_verification now request actor implemented trained no_impact
                                   comments db = (Return request', db') ->
  status request' = CLOSED /\
  logged db db' (pk request) [(status request, CLOSED); (CLOSED, CLOSED)].
Proof.
  unfold post_implementation_verification. intros Hrun.
  destruct (negb (status_eqb (status request) PENDING_VERIFICATION)); [discriminate |].
  destruct (negb (forallb _ _)); [discriminate |].
  unfold bind, qa_closure in Hrun.
  unfold log_workflow_history at 1, save_request at 1, write at 1 2 in Hrun.
  rewrite status_set_closed_at, status_set_current_step, status_set_status in Hrun.
  cbn [status_eqb negb] in Hrun.
  unfold bind, log_workflow_history, write, ret in Hrun.
  inversion Hrun; subst; clear Hrun.
  split; [request_fields; reflexivity |].
  destruct db. eexists. split; [cbn; rewrite <- app_assoc; reflexivity |].
  cbn [map WorkflowHistory.request WorkflowHistory.previous_status
         WorkflowHistory.new_status].
  request_fields. reflexivity.
Qed.

Lemma complete_document_revision_logged
    now request actor revision notes db request' revision' db' :
  complete_document_revision now request actor revision notes db =
    (Return (request', revision'), db') ->
  (status request' <> status request ->
   logged db db' (pk request) [(status request, status request')]) /\
  (status request' = status request ->
   workflow_history db' = workflow_history db).
Proof.
  unfold complete_document_revision. intros Hrun.
  unfold bind at 1 in Hrun. unfold save_revision at 1, write at 1 in Hrun.
  unfold bind at 1 in Hrun. unfold query at 1 in Hrun.
  destruct (filter DocumentRevision.open _) as [| open rest].
  - destruct (status_eqb (status request) PENDING_DOCUMENT_UPDATE) eqn:Hs.
    + apply status_eqb_eq in Hs.
      unfold bind, log_workflow_history, save_request, write, ret in Hrun.
      inversion Hrun; subst; clear Hrun. split.
      * intros _. show_logged.
      * request_fields. rewrite Hs. discriminate.
    + unfold ret in Hrun. inversion Hrun; subst; clear Hrun.
      split; [congruence |]. intros _. destruct db; reflexivity.
  - unfold ret in Hrun. inversion Hrun; subst; clear Hrun.
    split; [congruence |]. intros _. destruct db; reflexivity.
Qed.

(** A loop whose body leaves the audit log alone leaves it alone. *)
Lemma for_each_history {A} (body : A -> M unit) xs :
  (forall x db o db', body x db = (o, db') -> workflow_history db' = workflow_history db) ->
  forall db o db', for_each xs body db = (o, db') ->
                   workflow_history db' = workflow_history db.
Proof.
  intros Hbody. induction xs as [| x rest IH]; intros db o db' Hrun.
  - inversion Hrun. reflexivity.
  - cbn [for_each] in Hrun. unfold bind in Hrun.
    destruct (body x db) as [[[] | e] db1] eqn:Hx.
    + rewrite (IH _ _ _ Hrun). eapply Hbody; eassumption.
    + inversion Hrun; subst. eapply Hbody; eassumption.
Qed.

Lemma create_plan_history request data db o db' :
  create_plan request data db = (o, db') -> workflow_history db' = workflow_history db.
Proof.
  unfold create_plan. intros Hrun.
  destruct (ad_description data), (ad_responsible_person data), (ad_expected_timeline data);
    inversion Hrun; subst; try reflexivity; destruct db; reflexivity.
Qed.

Lemma get_or_create_evaluator_history request department evaluator db o db' :
  get_or_create_evaluator request department evaluator db = (o, db') ->
  workflow_history db' = workflow_history db.
Proof.
  unfold get_or_create_evaluator. intros Hrun.
  destruct (filter _ (evaluators_of request db)) as [| e [| e' rest]].
  - destruct (existsb _ _); inversion Hrun; subst; try reflexivity;
      destruct db; reflexivity.
  - inversion Hrun; reflexivity.
  - inversion Hrun; reflexivity.
Qed.

Lemma action_plan_management_logged request actor plans db request' db' :
  action_plan_management request actor plans db = (Return request', db') ->
  status request' = status request /\
  logged db db' (pk request) [(status request, status request')].
Proof.
  unfold action_plan_management. intros Hrun.
  destruct (negb (status_eqb (status request) PENDING_ACTION_PLAN)); [discriminate |].
  unfold bind at 1 in Hrun.
  destruct (for_each plans (create_plan request) db) as [[[] | e] db1] eqn:Hloop;
    [| discriminate].
  pose proof (for_each_history _ _ (create_plan_history request) _ _ _ Hloop) as Hhist.
  unfold bind, log_workflow_history, save_request, write, ret in Hrun.
  inversion Hrun; subst; clear Hrun.
  split; [request_fields; reflexivity |].
  eexists. split.
  - rewrite <- Hhist. destruct db1; cbn. reflexivity.
  - cbn [map WorkflowHistory.request WorkflowHistory.previous_status
           WorkflowHistory.new_status]. request_fields. reflexivity.
Qed.

Lemma cft_evaluation_logged
    now request actor department impact_type decision risk_level notes documents
    db request' db' :
  cft_evaluation now request actor department impact_type decision risk_level
                 notes documents db = (Return request', db') ->
  status request' = status request ->
  logged db db' (pk request) [(status request, status request')].
Proof.
  intros Hrun Hsame.
  destruct (cft_evaluation_returns _ _ _ _ _ _ _ _ _ _ _ _ Hrun)
    as (Hstatus & Hassigned & Hone & _).
  rewrite cft_evaluation_run in Hrun by assumption. cbv zeta in Hrun.
  destruct (Nat.eqb _ _) in Hrun; inversion Hrun; subst; clear Hrun.
  - exfalso. rewrite Hstatus in Hsame.
    exact (decided_leaves_evaluation _ _ _ _ Hsame).
  - eexists. split; reflexivity.
Qed.

Lemma qa_registration_minor_logged
    year now request actor number entries target db request' db' :
  qa_registration year now request actor number "Minor" entries target db =
    (Return request', db') ->
  logged db db' (pk request) [(status request, status request')].
Proof.
  unfold qa_registration. intros Hrun.
  destruct (status_eqb (status request) PENDING_QA_REGISTRATION) eqn:Hs; [| discriminate].
  apply status_eqb_eq in Hs.
  cbn [negb] in Hrun.
  change (impact_of_value "Minor") with (Some MINOR) in Hrun. cbv iota in Hrun.
  unfold bind at 1 in Hrun.
  assert (Hnumber : exists n,
    (match number with
     | Some (String c s) => ret (String c s)
     | _ => query (generate_final_cc_number year (Department.code (department request)))
     end) db = (Return n, db)).
  { destruct number as [[| c s] |]; eexists; reflexivity. }
  destruct Hnumber as (n & Hnumber). rewrite Hnumber in Hrun. clear Hnumber.
  unfold bind at 1 in Hrun. unfold query at 1 in Hrun.
  destruct (existsb _ (requests db)); [discriminate |].
  unfold bind at 1 in Hrun. unfold save_request at 1, write at 1 in Hrun.
  unfold bind at 1 in Hrun.
  match type of Hrun with
  | context [for_each entries ?body ?s] =>
      destruct (for_each entries body s) as [[[] | e] db1] eqn:Hloop; [| discriminate];
      assert (Hhist : workflow_history db1 = workflow_history s)
  end.
  { eapply for_each_history; [| exact Hloop].
    intros x d o d' Hx. cbv beta in Hx.
    destruct (ed_department x), (ed_evaluator x);
      try (inversion Hx; reflexivity).
    exact (get_or_create_evaluator_history _ _ _ _ _ _ Hx). }
  unfold bind, log_workflow_history, write, ret in Hrun.
  inversion Hrun; subst; clear Hrun.
  eexists. split.
  - destruct db1; cbn in *. rewrite Hhist. destruct db; reflexivity.
  - cbn [map WorkflowHistory.request WorkflowHistory.previous_status
           WorkflowHistory.new_status]. request_fields.
    reflexivity.
Qed.

Lemma initiate_request_logged year user department title description db request' db' :
  initiate_request year user department title description db = (Return request', db') ->
  status request' = PENDING_DEPT_HEAD /\
  logged db db' (pk request') [(DRAFT, DRAFT); (DRAFT, PENDING_DEPT_HEAD)].
Proof.
  unfold initiate_request. intros Hrun.
  destruct department as [department |]; [| discriminate].
  unfold bind at 1 in Hrun. unfold query at 1 in Hrun.
  unfold bind at 1 in Hrun. unfold create_request at 1 in Hrun.
  destruct (existsb _ (requests db)); [discriminate |].
  unfold bind at 1 in Hrun. unfold log_workflow_history at 1, write at 1 in Hrun.
  unfold bind at 1 in Hrun. unfold route_to_dept_head in Hrun.
  cbn [status status_eqb negb ChangeControlRequest.department] in Hrun.
  destruct (Department.head department) as [head |]; [| discriminate].
  unfold bind, log_workflow_history, save_request, write, ret in Hrun.
  inversion Hrun; subst; clear Hrun.
  split; [reflexivity |].
  destruct db. eexists. split; [cbn; rewrite <- app_assoc; reflexivity | reflexivity].
Qed.

(** X29.  A call that returns writes history as follows.
    RouteToDeptHead, DeptHeadDecision, QARegister with impact Minor,
    CompleteRiskAssessment, QAFinalEvaluation and QAHeadApproval write
    exactly one entry, carrying the status of the request before the call
    as previous status and its status after the call as new status.
    CreateActionPlans, and a SubmitCFTEvaluation that leaves the request in
    its status, write exactly one entry whose previous and new status are
    that unchanged status.  CompleteDocumentRevision writes one
    before/after entry when it changes the status and no entry when it
    does not.  Initiate writes two entries, Draft to Draft for the creation
    and Draft to PendingDeptHead for the routing; Verify writes two,
    the status before to Closed and Closed to Closed for the closure. *)
Theorem history_entries_of_operations :
  (forall request actor db request' db',
      route_to_dept_head request actor db = (Return request', db') ->
      logged db db' (pk request) [(status request, status request')]) /\
  (forall now request actor approved reason db request' db',
      dept_head_decision now request actor approved reason db = (Return request', db') ->
      logged db db' (pk request) [(status request, status request')]) /\
  (forall year now request actor number entries target db request' db',
      qa_registration year now request actor number "Minor" entries target db =
        (Return request', db') ->
      logged db db' (pk request) [(status request, status request')]) /\
  (forall now request actor findings recommendations db request' a' db',
      complete_risk_assessment now request actor findings recommendations db =
        (Return (request', a'), db') ->
      logged db db' (pk request) [(status request, status request')]) /\
  (forall request actor cft docs risk filings comments db request' db',
      qa_final_evaluation request actor cft docs risk filings comments db =
        (Return request', db') ->
      logged db db' (pk request) [(status request, status request')]) /\
  (forall request actor approved reason db request' db',
      qa_head_approval request actor approved reason db = (Return request', db') ->
      logged db db' (pk request) [(status request, status request')]) /\
  (forall request actor plans db request' db',
      action_plan_management request actor plans db = (Return request', db') ->
      status request' = status request /\
      logged db db' (pk request) [(status request, status request)]) /\
  (forall now request actor department impact_type decision risk_level notes documents
          db request' db',
      cft_evaluation now request actor department impact_type decision risk_level
                     notes documents db = (Return request', db') ->
      status request' = status request ->
      logged db db' (pk request) [(status request, status request)]) /\
  (forall now request actor revision notes db request' revision' db',
      complete_document_revision now request actor revision notes db =
        (Return (request', revision'), db') ->
      (status request' <> status request ->
       logged db db' (pk request) [(status request, status request')]) /\
      (status request' = status request ->
       workflow_history db' = workflow_history db)) /\
  (forall year user department title description db request' db',
      initiate_request year user department title description db =
        (Return request', db') ->
      status request' = PENDING_DEPT_HEAD /\
      logged db db' (pk request') [(DRAFT, DRAFT); (DRAFT, PENDING_DEPT_HEAD)]) /\
  (forall now request actor implemented trained no_impact comments db request' db',
      post_implementation_verification now request actor implemented trained no_impact
                                       comments db = (Return request', db') ->
      status request' = CLOSED /\
      logged db db' (pk request) [(status request, CLOSED); (CLOSED, CLOSED)]).
Proof.
  split; [exact route_to_dept_head_logged |].
  split; [exact dept_head_decision_logged |].
  split; [exact qa_registration_minor_logged |].
  split; [exact complete_risk_assessment_logged |].
  split; [exact qa_final_evaluation_logged |].
  split; [exact qa_head_approval_logged |].
  split.
  { intros request actor plans db request' db' Hrun.
    destruct (action_plan_management_logged _ _ _ _ _ _ Hrun) as (Hsame & Hlog).
    split; [exact Hsame |]. rewrite Hsame in Hlog. exact Hlog. }
  split.
  { intros now request actor department impact_type decision risk_level notes documents
           db request' db' Hrun Hsame.
    pose proof (cft_evaluation_logged _ _ _ _ _ _ _ _ _ _ _ _ Hrun Hsame) as Hlog.
    rewrite Hsame in Hlog. exact Hlog. }
  split; [exact complete_document_revision_logged |].
  split; [exact initiate_request_logged |].
  exact verification_logged.
Qed.

(** With two revisions pending, completing one returns, leaves the request
    in PendingDocumentUpdate and writes no history entry at all. *)
Lemma revision_completion_writes_no_entry :
  exists request' revision' db',
    complete_document_revision 50%Z revising_request dana revision_sop "revised"
                               revising_store = (Return (request', revision'), db') /\
    status request' = status revising_request /\
    workflow_history db' = workflow_history revising_store /\
    ~ logged revising_store db' (pk revising_request)
             [(status revising_request, status request')].
Proof.
  do 3 eexists.
  split; [vm_compute; reflexivity |].
  split; [reflexivity |]. split; [reflexivity |].
  intros (entries & Hhistory & Hentries).
  destruct entries as [| h rest]; [discriminate Hentries |].
  discriminate Hhistory.
Qed.

(** C3.  The entry of the submission that completes the evaluations is
    written before the status changes.  On the registered Minor request
    with one evaluator, the approving submission leaves the request in
    PendingDocumentUpdate and the rejecting one in Rejected; each writes one
    entry, PendingCFTEvaluation to PendingCFTEvaluation, and the log holds
    no entry from PendingCFTEvaluation to the status reached. *)
Theorem threshold_entry_is_stale :
  (exists request' db' h,
      cft_evaluation 30%Z (first_request registered_minor_store) eve dept_pd
                     CFTEvaluation.QUALITY CFTEvaluation.APPROVED CFTEvaluation.LOW
                     "fine" [] registered_minor_store = (Return request', db') /\
      status (first_request registered_minor_store) = PENDING_CFT_EVALUATION /\
      status request' = PENDING_DOCUMENT_UPDATE /\
      workflow_history db' = workflow_history registered_minor_store ++ [h] /\
      WorkflowHistory.previous_status h = PENDING_CFT_EVALUATION /\
      WorkflowHistory.new_status h = PENDING_CFT_EVALUATION /\
      ~ logged registered_minor_store db' 1
               [(PENDING_CFT_EVALUATION, PENDING_DOCUMENT_UPDATE)]) /\
  (exists request' db' h,
      cft_evaluation 30%Z (first_request registered_minor_store) eve dept_pd
                     CFTEvaluation.QUALITY CFTEvaluation.REJECTED CFTEvaluation.HIGH
                     "no" [] registered_minor_store = (Return request', db') /\
      status request' = REJECTED /\
      workflow_history db' = workflow_history registered_minor_store ++ [h] /\
      WorkflowHistory.previous_status h = PENDING_CFT_EVALUATION /\
      WorkflowHistory.new_status h = PENDING_CFT_EVALUATION /\
      ~ logged registered_minor_store db' 1 [(PENDING_CFT_EVALUATION, REJECTED)]).
Proof.
  split.
  - do 3 eexists.
    split; [vm_compute; reflexivity |].
    split; [reflexivity |]. split; [reflexivity |].
    split; [vm_compute; reflexivity |].
    split; [reflexivity |]. split; [reflexivity |].
    intros (entries & Hhistory & Hentries).
    destruct entries as [| h [| h' rest]]; try discriminate Hentries.
    vm_compute in Hhistory. injection Hhistory as <-. discriminate Hentries.
  - do 3 eexists.
    split; [vm_compute; reflexivity |].
    split; [reflexivity |].
    split; [vm_compute; reflexivity |].
    split; [reflexivity |]. split; [reflexivity |].
    intros (entries & Hhistory & Hentries).
    destruct entries as [| h [| h' rest]]; try discriminate Hentries.
    vm_compute in Hhistory. injection Hhistory as <-. discriminate Hentries.
Qed.

(** ** Further evaluations of the defects *)

(** Were [ActionPlan] bound at line 528, the body of [complete_action_plan]
    would run without a status test as well: on a Closed request whose
    only action item is already Completed it saves the request in
    PendingQAEvaluation. *)
Lemma complete_action_plan_body_has_no_status_guard :
  let request := sample_request CLOSED 11 (Some MINOR) in
  let plan := ActionPlan.mk 1 1 "train operators" eve 300%Z ActionPlan.COMPLETED
                            (Some 60%Z) "done" in
  let db := set_action_plans [plan] (store_of request) in
  exists after plan' db',
    complete_action_plan_body 70%Z request eve plan "again" db =
      (Return (after, plan'), db') /\
    status after = PENDING_QA_EVALUATION /\
    get_object 1 db' = Some after.
Proof.
  cbv zeta. do 3 eexists.
  split; [vm_compute; reflexivity |]. split; reflexivity.
Qed.

(** The same body writes no history entry while another item is pending. *)
Lemma complete_action_plan_body_logs_on_completion_only :
  let request := sample_request PENDING_ACTION_PLAN 7 (Some MINOR) in
  let first := ActionPlan.mk 1 1 "train operators" eve 300%Z ActionPlan.PENDING
                             None EmptyString in
  let second := ActionPlan.mk 2 1 "update labels" dana 310%Z ActionPlan.PENDING
                              None EmptyString in
  let db := set_action_plans [first; second] (store_of request) in
  exists after plan' db',
    complete_action_plan_body 70%Z request eve first "done" db =
      (Return (after, plan'), db') /\
    status after = PENDING_ACTION_PLAN /\
    workflow_history db' = workflow_history db.
Proof.
  cbv zeta. do 3 eexists.
  split; [vm_compute; reflexivity |]. split; reflexivity.
Qed.

(** QARegister with the same department listed for two evaluators: the
    second get_or_create violates the unique constraint after the request
    has been saved in PendingCFTEvaluation and the first assignment
    created; the registration is not logged. *)
Lemma registration_with_repeated_department_persists :
  let db := run approved_ops empty_store in
  let history := workflow_history db in
  exists db' r,
    qa_registration "26" 20%Z (first_request db) quinn None "Minor"
      [mk_evaluator_data (Some dept_pd) (Some eve);
       mk_evaluator_data (Some dept_pd) (Some dana)] 400%Z db =
      (Raise IntegrityError, db') /\
    get_object 1 db' = Some r /\
    status r = PENDING_CFT_EVALUATION /\
    List.length (cft_evaluators db') = 1%nat /\
    workflow_history db' = history.
Proof.
  cbv zeta. do 2 eexists.
  split; [vm_compute; reflexivity |].
  split; [vm_compute; reflexivity |].
  split; [reflexivity |]. split; reflexivity.
Qed.

(** X25.  The two operations that reject populate the three rejection
    fields. *)
Lemma rejecting_operations_populate_fields :
  (forall now request actor reason db request' db',
      dept_head_decision now request actor false reason db = (Return request', db') ->
      status request' = REJECTED /\ rejection_populated request' = true) /\
  (forall now request actor department impact_type decision risk_level notes documents
          db request' db',
      cft_evaluation now request actor department impact_type decision risk_level
                     notes documents db = (Return request', db') ->
      status request' = REJECTED ->
      rejection_populated request' = true).
Proof.
  split.
  - intros now request actor reason db request' db' Hrun.
    unfold dept_head_decision in Hrun.
    destruct (negb (status_eqb (status request) PENDING_DEPT_HEAD)); [discriminate |].
    destruct (match Department.head (department request) with
              | Some head => negb (user_eqb head actor) | None => true end); [discriminate |].
    unfold bind, log_workflow_history, save_request, write, ret in Hrun.
    inversion Hrun; subst; clear Hrun.
    split; [request_fields; reflexivity |].
    unfold rejection_populated.
    destruct request; cbn.
    destruct (String.eqb_spec reason EmptyString) as [-> | Hne]; [reflexivity |].
    destruct (String.eqb_spec reason EmptyString); [contradiction | reflexivity].
  - intros now request actor department impact_type decision risk_level notes documents
           db request' db' Hrun Hrejected.
    destruct (cft_evaluation_returns _ _ _ _ _ _ _ _ _ _ _ _ Hrun)
      as (Hstatus & Hassigned & Hone & _).
    rewrite cft_evaluation_run in Hrun by assumption. cbv zeta in Hrun.
    destruct (Nat.eqb _ _) in Hrun; inversion Hrun; subst; clear Hrun;
      [| congruence].
    revert Hrejected. unfold decided.
    destruct (existsb _ _); [intros _; destruct request; reflexivity |].
    destruct (impact_level request) as [[| |] |];
      try (destruct request; discriminate);
      destruct (risk_assessment_of request _) as [a |];
      try (destruct request; discriminate);
      destruct (RiskAssessment.status_eqb _ _); destruct request; discriminate.
Qed.

(** ** Every evaluator submits Pending *)

Lemma user_eqb_refl u : user_eqb u u = true.
Proof. apply Nat.eqb_refl. Qed.

Lemma get_object_pk key db request :
  get_object key db = Some request -> pk request = key.
Proof.
  unfold get_object. intros Hfind. apply find_some in Hfind.
  destruct Hfind as (_ & Hkey). now apply Nat.eqb_eq.
Qed.

Section AllPending.
Variables (key : nat) (payload : CFTEvaluator.t -> submission_payload)
          (request : ChangeControlRequest.t) (rows : list CFTEvaluator.t)
          (risk : option RiskAssessment.t).
Hypothesis request_key : pk request = key.
Hypothesis request_status : status request = PENDING_CFT_EVALUATION.
Hypothesis departments_distinct :
  NoDup (map (fun row => Department.pk (CFTEvaluator.department row)) rows).

Lemma pending_step done row rest db :
  rows = done ++ row :: rest ->
  submitted key request rows risk done db ->
  exists request' db',
    perform (pending_submission key payload row) db = (Ok request', db') /\
    (rest <> [] -> request' = request /\ submitted key request rows risk (done ++ [row]) db') /\
    (rest = [] ->
     request' = decided (fst (fst (fst (payload row)))) request (CFTEvaluator.evaluator row) db' /\
     get_object key db' = Some request' /\
     evaluators_of request db' = rows /\
     risk_assessment_of request db' = risk /\
     List.length (evaluations_of request db') = List.length rows /\
     forall e, In e (evaluations_of request db') ->
               CFTEvaluation.decision e = CFTEvaluation.PENDING /\
               CFTEvaluation.completed_at e = None).
Proof.
  intros Hrows (Hget & Hevaluators & Hrisk & Hlen & Hall).
  unfold pending_submission.
  destruct (payload row) as [[[now impact_type] risk_level] notes] eqn:Hpayload.
  cbn [fst perform]. unfold with_request. rewrite Hget. unfold respond.
  set (department := CFTEvaluator.department row).
  set (actor := CFTEvaluator.evaluator row).
  assert (Hin : In row (evaluators_of request db))
    by (rewrite Hevaluators, Hrows; apply in_or_app; right; now left).
  assert (Hassigned : assigned_evaluator request department actor db = true).
  { unfold assigned_evaluator. apply existsb_exists. exists row. split; [exact Hin |].
    subst department actor.
    now rewrite department_eqb_refl, user_eqb_refl. }
  assert (Hnone : evaluations_for request department db = []).
  { unfold evaluations_for.
    destruct (filter _ (evaluations_of request db)) as [| e l] eqn:Hfilter; [reflexivity |].
    exfalso.
    assert (He : In e (filter (fun e => Department.eqb (CFTEvaluation.department e) department)
                              (evaluations_of request db)))
      by (rewrite Hfilter; now left).
    apply filter_In in He. destruct He as (He & Hdept).
    destruct (Hall e He) as (_ & _ & row' & Hrow' & Hsame).
    apply Nat.eqb_eq in Hdept, Hsame.
    rewrite Hrows, map_app in departments_distinct. cbn [map] in departments_distinct.
    apply NoDup_remove_2 in departments_distinct. apply departments_distinct.
    apply in_or_app. left.
    subst department. rewrite <- Hdept, Hsame.
    apply (in_map (fun row => Department.pk (CFTEvaluator.department row))). exact Hrow'. }
  rewrite cft_evaluation_run by (try assumption; rewrite Hnone; simpl; lia).
  cbv zeta.
  destruct (upsert_create now request actor department impact_type CFTEvaluation.PENDING
                          risk_level notes [] db Hnone)
    as (_ & _ & Hof & _ & Hcompleted).
  set (db1 := after_upsert now request actor department impact_type CFTEvaluation.PENDING
                           risk_level notes [] db) in *.
  set (new := upserted_row now request actor department impact_type CFTEvaluation.PENDING
                           risk_level notes db) in *.
  assert (Hdecision : CFTEvaluation.decision new = CFTEvaluation.PENDING)
    by (subst new; unfold upserted_row; rewrite Hnone; reflexivity).
  assert (Hdept : CFTEvaluation.department new = department)
    by (subst new; unfold upserted_row; rewrite Hnone; reflexivity).
  assert (Hevaluators1 : evaluators_of request db1 = rows) by exact Hevaluators.
  assert (Hrisk1 : risk_assessment_of request db1 = risk) by exact Hrisk.
  assert (Hget1 : get_object key db1 = Some request) by exact Hget.
  assert (Hlen1 : List.length (evaluations_of request db1) = S (List.length done))
    by (rewrite Hof, length_app, Hlen; simpl; lia).
  assert (Hall1 : forall e, In e (evaluations_of request db1) ->
              CFTEvaluation.decision e = CFTEvaluation.PENDING /\
              CFTEvaluation.completed_at e = None /\
              exists row', In row' (done ++ [row]) /\
                           Department.eqb (CFTEvaluation.department e)
                                          (CFTEvaluator.department row') = true).
  { intros e. rewrite Hof, in_app_iff. intros [He | [<- | []]].
    - destruct (Hall e He) as (Hd & Hc & row' & Hrow' & Hsame).
      split; [exact Hd |]. split; [exact Hc |].
      exists row'. split; [apply in_or_app; now left | exact Hsame].
    - split; [exact Hdecision |]. split; [exact Hcompleted |].
      exists row. split; [apply in_or_app; right; now left |].
      rewrite Hdept. apply department_eqb_refl. }
  assert (Hcount : List.length rows = (S (List.length done) + List.length rest)%nat)
    by (rewrite Hrows, length_app; simpl; lia).
  rewrite Hevaluators1, Hlen1.
  destruct rest as [| next rest].
  - replace (List.length rows) with (S (List.length done)) by (simpl in Hcount; lia).
    rewrite Nat.eqb_refl.
    do 2 eexists. split; [reflexivity |].
    split; [intros Hne; now contradiction Hne |]. intros _.
    rewrite evaluators_of_set_requests, risk_assessment_of_set_requests,
            evaluations_of_set_requests.
    split.
    { unfold decided. rewrite evaluations_of_set_requests,
                              risk_assessment_of_set_requests. reflexivity. }
    split; [rewrite <- request_key, <- (decided_pk now request actor db1);
            apply get_object_saved |].
    split; [exact Hevaluators1 |]. split; [exact Hrisk1 |].
    split; [rewrite Hlen1; simpl in Hcount; lia |].
    intros e He. destruct (Hall1 e He) as (Hd & Hc & _). split; assumption.
  - destruct (Nat.eqb_spec (List.length rows) (S (List.length done))) as [Heq | _];
      [simpl in Hcount; lia |].
    do 2 eexists. split; [reflexivity |].
    split; [| intros Hnil; discriminate Hnil]. intros _.
    split; [reflexivity |].
    unfold submitted. rewrite length_app. cbn [List.length].
    split; [exact Hget1 |]. split; [exact Hevaluators1 |]. split; [exact Hrisk1 |].
    split; [rewrite Hlen1; lia | exact Hall1].
Qed.

Lemma pending_run todo :
  forall done db,
    rows = done ++ todo -> todo <> [] -> submitted key request rows risk done db ->
    advanced key request rows risk (run (pending_submissions key payload todo) db).
Proof.
  induction todo as [| row rest IH]; intros done db Hrows Htodo Hsubmitted;
    [now contradiction Htodo |].
  destruct (pending_step done row rest db Hrows Hsubmitted)
    as (request' & db' & Hperform & Hmore & Hlast).
  cbn [pending_submissions map run]. rewrite Hperform. cbn [snd].
  destruct rest as [| next rest].
  - destruct (Hlast eq_refl) as (Hdecided & Hrest). cbn [map run].
    unfold advanced. exists request'. do 2 eexists. split; [exact Hdecided | exact Hrest].
  - destruct (Hmore ltac:(discriminate)) as (_ & Hnext).
    apply (IH (done ++ [row]) db'); [| discriminate | exact Hnext].
    rewrite <- app_assoc. exact Hrows.
Qed.
End AllPending.

(** C9.  An evaluation whose decision is Pending counts toward the
    completion threshold.  Take a request in PendingCFTEvaluation with at
    least one evaluator assignment (one per department) and no evaluation
    yet, and let every assigned evaluator submit an evaluation with
    decision Pending, whatever the other fields.  After these calls the
    request has as many evaluations as assignments, all Pending and none
    with a completion time, and the saved request has left
    PendingCFTEvaluation: it is in PendingDocumentUpdate when its impact is
    Minor or its risk assessment is Completed, in PendingRiskAssessment
    otherwise. *)
Theorem all_pending_submissions_advance :
  forall key payload db request,
    get_object key db = Some request ->
    status request = PENDING_CFT_EVALUATION ->
    evaluators_of request db <> [] ->
    NoDup (map (fun row => Department.pk (CFTEvaluator.department row))
               (evaluators_of request db)) ->
    evaluations_of request db = [] ->
    let db' := run (pending_submissions key payload (evaluators_of request db)) db in
    exists request',
      get_object key db' = Some request' /\
      status request' <> PENDING_CFT_EVALUATION /\
      (impact_level request = Some MINOR -> status request' = PENDING_DOCUMENT_UPDATE) /\
      (impact_level request <> Some MINOR ->
       (risk_assessment_completed request db -> status request' = PENDING_DOCUMENT_UPDATE) /\
       (~ risk_assessment_completed request db ->
        status request' = PENDING_RISK_ASSESSMENT)) /\
      List.length (evaluations_of request db') = List.length (evaluators_of request db') /\
      List.length (evaluators_of request db') = List.length (evaluators_of request db) /\
      (forall e, In e (evaluations_of request db') ->
                 CFTEvaluation.decision e = CFTEvaluation.PENDING /\
                 CFTEvaluation.completed_at e = None).
Proof.
  intros key payload db request Hget Hstatus Hsome Hdistinct Hnone db'.
  assert (Hstart : submitted key request (evaluators_of request db)
                             (risk_assessment_of request db) [] db).
  { unfold submitted. rewrite Hnone.
    split; [exact Hget |]. split; [reflexivity |]. split; [reflexivity |].
    split; [reflexivity |]. intros e []. }
  destruct (pending_run key payload request (evaluators_of request db)
                        (risk_assessment_of request db)
                        (get_object_pk _ _ _ Hget) Hstatus Hdistinct
                        (evaluators_of request db) [] db eq_refl Hsome Hstart)
    as (request' & now & actor & Hdecided & Hget' & Hevaluators & Hrisk & Hlen & Hall).
  fold db' in Hdecided, Hget', Hevaluators, Hrisk, Hlen, Hall.
  assert (Hclean : ~ any_rejected request db').
  { intros (e & Hin & Hrejected). destruct (Hall e Hin) as (Hpending & _). congruence. }
  destruct (decided_status now request actor db') as (_ & Hstatus').
  destruct (Hstatus' Hclean) as (Hminor & Hmajor).
  exists request'. rewrite Hdecided.
  split; [rewrite <- Hdecided; exact Hget' |].
  split; [apply decided_leaves_evaluation |].
  split; [exact Hminor |].
  split.
  { intros Hlevel. destruct (Hmajor Hlevel) as (Hdone & Hopen).
    unfold risk_assessment_completed in *. rewrite Hrisk in Hdone, Hopen.
    split; assumption. }
  split; [rewrite Hlen, Hevaluators; reflexivity |].
  split; [rewrite Hevaluators; reflexivity | exact Hall].
Qed.


(** ** The theorems at concrete inputs *)

(** Scenario C of the specification: a Minor request with one evaluator;
    the approving evaluation moves it to PendingDocumentUpdate. *)
Lemma cft_evaluation_transition_witness :
  let db := run minor_ops empty_store in
  let request := first_request db in
  status request = PENDING_CFT_EVALUATION /\
  assigned_evaluator request dept_pd eve db = true /\
  evaluation_keys_distinct db /\
  (List.length (evaluations_for request dept_pd db) <= 1)%nat /\
  exists request' db',
    cft_evaluation 30%Z request eve dept_pd CFTEvaluation.QUALITY CFTEvaluation.APPROVED
                   CFTEvaluation.LOW "fine" [] db = (Return request', db') /\
    exists e,
      evaluations_for request dept_pd db' = [e] /\
      CFTEvaluation.impact_type e = CFTEvaluation.QUALITY /\
      CFTEvaluation.decision e = CFTEvaluation.APPROVED /\
      CFTEvaluation.risk_level e = CFTEvaluation.LOW /\
      CFTEvaluation.evaluation_notes e = "fine"%string.
Proof.
  cbv zeta.
  assert (H1 : status (first_request (run minor_ops empty_store)) = PENDING_CFT_EVALUATION)
    by reflexivity.
  assert (H2 : assigned_evaluator (first_request (run minor_ops empty_store)) dept_pd eve
                                  (run minor_ops empty_store) = true) by reflexivity.
  assert (H3 : evaluation_keys_distinct (run minor_ops empty_store)) by constructor.
  assert (H4 : (List.length (evaluations_for (first_request (run minor_ops empty_store))
                                             dept_pd (run minor_ops empty_store)) <= 1)%nat)
    by (vm_compute; lia).
  split; [exact H1 |]. split; [exact H2 |]. split; [exact H3 |]. split; [exact H4 |].
  destruct (cft_evaluation_transition 30%Z _ eve dept_pd CFTEvaluation.QUALITY
              CFTEvaluation.APPROVED CFTEvaluation.LOW "fine" [] _ H1 H2 H3 H4)
    as (request' & db' & Hrun & Hrow & _).
  exists request', db'. split; [exact Hrun | exact Hrow].
Defined.

(** A Major request with two evaluators: the first evaluator submits twice. *)
Lemma cft_evaluation_resubmission_witness :
  let db := run registered_ops empty_store in
  let request := first_request db in
  let db1 := snd (cft_evaluation 30%Z request eve dept_pd CFTEvaluation.QUALITY
                    CFTEvaluation.APPROVED CFTEvaluation.LOW "fine" [] db) in
  evaluation_keys_distinct db /\
  cft_evaluation 30%Z request eve dept_pd CFTEvaluation.QUALITY CFTEvaluation.APPROVED
                 CFTEvaluation.LOW "fine" [] db = (Return request, db1) /\
  pk request = pk request /\
  assigned_evaluator request dept_pd eve db = true /\
  exists e1 request2' db2 e2,
    evaluations_for request dept_pd db1 = [e1] /\
    CFTEvaluation.decision e1 = CFTEvaluation.APPROVED /\
    cft_evaluation 31%Z request eve dept_pd CFTEvaluation.REGULATORY
                   CFTEvaluation.APPROVED_WITH_CONDITIONS CFTEvaluation.MEDIUM
                   "on condition" [] db1 = (Return request2', db2) /\
    evaluations_for request dept_pd db2 = [e2] /\
    CFTEvaluation.pk e2 = CFTEvaluation.pk e1 /\
    CFTEvaluation.evaluator e2 = CFTEvaluation.evaluator e1 /\
    CFTEvaluation.impact_type e2 = CFTEvaluation.REGULATORY /\
    CFTEvaluation.decision e2 = CFTEvaluation.APPROVED_WITH_CONDITIONS /\
    CFTEvaluation.risk_level e2 = CFTEvaluation.MEDIUM /\
    CFTEvaluation.evaluation_notes e2 = "on condition"%string /\
    List.length (evaluations_of request db2) = List.length (evaluations_of request db1).
Proof.
  cbv zeta.
  set (db := run registered_ops empty_store).
  set (request := first_request db).
  set (db1 := snd (cft_evaluation 30%Z request eve dept_pd CFTEvaluation.QUALITY
                     CFTEvaluation.APPROVED CFTEvaluation.LOW "fine" [] db)).
  assert (H1 : evaluation_keys_distinct db) by constructor.
  assert (H2 : cft_evaluation 30%Z request eve dept_pd CFTEvaluation.QUALITY
                 CFTEvaluation.APPROVED CFTEvaluation.LOW "fine" [] db =
               (Return request, db1)) by (vm_compute; reflexivity).
  assert (H3 : assigned_evaluator request dept_pd eve db = true) by reflexivity.
  split; [exact H1 |]. split; [exact H2 |]. split; [reflexivity |]. split; [exact H3 |].
  destruct (cft_evaluation_resubmission 30%Z 31%Z request request eve eve dept_pd
              CFTEvaluation.QUALITY CFTEvaluation.APPROVED CFTEvaluation.LOW "fine" []
              CFTEvaluation.REGULATORY CFTEvaluation.APPROVED_WITH_CONDITIONS
              CFTEvaluation.MEDIUM "on condition" [] db request db1 H1 H2 eq_refl H3)
    as (e1 & He1 & _ & Hdecision & _ & _ & _ & _ & Haccepted & _).
  destruct (Haccepted eq_refl) as (request2' & db2 & e2 & Hrest).
  exists e1, request2', db2, e2.
  split; [exact He1 |]. split; [exact Hdecision |]. exact Hrest.
Defined.

(** A Major request with two evaluators: both submit Pending. *)
Lemma pending_evaluations_reach_threshold_example :
  let db := run (registered_ops ++
                 [SubmitCFTEvaluation 30%Z 1 eve dept_pd CFTEvaluation.QUALITY
                    CFTEvaluation.PENDING CFTEvaluation.LOW "later"]) empty_store in
  let request := first_request db in
  status request = PENDING_CFT_EVALUATION /\
  assigned_evaluator request dept_qa bob db = true /\
  evaluations_for request dept_qa db = [] /\
  List.length (evaluators_of request db) = S (List.length (evaluations_of request db)) /\
  (forall e, In e (evaluations_of request db) ->
             CFTEvaluation.decision e = CFTEvaluation.PENDING /\
             CFTEvaluation.completed_at e = None) /\
  exists request' db',
    cft_evaluation 31%Z request bob dept_qa CFTEvaluation.OPERATIONAL CFTEvaluation.PENDING
                   CFTEvaluation.LOW "later" [] db = (Return request', db') /\
    status request' <> PENDING_CFT_EVALUATION.
Proof.
  cbv zeta.
  set (db := run _ empty_store).
  set (request := first_request db).
  assert (H1 : status request = PENDING_CFT_EVALUATION) by reflexivity.
  assert (H2 : assigned_evaluator request dept_qa bob db = true) by reflexivity.
  assert (H3 : evaluations_for request dept_qa db = []) by reflexivity.
  assert (H4 : List.length (evaluators_of request db) =
               S (List.length (evaluations_of request db))) by reflexivity.
  assert (H5 : forall e, In e (evaluations_of request db) ->
                         CFTEvaluation.decision e = CFTEvaluation.PENDING /\
                         CFTEvaluation.completed_at e = None).
  { intros e [<- | []]. split; reflexivity. }
  split; [exact H1 |]. split; [exact H2 |]. split; [exact H3 |].
  split; [exact H4 |]. split; [exact H5 |].
  destruct (pending_evaluations_reach_threshold 31%Z request bob dept_qa
              CFTEvaluation.OPERATIONAL CFTEvaluation.LOW "later" [] db H1 H2 H3 H4 H5)
    as (request' & db' & Hrun & _ & _ & _ & Hleft & _).
  exists request', db'. split; [exact Hrun | exact Hleft].
Defined.


(** A Major request with two evaluators, who both submit Pending. *)
Lemma all_pending_submissions_advance_witness :
  let db := run registered_ops empty_store in
  let request := first_request db in
  let payload := fun _ : CFTEvaluator.t =>
                   (30%Z, CFTEvaluation.QUALITY, CFTEvaluation.LOW, "later"%string) in
  get_object 1 db = Some request /\
  status request = PENDING_CFT_EVALUATION /\
  evaluators_of request db <> [] /\
  NoDup (map (fun row => Department.pk (CFTEvaluator.department row))
             (evaluators_of request db)) /\
  evaluations_of request db = [] /\
  exists request',
    get_object 1 (run (pending_submissions 1 payload (evaluators_of request db)) db) =
      Some request' /\
    status request' <> PENDING_CFT_EVALUATION.
Proof.
  cbv zeta.
  set (db := run registered_ops empty_store).
  set (request := first_request db).
  set (payload := fun _ : CFTEvaluator.t =>
                    (30%Z, CFTEvaluation.QUALITY, CFTEvaluation.LOW, "later"%string)).
  assert (H1 : get_object 1 db = Some request) by (vm_compute; reflexivity).
  assert (H2 : status request = PENDING_CFT_EVALUATION) by reflexivity.
  assert (H3 : evaluators_of request db <> []) by (vm_compute; discriminate).
  assert (H4 : NoDup (map (fun row => Department.pk (CFTEvaluator.department row))
                          (evaluators_of request db))).
  { vm_compute. constructor; [intros [H | []]; discriminate H |].
    constructor; [intros [] | constructor]. }
  assert (H5 : evaluations_of request db = []) by reflexivity.
  split; [exact H1 |]. split; [exact H2 |]. split; [exact H3 |].
  split; [exact H4 |]. split; [exact H5 |].
  destruct (all_pending_submissions_advance 1 payload db request H1 H2 H3 H4 H5)
    as (request' & Hget & Hleft & _).
  exists request'. split; [exact Hget | exact Hleft].
Defined.

(** The department head approves a freshly initiated request; a revision
    is completed while another one is pending. *)
Lemma history_entries_of_operations_witness :
  let db := run [Initiate "26" alice (Some dept_qa) "X" "change X"] empty_store in
  let request := first_request db in
  (exists request' db',
      dept_head_decision 10%Z request bob true EmptyString db = (Return request', db') /\
      logged db db' (pk request) [(PENDING_DEPT_HEAD, PENDING_QA_REGISTRATION)]) /\
  (exists request' revision' db',
      complete_document_revision 50%Z revising_request dana revision_sop "revised"
                                 revising_store = (Return (request', revision'), db') /\
      workflow_history db' = workflow_history revising_store).
Proof.
  cbv zeta.
  destruct history_entries_of_operations
    as (_ & Hdecision & _ & _ & _ & _ & _ & _ & Hrevision & _).
  split.
  - set (db := run [Initiate "26" alice (Some dept_qa) "X" "change X"] empty_store).
    set (out := dept_head_decision 10%Z (first_request db) bob true EmptyString db).
    assert (Hrun : out = (Return (set_current_step 3
                                    (set_status PENDING_QA_REGISTRATION (first_request db))),
                          snd out)) by (vm_compute; reflexivity).
    exists (set_current_step 3 (set_status PENDING_QA_REGISTRATION (first_request db))),
           (snd out).
    split; [exact Hrun |]. exact (Hdecision _ _ _ _ _ _ _ _ Hrun).
  - set (out := complete_document_revision 50%Z revising_request dana revision_sop
                                           "revised" revising_store).
    assert (Hrun : out = (Return (revising_request, snd (match fst out with
                                                         | Return a => a
                                                         | Raise _ => (revising_request,
                                                                       revision_sop)
                                                         end)),
                          snd out)) by (vm_compute; reflexivity).
    do 3 eexists. split; [exact Hrun |].
    exact (proj2 (Hrevision _ _ _ _ _ _ _ _ _ Hrun) eq_refl).
Defined.

(** ** Freshness of generated tracking numbers *)

Lemma split_nonempty sep s : split sep s <> [].
Proof.
  destruct s as [| c r]; cbn [split]; [discriminate |].
  destruct (Ascii.eqb c sep); [discriminate |].
  destruct (split sep r); discriminate.
Qed.

Lemma split_append sep q s :
  split sep (q ++ String sep s) = split sep q ++ split sep s.
Proof.
  induction q as [| c q IH]; cbn [append split].
  - now rewrite Ascii.eqb_refl.
  - destruct (Ascii.eqb c sep); [now rewrite IH |].
    rewrite IH. destruct (split sep q) as [| h t] eqn:Hq; [| reflexivity].
    now apply split_nonempty in Hq.
Qed.

Lemma split_no_slash s : no_slash s = true -> split "/" s = [s].
Proof.
  induction s as [| c r IH]; intros Hs; [reflexivity |].
  cbn [no_slash] in Hs. apply andb_prop in Hs. destruct Hs as (Hc & Hr).
  cbn [split]. apply negb_true_iff in Hc. rewrite Hc, (IH Hr). reflexivity.
Qed.

Lemma last_app_nonempty {A} (l1 l2 : list A) d :
  l2 <> [] -> last (l1 ++ l2) d = last l2 d.
Proof.
  intros Hl2. induction l1 as [| x l1 IH]; [reflexivity |].
  cbn [app]. destruct (l1 ++ l2) eqn:Happ.
  - apply app_eq_nil in Happ. destruct Happ. contradiction.
  - cbn [last]. exact IH.
Qed.

Lemma sequence_part_append q s :
  no_slash s = true -> sequence_part (q ++ String "/" s) = s.
Proof.
  intros Hs. unfold sequence_part.
  rewrite split_append, (split_no_slash s Hs).
  rewrite last_app_nonempty by discriminate. reflexivity.
Qed.

Lemma no_slash_append s t :
  no_slash s = true -> no_slash t = true -> no_slash (s ++ t) = true.
Proof.
  intros Hs Ht. induction s as [| c s IH]; [exact Ht |].
  cbn [no_slash append] in *. apply andb_prop in Hs. destruct Hs as (Hc & Hs).
  now rewrite Hc, IH.
Qed.

Lemma no_slash_zeros k : no_slash (zeros k) = true.
Proof. induction k; [reflexivity | exact IHk]. Qed.

Lemma digit_char_not_slash d :
  (0 <= d <= 9)%Z -> negb (Ascii.eqb (digit_char d) "/") = true.
Proof.
  intros Hd.
  assert (Hcases : (d = 0 \/ d = 1 \/ d = 2 \/ d = 3 \/ d = 4 \/
                    d = 5 \/ d = 6 \/ d = 7 \/ d = 8 \/ d = 9)%Z) by lia.
  repeat (destruct Hcases as [-> | Hcases]; [reflexivity |]).
  subst d; reflexivity.
Qed.

Lemma no_slash_str_digits fuel :
  forall n acc, no_slash acc = true -> no_slash (str_digits fuel n acc) = true.
Proof.
  induction fuel as [| fuel IH]; intros n acc Hacc; [exact Hacc |].
  cbn [str_digits].
  assert (Hnext : no_slash (String (digit_char (n mod 10)) acc) = true).
  { cbn [no_slash]. rewrite digit_char_not_slash, Hacc; [reflexivity |].
    pose proof (Z.mod_pos_bound n 10). lia. }
  destruct (n / 10 =? 0)%Z; [exact Hnext | now apply IH].
Qed.

(** The zero-filled decimal form of a natural number has no slash. *)
Lemma no_slash_zfill_str n : (0 <= n)%Z -> no_slash (zfill 5 (str n)) = true.
Proof.
  intros Hn.
  assert (Hstr : no_slash (str n) = true).
  { unfold str. destruct (Z.ltb_spec n 0); [lia |]. now apply no_slash_str_digits. }
  unfold zfill. destruct (Nat.leb 5 (String.length (str n))); [exact Hstr |].
  destruct (str n) as [| c r] eqn:Hs; [apply no_slash_zeros |].
  destruct (orb (Ascii.eqb c "+") (Ascii.eqb c "-")).
  - cbn [no_slash] in *. apply andb_prop in Hstr. destruct Hstr as (Hc & Hr).
    rewrite Hc. cbn [andb]. apply no_slash_append; [apply no_slash_zeros | exact Hr].
  - apply no_slash_append; [apply no_slash_zeros | exact Hstr].
Qed.

Lemma append_assoc (s t u : string) : ((s ++ t) ++ u = s ++ (t ++ u))%string.
Proof. induction s as [| c s IH]; cbn [append]; [reflexivity | now rewrite IH]. Qed.

(** A value starts with each of its prefixes. *)
Lemma prefix_append p t : like_startswith p (p ++ t) = true.
Proof.
  induction p as [| c p IH]; [reflexivity |].
  cbn [append like_startswith].
  destruct (Ascii.eqb c zero); [reflexivity |].
  now rewrite Ascii.eqb_refl.
Qed.

(** A prefix that ends in a slash, followed by the padded number: the last
    segment is the padded number and reads back as the number. *)
Lemma sequence_of_number q n :
  (0 <= n)%Z ->
  py_int (sequence_part ((q ++ "/") ++ zfill 5 (str n))) = Some n.
Proof.
  intros Hn. rewrite append_assoc. cbn [append].
  rewrite sequence_part_append by now apply no_slash_zfill_str.
  now apply zfill_str.
Qed.

Lemma temp_prefix_slash year code :
  temp_prefix year code = (("REQ/CC/" ++ year ++ "/" ++ code) ++ "/")%string.
Proof. unfold temp_prefix. now rewrite !append_assoc. Qed.

Lemma final_prefix_slash year code :
  exists q, final_prefix year code = (q ++ "/")%string.
Proof.
  unfold final_prefix. destruct (String.eqb code EmptyString).
  - exists ("REQ/CC/" ++ year ++ "/GEN")%string. now rewrite !append_assoc.
  - exists ("REQ/CC/" ++ year ++ "/" ++ code)%string. now rewrite !append_assoc.
Qed.

(** The number that follows the largest one is not among the numbers. *)
Lemma next_number_fresh q numbers : ~ In (next_number (q ++ "/") numbers) numbers.
Proof.
  intros Hin.
  pose proof (max_sequence_from_upper numbers 0 _ _ Hin
                (sequence_of_number q (max_sequence_from 0 numbers + 1)
                   ltac:(pose proof (max_sequence_from_ge numbers 0); lia))).
  lia.
Qed.

Lemma prefix_next_number p numbers : like_startswith p (next_number p numbers) = true.
Proof. apply prefix_append. Qed.

(** The generated temporary number is held by no request. *)
Lemma temp_number_is_new :
  forall current_year department_code db,
    ~ In (generate_temp_cc_number current_year department_code db)
         (map temporary_cc_number (requests db)).
Proof.
  intros year code db Hin.
  unfold generate_temp_cc_number in Hin.
  assert (Hexisting : In (next_number (temp_prefix year code)
                            (existing_temp_numbers (temp_prefix year code) db))
                         (existing_temp_numbers (temp_prefix year code) db)).
  { unfold existing_temp_numbers at 2. apply filter_In.
    split; [exact Hin | apply prefix_next_number]. }
  rewrite temp_prefix_slash in Hexisting.
  exact (next_number_fresh _ _ Hexisting).
Qed.

(** Nor is the generated final number, with a department code or with
    the generic code GEN of an empty one. *)
Lemma final_number_is_new :
  forall current_year department_code db,
    ~ In (Some (generate_final_cc_number current_year department_code db))
         (map final_cc_number (requests db)).
Proof.
  intros year code db Hin.
  unfold generate_final_cc_number in Hin.
  assert (Hexisting : In (next_number (final_prefix year code)
                            (existing_final_numbers (final_prefix year code) db))
                         (existing_final_numbers (final_prefix year code) db)).
  { unfold existing_final_numbers at 2. apply in_flat_map.
    apply in_map_iff in Hin. destruct Hin as (r & Hr & Hin).
    exists r. split; [exact Hin |]. rewrite Hr.
    rewrite prefix_next_number. now left. }
  destruct (final_prefix_slash year code) as (q & Hq). rewrite Hq in Hexisting.
  exact (next_number_fresh _ _ Hexisting).
Qed.

(** X1.  The generated tracking numbers are new.  Whatever the year, the
    department code and the database, the temporary number that
    [generate_temp_cc_number] returns is the temporary number of no stored
    request, and the final number that [generate_final_cc_number] returns
    is the final number of none. *)
Theorem generated_numbers_are_fresh :
  forall current_year department_code db,
    ~ In (generate_temp_cc_number current_year department_code db)
         (map temporary_cc_number (requests db)) /\
    ~ In (Some (generate_final_cc_number current_year department_code db))
         (map final_cc_number (requests db)).
Proof.
  intros year code db. split; [apply temp_number_is_new | apply final_number_is_new].
Qed.

(** ** Initiation *)

Lemma save_row_last {A} (key : A -> nat) (x y : A) rows :
  ~ In (key x) (map key rows) -> key y = key x ->
  save_row key x (rows ++ [y]) = rows ++ [x].
Proof.
  intros Hfresh Hkey. induction rows as [| r rs IH]; cbn [save_row app].
  - now rewrite Hkey, Nat.eqb_refl.
  - destruct (Nat.eqb_spec (key r) (key x)) as [Heq | _].
    + exfalso. apply Hfresh. left. exact Heq.
    + rewrite IH; [reflexivity |]. intros Hin. apply Hfresh. now right.
Qed.

Lemma existsb_false_not_in (g : string) (rows : list ChangeControlRequest.t) :
  ~ In g (map temporary_cc_number rows) ->
  existsb (fun r => String.eqb (temporary_cc_number r) g) rows = false.
Proof.
  intros Hfresh. destruct (existsb _ rows) eqn:Hex; [| reflexivity].
  apply existsb_exists in Hex. destruct Hex as (r & Hin & Heq).
  apply String.eqb_eq in Heq. exfalso. apply Hfresh. rewrite <- Heq. now apply in_map.
Qed.

(** What [initiate_request] leaves when it returns: one request more, the
    returned one, at the end of the table. *)
Lemma initiate_request_effect year user dept title description db request' db' :
  initiate_request year user (Some dept) title description db = (Return request', db') ->
  requests db' = requests db ++ [request'] /\
  pk request' = next_pk pk (requests db) /\
  temporary_cc_number request' = generate_temp_cc_number year (Department.code dept) db /\
  final_cc_number request' = None /\
  status request' = PENDING_DEPT_HEAD /\
  current_step request' = 2%Z.
Proof.
  unfold initiate_request. intros Hrun.
  unfold bind at 1 in Hrun. unfold query at 1 in Hrun.
  unfold bind at 1 in Hrun. unfold create_request at 1 in Hrun.
  destruct (existsb _ (requests db)); [discriminate |].
  unfold bind at 1 in Hrun. unfold log_workflow_history at 1, write at 1 in Hrun.
  unfold bind at 1 in Hrun. unfold route_to_dept_head in Hrun.
  cbn [status status_eqb negb ChangeControlRequest.department] in Hrun.
  destruct (Department.head dept) as [head |]; [| discriminate].
  unfold bind, log_workflow_history, save_request, write, ret in Hrun.
  inversion Hrun; subst; clear Hrun.
  pose proof (next_pk_fresh pk (requests db)) as Hfresh.
  destruct db as [rq evs evals docs ras revs plans hist].
  cbn [requests set_requests set_workflow_history] in *.
  split; [| repeat split].
  apply save_row_last; [exact Hfresh | reflexivity].
Qed.

(** X2.  Initiate for a department that has a head always returns: the
    generated temporary number cannot collide.  The new request is stored
    under a key no request had, in PendingDeptHead at step 2, with the
    generated number, and the other requests are untouched. *)
Theorem initiate_request_succeeds :
  forall year user dept head title description db,
    Department.head dept = Some head ->
    exists request' db',
      initiate_request year user (Some dept) title description db = (Return request', db') /\
      requests db' = requests db ++ [request'] /\
      ~ In (pk request') (map pk (requests db)) /\
      get_object (pk request') db' = Some request' /\
      temporary_cc_number request' = generate_temp_cc_number year (Department.code dept) db /\
      final_cc_number request' = None /\
      status request' = PENDING_DEPT_HEAD /\
      current_step request' = 2%Z.
Proof.
  intros year user dept head title description db Hhead.
  destruct (initiate_request year user (Some dept) title description db)
    as [[request' | e] db'] eqn:Hrun.
  - destruct (initiate_request_effect _ _ _ _ _ _ _ _ Hrun)
      as (Hrows & Hpk & Htemp & Hfinal & Hstatus & Hstep).
    exists request', db'. split; [reflexivity |]. split; [exact Hrows |].
    split; [rewrite Hpk; apply next_pk_fresh |].
    split.
    { unfold get_object. rewrite Hrows.
      assert (Hnone : find (fun r => Nat.eqb (pk r) (pk request')) (requests db) = None).
      { destruct (find _ (requests db)) as [r |] eqn:Hfind; [| reflexivity].
        apply find_some in Hfind. destruct Hfind as (Hin & Hkey).
        apply Nat.eqb_eq in Hkey. exfalso.
        apply (next_pk_fresh pk (requests db)). rewrite <- Hpk, <- Hkey. now apply in_map. }
      rewrite (find_app_none _ _ _ Hnone). now rewrite Nat.eqb_refl. }
    repeat split; assumption.
  - exfalso. unfold initiate_request in Hrun.
    unfold bind at 1 in Hrun. unfold query at 1 in Hrun.
    unfold bind at 1 in Hrun. unfold create_request at 1 in Hrun.
    cbn [temporary_cc_number] in Hrun.
    rewrite (existsb_false_not_in _ _ (temp_number_is_new year
                                         (Department.code dept) db)) in Hrun.
    unfold bind at 1 in Hrun. unfold log_workflow_history at 1, write at 1 in Hrun.
    unfold bind at 1 in Hrun. unfold route_to_dept_head in Hrun.
    cbn [status status_eqb negb ChangeControlRequest.department] in Hrun.
    rewrite Hhead in Hrun.
    unfold bind, log_workflow_history, save_request, write, ret in Hrun.
    discriminate Hrun.
Qed.

Lemma max_sequence_from_app l1 :
  forall acc l2,
    max_sequence_from acc (l1 ++ l2) = max_sequence_from (max_sequence_from acc l1) l2.
Proof.
  induction l1 as [| x l1 IH]; intros acc l2; [reflexivity |].
  cbn [app max_sequence_from].
  destruct (py_int (sequence_part x)) as [v |]; [| apply IH].
  destruct (v >? acc)%Z; apply IH.
Qed.

(** X3.  Numbers of one department and year are consecutive: when Initiate
    returns a request numbered [n], the next number generated for the same
    department and year is [n + 1]. *)
Theorem temporary_numbers_are_consecutive :
  forall year user dept title description db request' db',
    initiate_request year user (Some dept) title description db = (Return request', db') ->
    let prefix := ("REQ/CC/" ++ year ++ "/" ++ Department.code dept ++ "/")%string in
    exists n : Z,
      (1 <= n)%Z /\
      temporary_cc_number request' = (prefix ++ zfill 5 (str n))%string /\
      generate_temp_cc_number year (Department.code dept) db' =
        (prefix ++ zfill 5 (str (n + 1)))%string.
Proof.
  intros year user dept title description db request' db' Hrun prefix.
  destruct (initiate_request_effect _ _ _ _ _ _ _ _ Hrun) as (Hrows & _ & Htemp & _).
  set (existing := existing_temp_numbers prefix db).
  set (m := max_sequence_from 0 existing).
  assert (Hm : (0 <= m)%Z) by apply max_sequence_from_ge.
  assert (Hnumber : temporary_cc_number request' = (prefix ++ zfill 5 (str (m + 1)))%string)
    by (rewrite Htemp; reflexivity).
  exists (m + 1)%Z. split; [lia |]. split; [exact Hnumber |].
  unfold generate_temp_cc_number, next_number.
  change (temp_prefix year (Department.code dept)) with prefix.
  assert (Hexisting : existing_temp_numbers prefix db' =
                      existing ++ [temporary_cc_number request']).
  { unfold existing_temp_numbers. rewrite Hrows, map_app, filter_app. cbn [map filter].
    rewrite Hnumber, prefix_append. reflexivity. }
  rewrite Hexisting, max_sequence_from_app. fold m. cbn [max_sequence_from].
  rewrite Hnumber.
  assert (Hread : py_int (sequence_part (prefix ++ zfill 5 (str (m + 1)))) = Some (m + 1)%Z).
  { subst prefix. change ("REQ/CC/" ++ year ++ "/" ++ Department.code dept ++ "/")%string
      with (temp_prefix year (Department.code dept)).
    rewrite temp_prefix_slash. apply sequence_of_number. lia. }
  rewrite Hread.
  destruct (Z.gtb_spec (m + 1) m); [reflexivity | lia].
Qed.

(** ** Registration *)











(** ** Invariants of the database *)

Lemma preserves_ret {A} P (a : A) : preserves P (ret a).
Proof. intros db H. exact H. Qed.

Lemma preserves_raise {A} P e : preserves P (@raise A e).
Proof. intros db H. exact H. Qed.

Lemma preserves_query {A} P (f : Store -> A) : preserves P (query f).
Proof. intros db H. exact H. Qed.

Lemma preserves_write P f :
  (forall db, P db -> P (f db)) -> preserves P (write f).
Proof. intros Hf db H. apply Hf, H. Qed.

Lemma preserves_bind {A B} P (m : M A) (k : A -> M B) :
  preserves P m -> (forall a, preserves P (k a)) -> preserves P (bind m k).
Proof.
  intros Hm Hk db H. unfold bind. specialize (Hm db H).
  destruct (m db) as [[a | e] db']; cbn [snd] in *; [apply Hk, Hm | exact Hm].
Qed.

Lemma preserves_bind_value {A B} P (m : M A) (k : A -> M B) post :
  establishes P m post -> (forall a, post a -> preserves P (k a)) ->
  preserves P (bind m k).
Proof.
  intros Hm Hk db H. unfold bind. destruct (Hm db H) as (Hdb & Hpost).
  destruct (m db) as [[a | e] db']; cbn [snd fst] in *; [| exact Hdb].
  apply (Hk a (Hpost a eq_refl)), Hdb.
Qed.

Lemma establishes_ret {A} P (a : A) (post : A -> Prop) :
  post a -> establishes P (ret a) post.
Proof.
  intros Ha db H. split; [exact H |]. intros b Hb. inversion Hb; subst. exact Ha.
Qed.

Lemma establishes_bind {A B} P (m : M A) (k : A -> M B) post :
  preserves P m -> (forall a, establishes P (k a) post) ->
  establishes P (bind m k) post.
Proof.
  intros Hm Hk db H. unfold bind. specialize (Hm db H).
  destruct (m db) as [[a | e] db']; cbn [snd fst] in *.
  - apply Hk, Hm.
  - split; [exact Hm | discriminate].
Qed.

Lemma preserves_for_each {A} P (xs : list A) body :
  (forall x, preserves P (body x)) -> preserves P (for_each xs body).
Proof.
  intros Hbody. induction xs as [| x xs IH]; cbn [for_each].
  - apply preserves_ret.
  - apply preserves_bind; [apply Hbody | intros _; exact IH].
Qed.

(** Walks through a workflow function; [atom] settles the writes. *)
Ltac walk atom :=
  repeat first
    [ progress atom
    | apply preserves_ret
    | apply preserves_raise
    | apply preserves_query
    | apply preserves_bind; [| intros ?]
    | apply preserves_for_each; intros ?
    | match goal with
      | |- preserves _ (if ?c then _ else _) => destruct c eqn:?
      | |- preserves _ (match ?c with _ => _ end) => destruct c eqn:?
      | |- preserves _ (let '(_, _) := ?c in _) => destruct c eqn:?
      end ].

Lemma guard_passed a b : negb (status_eqb a b) = false -> a = b.
Proof. intros H. apply negb_false_iff in H. now apply status_eqb_eq. Qed.

Section RowInvariant.
Variable Q : ChangeControlRequest.t -> Prop.
Hypothesis Q_created :
  forall key number user department title description,
    Q (created_row key number user department title description).
Hypothesis Q_step : forall r r', Q r -> row_step r r' -> Q r'.

Lemma rows_save_request r : Q r -> preserves (rows Q) (save_request r).
Proof.
  intros Hr db H. unfold rows in *. destruct db as [rq evs evals docs ras revs plans hist].
  cbn in *. induction rq as [| r0 rq IH]; cbn [save_row].
  - now constructor.
  - inversion H; subst. destruct (Nat.eqb (pk r0) (pk r)); constructor; auto.
Qed.

Lemma rows_frame {A} (m : M A) :
  (forall db, requests (snd (m db)) = requests db) -> preserves (rows Q) m.
Proof. intros Hm db H. unfold rows in *. now rewrite Hm. Qed.

Lemma rows_log request step step_name actor action comments previous new :
  preserves (rows Q)
    (log_workflow_history request step step_name actor action comments previous new).
Proof. apply rows_frame. intros [rq evs evals docs ras revs plans hist]. reflexivity. Qed.

Lemma rows_get_or_create_evaluator request department evaluator :
  preserves (rows Q) (get_or_create_evaluator request department evaluator).
Proof.
  apply rows_frame. intros db. unfold get_or_create_evaluator.
  destruct (filter _ _) as [| e [| e' l]]; [| reflexivity | reflexivity].
  destruct (existsb _ _); [reflexivity |].
  destruct db; reflexivity.
Qed.

Lemma rows_get_or_create_evaluation request department defaults :
  preserves (rows Q) (get_or_create_evaluation request department defaults).
Proof.
  apply rows_frame. intros db. unfold get_or_create_evaluation.
  destruct (filter _ _) as [| e [| e' l]]; [| reflexivity | reflexivity].
  destruct db; reflexivity.
Qed.

Lemma rows_get_or_create_revision request doc_data :
  preserves (rows Q) (get_or_create_revision request doc_data).
Proof.
  apply rows_frame. intros db. unfold get_or_create_revision.
  destruct (rd_document_name doc_data); [| reflexivity].
  destruct (rd_assigned_department doc_data); [| reflexivity].
  destruct (filter _ _) as [| e [| e' l]]; [| reflexivity | reflexivity].
  destruct db; reflexivity.
Qed.

Lemma rows_create_plan request data :
  preserves (rows Q) (create_plan request data).
Proof.
  apply rows_frame. intros db. unfold create_plan.
  destruct (ad_description data); [| reflexivity].
  destruct (ad_responsible_person data); [| reflexivity].
  destruct (ad_expected_timeline data); [| reflexivity].
  destruct db; reflexivity.
Qed.

Lemma rows_write_frame f :
  (forall db, requests (f db) = requests db) -> preserves (rows Q) (write f).
Proof. intros Hf. apply rows_frame. intros db. apply Hf. Qed.

Ltac rows_atom :=
  first
    [ apply rows_log
    | apply rows_get_or_create_evaluator
    | apply rows_get_or_create_evaluation
    | apply rows_get_or_create_revision
    | apply rows_create_plan
    | apply rows_save_request
    | apply rows_write_frame;
      let db := fresh "db" in intros db; destruct db; reflexivity ].

Ltac guards :=
  repeat match goal with
         | H : negb (status_eqb _ _) = false |- _ => apply guard_passed in H
         | H : status_eqb _ _ = true |- _ => apply status_eqb_eq in H
         end.

Ltac saved_row :=
  guards;
  match goal with
  | Hr : Q ?r |- Q _ =>
      first [ exact Hr
            | apply (Q_step r); [exact Hr |]; constructor; assumption ]
  end.

Lemma rows_route_to_dept_head request actor :
  Q request -> preserves (rows Q) (route_to_dept_head request actor).
Proof.
  intros Hr. unfold route_to_dept_head. walk rows_atom. saved_row.
Qed.

Lemma rows_create_request number user department title description :
  establishes (rows Q)
    (create_request (fun k => created_row k number user department title description))
    (fun a => Q a /\ status a = DRAFT).
Proof.
  intros db H. unfold create_request. cbn [temporary_cc_number created_row].
  destruct (existsb _ _); cbn [fst snd].
  - split; [exact H | discriminate].
  - split.
    + unfold rows in *. destruct db as [rq evs evals docs ras revs plans hist]. cbn in *.
      apply Forall_app. split; [exact H |]. constructor; [apply Q_created | constructor].
    + intros a Ha. inversion Ha; subst. split; [apply Q_created | reflexivity].
Qed.

Lemma rows_initiate_request year user department title description :
  preserves (rows Q) (initiate_request year user department title description).
Proof.
  unfold initiate_request. destruct department as [department |]; [| apply preserves_raise].
  apply preserves_bind; [apply preserves_query | intros number].
  apply (preserves_bind_value _ _ _ _
           (rows_create_request number user department title description)).
  intros request (Hr & Hdraft).
  apply preserves_bind; [apply rows_log | intros _].
  apply preserves_bind; [| intros ?; apply preserves_ret].
  now apply rows_route_to_dept_head.
Qed.

Lemma rows_dept_head_decision now request actor approved reason :
  Q request -> preserves (rows Q) (dept_head_decision now request actor approved reason).
Proof.
  intros Hr. unfold dept_head_decision.
  destruct (negb (status_eqb (status request) PENDING_DEPT_HEAD)) eqn:Hguard;
    [apply preserves_raise |].
  destruct (match Department.head (department request) with
            | Some head => negb (user_eqb head actor) | None => true end);
    [apply preserves_raise |].
  apply (preserves_bind_value _ _ _ Q).
  - destruct approved; (apply establishes_bind; [apply rows_log | intros _]);
      apply establishes_ret; guards; apply (Q_step request); try exact Hr.
    + now constructor.
    + constructor; [assumption |].
      destruct (String.eqb_spec reason EmptyString); [discriminate | assumption].
  - intros a Ha. walk rows_atom. exact Ha.
Qed.

Lemma rows_create_risk_assessment request actor assigned_to :
  Q request -> preserves (rows Q) (create_risk_assessment request actor assigned_to).
Proof.
  intros Hr. unfold create_risk_assessment. walk rows_atom. saved_row.
Qed.

Lemma rows_qa_registration year now request actor number impact entries target :
  Q request ->
  preserves (rows Q) (qa_registration year now request actor number impact entries target).
Proof.
  intros Hr. unfold qa_registration.
  destruct (negb (status_eqb (status request) PENDING_QA_REGISTRATION)) eqn:Hguard;
    [apply preserves_raise |].
  destruct (impact_of_value impact) as [level |]; [| apply preserves_raise].
  apply preserves_bind; [destruct number as [[| c s] |]; walk rows_atom | intros final].
  apply preserves_bind; [apply preserves_query | intros taken].
  destruct taken; [apply preserves_raise |].
  assert (Hregistered :
    Q (set_current_step 4
         (set_status PENDING_CFT_EVALUATION
            (set_qa_registration_date (Some now)
               (set_qa_registered_by (Some actor)
                  (set_target_completion_time (Some target)
                     (set_impact_level (Some level)
                        (set_final_cc_number (Some final) request)))))))).
  { guards. apply (Q_step request); [exact Hr | now constructor]. }
  apply preserves_bind; [now apply rows_save_request | intros _].
  apply preserves_bind; [walk rows_atom | intros _].
  apply preserves_bind; [apply rows_log | intros _].
  destruct level; [apply preserves_ret | |];
    (apply preserves_bind; [now apply rows_create_risk_assessment | intros ?]);
    apply preserves_ret.
Qed.

Lemma rows_cft_evaluation now request actor department impact_type decision risk_level
    notes documents :
  Q request ->
  preserves (rows Q) (cft_evaluation now request actor department impact_type decision
                                     risk_level notes documents).
Proof.
  intros Hr. unfold cft_evaluation. unfold save_evaluation.
  walk rows_atom; guards.
  repeat match goal with
         | |- Q (if ?c then _ else _) => destruct c
         | |- Q (match ?c with _ => _ end) => destruct c
         end;
    (apply (Q_step request); [exact Hr | now constructor]).
Qed.

Lemma rows_complete_risk_assessment now request actor findings recommendations :
  Q request ->
  preserves (rows Q) (complete_risk_assessment now request actor findings recommendations).
Proof.
  intros Hr. unfold complete_risk_assessment, save_risk_assessment.
  walk rows_atom. apply (Q_step request); [exact Hr | constructor].
Qed.

Lemma rows_document_management request actor suggested :
  Q request -> preserves (rows Q) (document_management request actor suggested).
Proof.
  intros Hr. unfold document_management. walk rows_atom. saved_row.
Qed.

Lemma rows_complete_document_revision now request actor revision notes :
  Q request ->
  preserves (rows Q) (complete_document_revision now request actor revision notes).
Proof.
  intros Hr. unfold complete_document_revision, save_revision.
  walk rows_atom. saved_row.
Qed.

Lemma rows_action_plan_management request actor plans :
  Q request -> preserves (rows Q) (action_plan_management request actor plans).
Proof.
  intros Hr. unfold action_plan_management. walk rows_atom. saved_row.
Qed.

Lemma rows_complete_action_plan now request actor plan notes :
  preserves (rows Q) (complete_action_plan now request actor plan notes).
Proof. unfold complete_action_plan. walk rows_atom. Qed.

Lemma rows_qa_final_evaluation request actor cft docs risk filings comments :
  Q request ->
  preserves (rows Q) (qa_final_evaluation request actor cft docs risk filings comments).
Proof.
  intros Hr. unfold qa_final_evaluation. walk rows_atom. saved_row.
Qed.

Lemma rows_qa_head_approval request actor approved reason :
  Q request -> preserves (rows Q) (qa_head_approval request actor approved reason).
Proof.
  intros Hr. unfold qa_head_approval.
  destruct (negb (status_eqb (status request) PENDING_QA_HEAD_APPROVAL)) eqn:Hguard;
    [apply preserves_raise |].
  apply (preserves_bind_value _ _ _ Q).
  - destruct approved; (apply establishes_bind; [apply rows_log | intros _]);
      apply establishes_ret; guards; apply (Q_step request); try exact Hr;
      now constructor.
  - intros a Ha. walk rows_atom. exact Ha.
Qed.

Lemma rows_qa_closure request actor :
  preserves (rows Q) (qa_closure request actor).
Proof. unfold qa_closure. walk rows_atom. Qed.

Lemma rows_post_implementation_verification now request actor implemented trained
    no_impact comments :
  Q request ->
  preserves (rows Q) (post_implementation_verification now request actor implemented
                                                       trained no_impact comments).
Proof.
  intros Hr. unfold post_implementation_verification.
  walk rows_atom; try apply rows_qa_closure. saved_row.
Qed.

Lemma rows_respond {A} (to_request : A -> ChangeControlRequest.t) (m : M A) db :
  preserves (rows Q) m -> rows Q db -> rows Q (snd (respond to_request m db)).
Proof.
  intros Hm H. unfold respond. specialize (Hm db H).
  destruct (m db) as [[a | e] db']; exact Hm.
Qed.

Lemma rows_loaded key db request :
  rows Q db -> get_object key db = Some request -> Q request.
Proof.
  unfold rows, get_object. intros H Hfind. apply find_some in Hfind.
  rewrite Forall_forall in H. apply H, Hfind.
Qed.

Lemma perform_rows op db : rows Q db -> rows Q (snd (perform op db)).
Proof.
  intros H. destruct op; cbn [perform]; unfold with_request;
    try (destruct (get_object request db) as [loaded |] eqn:Hload; [| exact H];
         pose proof (rows_loaded _ _ _ H Hload) as Hr).
  - apply rows_respond; [apply rows_initiate_request | exact H].
  - apply rows_respond; [now apply rows_dept_head_decision | exact H].
  - apply rows_respond; [now apply rows_qa_registration | exact H].
  - apply rows_respond; [now apply rows_cft_evaluation | exact H].
  - apply rows_respond; [now apply rows_complete_risk_assessment | exact H].
  - destruct (find _ _); [| exact H].
    apply rows_respond; [now apply rows_complete_document_revision | exact H].
  - apply rows_respond; [now apply rows_action_plan_management | exact H].
  - destruct (find _ _); [| exact H].
    apply rows_respond; [apply rows_complete_action_plan | exact H].
  - apply rows_respond; [now apply rows_qa_final_evaluation | exact H].
  - apply rows_respond; [now apply rows_qa_head_approval | exact H].
  - apply rows_respond; [now apply rows_post_implementation_verification | exact H].
Qed.

Lemma run_rows ops : forall db, rows Q db -> rows Q (run ops db).
Proof.
  induction ops as [| op ops IH]; intros db H; cbn [run]; [exact H |].
  apply IH, perform_rows, H.
Qed.

End RowInvariant.

(** ** Invariants of the stored requests *)

Lemma rows_forall Q db :
  rows Q db <-> (forall r, In r (requests db) -> Q r).
Proof. unfold rows. apply Forall_forall. Qed.

(** X5.  The step number follows the status.  If every stored request
    has the step number of its status (Rejected: 2 or 4), the same holds
    after any sequence of workflow calls, whatever they answer. *)
Theorem step_follows_status :
  forall ops db,
    (forall r, In r (requests db) -> step_matches_status r = true) ->
    forall r, In r (requests (run ops db)) -> step_matches_status r = true.
Proof.
  intros ops db H. apply rows_forall. apply run_rows.
  - reflexivity.
  - clear. intros r r' Hr Hstep. unfold step_matches_status in *.
    destruct Hstep; destruct r; cbn in *; subst; cbn in *;
      try reflexivity; try exact Hr.
    rewrite Hr. apply orb_true_r.
  - now apply rows_forall.
Qed.

(** X6.  No call moves a request to the QA final evaluation or beyond.
    If no stored request is in PendingQAEvaluation, PendingQAHeadApproval,
    PendingVerification or Closed, nor has a closing date, the same holds
    after any sequence of workflow calls: a request initiated by such a
    call is never closed. *)
Theorem qa_evaluation_is_never_reached :
  forall ops db,
    (forall r, In r (requests db) -> before_qa_evaluation r = true) ->
    forall r, In r (requests (run ops db)) -> before_qa_evaluation r = true.
Proof.
  intros ops db H. apply rows_forall. apply run_rows.
  - reflexivity.
  - clear. intros r r' Hr Hstep. unfold before_qa_evaluation in *.
    destruct Hstep; destruct r; cbn in *; subst; cbn in *;
      try discriminate;
      repeat match goal with
             | H : match ?s with _ => _ end = true |- _ => destruct s; try discriminate
             end;
      reflexivity.
  - now apply rows_forall.
Qed.

(** X7.  The model validation of a request is never violated by the
    workflow.  If [clean] accepts every stored request, it accepts every
    stored request after any sequence of workflow calls: a request saved as
    Rejected has a rejection reason. *)
Theorem stored_requests_stay_clean :
  forall ops db,
    (forall r, In r (requests db) -> clean r = Return tt) ->
    forall r, In r (requests (run ops db)) -> clean r = Return tt.
Proof.
  intros ops db H. apply rows_forall. apply run_rows.
  - reflexivity.
  - clear. intros r r' Hr Hstep. unfold clean in *.
    destruct Hstep; destruct r; cbn in *; subst; cbn in *;
      try reflexivity; try exact Hr.
    destruct reason; [contradiction | reflexivity].
  - now apply rows_forall.
Qed.

(** ** Tables only grow *)

Lemma extended_refl {A} (l : list A) : extended l l.
Proof. exists []. now rewrite app_nil_r. Qed.

Lemma extended_trans {A} (l1 l2 l3 : list A) :
  extended l1 l2 -> extended l2 l3 -> extended l1 l3.
Proof. intros [a ->] [b ->]. exists (a ++ b). now rewrite app_assoc. Qed.

Lemma extended_app {A} (l added : list A) : extended l (l ++ added).
Proof. now exists added. Qed.

Lemma extended_map_app {A B} (f : A -> B) (l added : list A) :
  extended (map f l) (map f (l ++ added)).
Proof. exists (map f added). apply map_app. Qed.

Lemma extended_save_row {A} (key : A -> nat) (x : A) (l : list A) :
  extended (map key l) (map key (save_row key x l)).
Proof.
  induction l as [| r l IH]; cbn [save_row map].
  - now exists [key x].
  - destruct (Nat.eqb_spec (key r) (key x)) as [Heq | _]; cbn [map].
    + rewrite Heq. apply extended_refl.
    + destruct IH as [added ->]. now exists added.
Qed.

Lemma grown_refl db : grown db db.
Proof. repeat split; apply extended_refl. Qed.

Lemma grown_trans db1 db2 db3 : grown db1 db2 -> grown db2 db3 -> grown db1 db3.
Proof.
  intros (a1 & a2 & a3 & a4 & a5 & a6 & a7 & a8) (b1 & b2 & b3 & b4 & b5 & b6 & b7 & b8).
  repeat split; eapply extended_trans; eassumption.
Qed.

Lemma grown_step {A} db0 (m : M A) :
  (forall db, grown db (snd (m db))) -> preserves (grown db0) m.
Proof. intros Hm db H. exact (grown_trans _ _ _ H (Hm db)). Qed.

Ltac grown_rows :=
  repeat split;
  first [ apply extended_refl | apply extended_app | apply extended_map_app
        | apply extended_save_row ].

Lemma grown_write db0 f :
  (forall db, grown db (f db)) -> preserves (grown db0) (write f).
Proof. intros Hf. apply grown_step. exact Hf. Qed.

Lemma grown_get_or_create_evaluator db0 request department evaluator :
  preserves (grown db0) (get_or_create_evaluator request department evaluator).
Proof.
  apply grown_step. intros db. unfold get_or_create_evaluator.
  destruct (filter _ _) as [| e [| e' l]]; try apply grown_refl.
  destruct (existsb _ _); [apply grown_refl |].
  destruct db as [rq evs evals docs ras revs plans hist]. grown_rows.
Qed.

Lemma grown_get_or_create_evaluation db0 request department defaults :
  preserves (grown db0) (get_or_create_evaluation request department defaults).
Proof.
  apply grown_step. intros db. unfold get_or_create_evaluation.
  destruct (filter _ _) as [| e [| e' l]]; try apply grown_refl.
  destruct db as [rq evs evals docs ras revs plans hist]. grown_rows.
Qed.

Lemma grown_get_or_create_revision db0 request doc_data :
  preserves (grown db0) (get_or_create_revision request doc_data).
Proof.
  apply grown_step. intros db. unfold get_or_create_revision.
  destruct (rd_document_name doc_data); [| apply grown_refl].
  destruct (rd_assigned_department doc_data); [| apply grown_refl].
  destruct (filter _ _) as [| e [| e' l]]; try apply grown_refl.
  destruct db as [rq evs evals docs ras revs plans hist]. grown_rows.
Qed.

Lemma grown_create_plan db0 request data :
  preserves (grown db0) (create_plan request data).
Proof.
  apply grown_step. intros db. unfold create_plan.
  destruct (ad_description data); [| apply grown_refl].
  destruct (ad_responsible_person data); [| apply grown_refl].
  destruct (ad_expected_timeline data); [| apply grown_refl].
  destruct db as [rq evs evals docs ras revs plans hist]. grown_rows.
Qed.

Lemma grown_create_request db0 row :
  preserves (grown db0) (create_request row).
Proof.
  apply grown_step. intros db. unfold create_request.
  destruct (existsb _ _); [apply grown_refl |].
  destruct db as [rq evs evals docs ras revs plans hist]. grown_rows.
Qed.

Ltac grown_atom :=
  idtac;
  match goal with
  | |- preserves _ (get_or_create_evaluator _ _ _) => apply grown_get_or_create_evaluator
  | |- preserves _ (get_or_create_evaluation _ _ _) => apply grown_get_or_create_evaluation
  | |- preserves _ (get_or_create_revision _ _) => apply grown_get_or_create_revision
  | |- preserves _ (create_plan _ _) => apply grown_create_plan
  | |- preserves _ (create_request _) => apply grown_create_request
  | |- preserves _ (write _) =>
      apply grown_write;
      let db := fresh "db" in
      intros db; destruct db as [? ? ? ? ? ? ? ?]; grown_rows
  end.

Ltac grown_walk :=
  unfold save_request, save_evaluation, save_risk_assessment, save_revision, save_plan,
         log_workflow_history;
  walk grown_atom.

Lemma perform_grown op db : grown db (snd (perform op db)).
Proof.
  assert (Hrespond : forall A (to_request : A -> ChangeControlRequest.t) (m : M A),
             preserves (grown db) m -> grown db (snd (respond to_request m db))).
  { intros A to_request m Hm. unfold respond. specialize (Hm db (grown_refl db)).
    destruct (m db) as [[a | e] db']; exact Hm. }
  destruct op; cbn [perform]; unfold with_request;
    try (destruct (get_object request db) as [loaded |]; [| apply grown_refl]);
    try (destruct (find _ _); [| apply grown_refl]);
    apply Hrespond.
  - unfold initiate_request, route_to_dept_head. grown_walk.
  - unfold dept_head_decision. grown_walk.
  - unfold qa_registration, create_risk_assessment. grown_walk.
  - unfold cft_evaluation. grown_walk.
  - unfold complete_risk_assessment. grown_walk.
  - unfold complete_document_revision. grown_walk.
  - unfold action_plan_management. grown_walk.
  - unfold complete_action_plan. grown_walk.
  - unfold qa_final_evaluation. grown_walk.
  - unfold qa_head_approval. grown_walk.
  - unfold post_implementation_verification, qa_closure. grown_walk.
Qed.

(** X8.  No workflow call deletes or reorders a row.  After any sequence of
    calls each table is the table before followed by new rows; for
    evaluator assignments, evaluation documents, action plans and history
    entries the old rows are unchanged, for the other tables they keep
    their primary keys. *)
Theorem calls_only_add_rows : forall ops db, grown db (run ops db).
Proof.
  induction ops as [| op ops IH]; intros db; cbn [run]; [apply grown_refl |].
  exact (grown_trans _ _ _ (perform_grown op db) (IH _)).
Qed.

(** ** Permissions and refusals *)

(** X9.  DeptHeadDecision returns exactly when the request is in
    PendingDeptHead and [can_approve_dept_head] holds for the actor: the
    core repeats the permission test of the boundary layer. *)
Theorem dept_head_decision_returns_iff :
  forall now request actor approved reason db,
    (exists request' db',
        dept_head_decision now request actor approved reason db = (Return request', db'))
    <-> status request = PENDING_DEPT_HEAD /\ can_approve_dept_head actor request = true.
Proof.
  intros now request actor approved reason db.
  unfold dept_head_decision, can_approve_dept_head, is_department_head.
  destruct (status_eqb (status request) PENDING_DEPT_HEAD) eqn:Hstatus; cbn [negb].
  - apply status_eqb_eq in Hstatus.
    destruct (Department.head (department request)) as [head |].
    + destruct (user_eqb head actor); cbn [negb].
      * split; [auto |]. intros _.
        destruct approved; unfold bind, log_workflow_history, save_request, write, ret;
          eauto.
      * split; [intros (r & d & H); discriminate | intros (_ & H); discriminate].
    + split; [intros (r & d & H); discriminate | intros (_ & H); discriminate].
  - split; [intros (r & d & H); discriminate |].
    intros (H & _). apply status_eqb_eq in H. congruence.
Qed.

(** ** Calls that are refused *)

Lemma returns_ret {A} (a : A) : returns (ret a).
Proof. intros db. now exists a, db. Qed.

Lemma returns_query {A} (f : Store -> A) : returns (query f).
Proof. intros db. now exists (f db), db. Qed.

Lemma returns_write f : returns (write f).
Proof. intros db. now exists tt, (f db). Qed.

Lemma returns_bind {A B} (m : M A) (k : A -> M B) :
  returns m -> (forall a, returns (k a)) -> returns (bind m k).
Proof.
  intros Hm Hk db. unfold bind. destruct (Hm db) as (a & db' & ->). apply Hk.
Qed.

Lemma returns_for_each {A} (xs : list A) body :
  (forall x, returns (body x)) -> returns (for_each xs body).
Proof.
  intros Hbody. induction xs as [| x xs IH]; cbn [for_each].
  - apply returns_ret.
  - apply returns_bind; [apply Hbody | intros _; exact IH].
Qed.

Ltac returns_walk :=
  unfold save_request, save_evaluation, save_risk_assessment, save_revision, save_plan,
         log_workflow_history;
  repeat first
    [ apply returns_ret
    | apply returns_query
    | apply returns_write
    | apply returns_bind; [| intros ?]
    | apply returns_for_each; intros ?
    | match goal with
      | |- returns (if ?c then _ else _) => destruct c
      | |- returns (match ?c with _ => _ end) => destruct c
      end ].

Lemma all_or_nothing_raise {A} e : all_or_nothing (@raise A e).
Proof. intros db e' db' H. now inversion H. Qed.

Lemma all_or_nothing_returns {A} (m : M A) : returns m -> all_or_nothing m.
Proof. intros Hm db e db' H. destruct (Hm db) as (a & d & Ha). congruence. Qed.

(** A read, then a computation that is all or nothing. *)
Lemma all_or_nothing_query {A B} (f : Store -> A) (k : A -> M B) :
  (forall a, all_or_nothing (k a)) -> all_or_nothing (bind (query f) k).
Proof. intros Hk db e db'. unfold bind, query. apply Hk. Qed.

(** A computation that is all or nothing, then one that never raises. *)
Lemma all_or_nothing_then {A B} (m : M A) (k : A -> M B) :
  all_or_nothing m -> (forall a, returns (k a)) -> all_or_nothing (bind m k).
Proof.
  intros Hm Hk db e db'. unfold bind.
  destruct (m db) as [[a | e0] d] eqn:Hrun.
  - destruct (Hk a d) as (b & d' & ->). discriminate.
  - intros H. inversion H; subst. exact (Hm db _ _ Hrun).
Qed.

Lemma all_or_nothing_get_or_create_evaluation request department defaults :
  all_or_nothing (get_or_create_evaluation request department defaults).
Proof.
  intros db e db'. unfold get_or_create_evaluation.
  destruct (filter _ _) as [| x [| y l]]; intros H; inversion H; reflexivity.
Qed.

Lemma qa_closure_of_closed request actor :
  status request = CLOSED -> returns (qa_closure request actor).
Proof.
  intros Hclosed. unfold qa_closure. rewrite Hclosed. cbn [status_eqb negb].
  returns_walk.
Qed.

Lemma all_or_nothing_dept_head_decision now request actor approved reason :
  all_or_nothing (dept_head_decision now request actor approved reason).
Proof.
  unfold dept_head_decision.
  destruct (negb _); [apply all_or_nothing_raise |].
  destruct (match Department.head (department request) with
            | Some head => negb (user_eqb head actor) | None => true end);
    [apply all_or_nothing_raise |].
  apply all_or_nothing_returns. returns_walk.
Qed.

Lemma all_or_nothing_cft_evaluation now request actor department impact_type decision
    risk_level notes documents :
  all_or_nothing (cft_evaluation now request actor department impact_type decision
                                 risk_level notes documents).
Proof.
  unfold cft_evaluation.
  destruct (negb _); [apply all_or_nothing_raise |].
  apply all_or_nothing_query. intros assigned.
  destruct (negb assigned); [apply all_or_nothing_raise |].
  apply all_or_nothing_then; [apply all_or_nothing_get_or_create_evaluation |].
  intros [evaluation created]. returns_walk.
Qed.

Lemma all_or_nothing_complete_risk_assessment now request actor findings recommendations :
  all_or_nothing (complete_risk_assessment now request actor findings recommendations).
Proof.
  unfold complete_risk_assessment.
  apply all_or_nothing_query. intros [a |]; [| apply all_or_nothing_raise].
  destruct (negb _); [apply all_or_nothing_raise |].
  apply all_or_nothing_returns. returns_walk.
Qed.

Lemma returns_complete_document_revision now request actor revision notes :
  returns (complete_document_revision now request actor revision notes).
Proof. unfold complete_document_revision. returns_walk. Qed.

Lemma all_or_nothing_complete_action_plan now request actor plan notes :
  all_or_nothing (complete_action_plan now request actor plan notes).
Proof.
  unfold complete_action_plan. destruct (negb _); apply all_or_nothing_raise.
Qed.

Lemma all_or_nothing_qa_final_evaluation request actor cft docs risk filings comments :
  all_or_nothing (qa_final_evaluation request actor cft docs risk filings comments).
Proof.
  unfold qa_final_evaluation.
  destruct (negb _); [apply all_or_nothing_raise |].
  destruct (negb cft); [apply all_or_nothing_raise |].
  destruct (negb docs); [apply all_or_nothing_raise |].
  apply all_or_nothing_query. intros assessment.
  destruct (andb _ (negb risk)); [apply all_or_nothing_raise |].
  destruct (andb _ _); [apply all_or_nothing_raise |].
  apply all_or_nothing_returns. returns_walk.
Qed.

Lemma all_or_nothing_qa_head_approval request actor approved reason :
  all_or_nothing (qa_head_approval request actor approved reason).
Proof.
  unfold qa_head_approval.
  destruct (negb _); [apply all_or_nothing_raise |].
  apply all_or_nothing_returns. returns_walk.
Qed.

Lemma all_or_nothing_verification now request actor implemented trained no_impact comments :
  all_or_nothing (post_implementation_verification now request actor implemented trained
                                                   no_impact comments).
Proof.
  unfold post_implementation_verification.
  destruct (negb (status_eqb _ _)); [apply all_or_nothing_raise |].
  destruct (negb (forallb _ _)); [apply all_or_nothing_raise |].
  apply all_or_nothing_returns.
  apply returns_bind; [returns_walk | intros _].
  apply returns_bind; [returns_walk | intros _].
  apply returns_bind; [| intros ?; apply returns_ret].
  apply qa_closure_of_closed. destruct request; reflexivity.
Qed.

Lemma respond_failed {A} (to_request : A -> ChangeControlRequest.t) (m : M A) db e db' :
  all_or_nothing m -> respond to_request m db = (Failed e, db') -> db' = db.
Proof.
  intros Hm. unfold respond. destruct (m db) as [[a | e0] d] eqn:Hrun; intros H;
    inversion H; subst. exact (Hm db _ _ Hrun).
Qed.

(** X10.  Apart from Initiate, QARegister and CreateActionPlans, a call
    that is refused has written nothing: the checks of the other
    operations all come before their first write. *)
Theorem refused_calls_write_nothing :
  forall op db response db',
    validates_first op = true ->
    perform op db = (response, db') ->
    (exists request, response = Ok request) \/ db' = db.
Proof.
  intros op db response db' Hop Hrun.
  destruct response as [request | e |]; [left; eauto | right | right].
  - destruct op; try discriminate Hop; cbn [perform] in Hrun;
      unfold with_request in Hrun;
      (destruct (get_object request db) as [loaded |]; [| discriminate Hrun]);
      try (destruct (find _ _); [| discriminate Hrun]);
      eapply respond_failed; try exact Hrun.
    + apply all_or_nothing_dept_head_decision.
    + apply all_or_nothing_cft_evaluation.
    + apply all_or_nothing_complete_risk_assessment.
    + apply all_or_nothing_returns, returns_complete_document_revision.
    + apply all_or_nothing_complete_action_plan.
    + apply all_or_nothing_qa_final_evaluation.
    + apply all_or_nothing_qa_head_approval.
    + apply all_or_nothing_verification.
  - destruct op; cbn [perform] in Hrun; unfold with_request, respond in Hrun;
      try (destruct (get_object request db) as [loaded |]; [| now inversion Hrun]);
      try (destruct (find _ _); [| now inversion Hrun]);
      match type of Hrun with
      | (match ?m with _ => _ end) = _ => destruct m as [[? | ?] ?]; discriminate Hrun
      end.
Qed.

(** ** The QA steps *)

(** X11.  QAFinalEvaluation returns exactly when the request is in
    PendingQAEvaluation, the CFT and document flags are set and, for a
    Major or Critical request, the risk flag is set and the risk assessment
    exists and is Completed.  The flag for regulatory filings has no part
    in it. *)
Theorem qa_final_evaluation_returns_iff :
  forall request actor cft docs risk filings comments db,
    (exists request' db',
        qa_final_evaluation request actor cft docs risk filings comments db =
          (Return request', db'))
    <-> status request = PENDING_QA_EVALUATION /\ cft = true /\ docs = true /\
        (major_or_critical request = true ->
         risk = true /\ risk_assessment_completed request db).
Proof.
  intros request actor cft docs risk filings comments db.
  unfold qa_final_evaluation, major_or_critical, risk_assessment_completed.
  destruct (status_eqb (status request) PENDING_QA_EVALUATION) eqn:Hstatus; cbn [negb].
  2: { split; [intros (r & d & H); discriminate |].
       intros (H & _). apply status_eqb_eq in H. congruence. }
  apply status_eqb_eq in Hstatus.
  destruct cft; cbn [negb];
    [| split; [intros (r & d & H); discriminate | intros (_ & H & _); discriminate]].
  destruct docs; cbn [negb];
    [| split; [intros (r & d & H); discriminate | intros (_ & _ & H & _); discriminate]].
  unfold bind at 1. unfold query at 1.
  set (level := match impact_level request with
                | Some MAJOR | Some CRITICAL => true | _ => false end).
  destruct level; cbn [andb].
  - destruct risk; cbn [negb].
    + destruct (risk_assessment_of request db) as [a |].
      * destruct (RiskAssessment.status_eqb (RiskAssessment.status a)
                                            RiskAssessment.COMPLETED) eqn:Ha; cbn [negb].
        -- apply risk_status_eqb_eq in Ha. split.
           ++ intros _. split; [exact Hstatus |]. split; [reflexivity |].
              split; [reflexivity |]. intros _. split; [reflexivity |]. eauto.
           ++ intros _. unfold bind, save_request, log_workflow_history, write, ret. eauto.
        -- split; [intros (r & d & H); discriminate |].
           intros (_ & _ & _ & H). destruct (H eq_refl) as (_ & a' & Heq & Hdone).
           inversion Heq; subst. apply risk_status_eqb_eq in Hdone. congruence.
      * split; [intros (r & d & H); discriminate |].
        intros (_ & _ & _ & H). destruct (H eq_refl) as (_ & a' & Heq & _). discriminate.
    + split; [intros (r & d & H); discriminate |].
      intros (_ & _ & _ & H). destruct (H eq_refl) as (H' & _). discriminate.
  - split.
    + intros _. split; [exact Hstatus |]. split; [reflexivity |].
      split; [reflexivity |]. discriminate.
    + intros _. unfold bind, save_request, log_workflow_history, write, ret. eauto.
Qed.

(** X12.  QAHeadApproval on a request in PendingQAHeadApproval returns.
    An approval saves it in PendingVerification at step 10.  A refusal
    saves it in PendingActionPlan at step 7: the request is not marked
    Rejected, its three rejection fields are left as they were, and the
    reason given is kept only as the comment of the history entry. *)
Theorem qa_head_approval_effect :
  forall request actor approved reason db,
    status request = PENDING_QA_HEAD_APPROVAL ->
    exists request' db' entry,
      qa_head_approval request actor approved reason db = (Return request', db') /\
      get_object (pk request) db' = Some request' /\
      status request' = (if approved then PENDING_VERIFICATION else PENDING_ACTION_PLAN) /\
      current_step request' = (if approved then 10 else 7)%Z /\
      rejection_reason request' = rejection_reason request /\
      rejected_by request' = rejected_by request /\
      rejected_at request' = rejected_at request /\
      workflow_history db' = workflow_history db ++ [entry] /\
      WorkflowHistory.comments entry = (if approved then EmptyString else reason).
Proof.
  intros request actor approved reason db Hstatus.
  unfold qa_head_approval. rewrite Hstatus. cbn [status_eqb negb].
  destruct db as [rq evs evals docs ras revs plans hist].
  destruct approved; unfold bind, log_workflow_history, save_request, write, ret;
    cbn [set_workflow_history set_requests requests workflow_history];
    do 3 eexists; (split; [reflexivity |]);
    (split;
     [ unfold get_object; cbn [requests];
       match goal with
       | |- find _ (save_row pk ?r _) = _ =>
           replace (pk request) with (pk r) by (destruct request; reflexivity)
       end;
       apply (find_save_row pk) |]);
    (split; [destruct request; reflexivity |]);
    (split; [destruct request; reflexivity |]);
    (split; [destruct request; reflexivity |]);
    (split; [destruct request; reflexivity |]);
    (split; [destruct request; reflexivity |]);
    (split; [reflexivity |]); reflexivity.
Qed.

(** X13.  Verify on a request in PendingVerification with the three
    checks passed returns: the request is saved as Closed at step 11 with
    the closing date, and the closure that follows in the same call is
    never refused. *)
Theorem verification_closes_request :
  forall now request actor comments db,
    status request = PENDING_VERIFICATION ->
    exists request' db',
      post_implementation_verification now request actor true true true comments db =
        (Return request', db') /\
      get_object (pk request) db' = Some request' /\
      status request' = CLOSED /\
      current_step request' = 11%Z /\
      closed_at request' = Some now /\
      List.length (workflow_history db') = (List.length (workflow_history db) + 2)%nat.
Proof.
  intros now request actor comments db Hstatus.
  unfold post_implementation_verification. rewrite Hstatus.
  cbn [status_eqb negb forallb andb].
  unfold bind at 1. unfold save_request at 1. unfold write at 1.
  unfold bind at 1. unfold log_workflow_history at 1. unfold write at 1.
  unfold bind at 1. unfold qa_closure.
  set (closed := set_closed_at (Some now) _).
  assert (Hclosed : status closed = CLOSED) by (subst closed; destruct request; reflexivity).
  assert (Hpk : pk closed = pk request) by (subst closed; destruct request; reflexivity).
  rewrite Hclosed. cbn [status_eqb negb].
  unfold bind, log_workflow_history, write, ret.
  do 2 eexists. split; [reflexivity |].
  split.
  { unfold get_object. destruct db as [rq evs evals docs ras revs plans hist]. cbn.
    rewrite <- Hpk. apply (find_save_row pk). }
  split; [exact Hclosed |].
  split; [subst closed; destruct request; reflexivity |].
  split; [subst closed; destruct request; reflexivity |].
  destruct db as [rq evs evals docs ras revs plans hist]. cbn.
  rewrite !length_app. cbn. lia.
Qed.

(** X14.  QARegister with an impact level that is none of Minor, Major,
    Critical, or with a final number that another request holds, is
    refused with the message of the source and writes nothing. *)
Theorem qa_registration_refusals :
  forall year now request actor number impact entries target db,
    status request = PENDING_QA_REGISTRATION ->
    (impact_of_value impact = None ->
     qa_registration year now request actor number impact entries target db =
       (Raise (ValidationError ("Invalid impact level: " ++ impact)), db)) /\
    (forall other,
        impact_of_value impact <> None ->
        In other (requests db) -> pk other <> pk request ->
        final_cc_number other = Some (assigned_final_number year request number db) ->
        qa_registration year now request actor number impact entries target db =
          (Raise (ValidationError
                    ("Final CC number " ++ assigned_final_number year request number db ++
                     " already exists")), db)).
Proof.
  intros year now request actor number impact entries target db Hstatus.
  unfold qa_registration. rewrite Hstatus. cbn [status_eqb negb].
  split.
  - intros ->. reflexivity.
  - intros other Himpact Hin Hother Hfinal.
    destruct (impact_of_value impact) as [level |]; [| congruence].
    unfold bind at 1.
    assert (Hnumber :
      (match number with
       | Some (String c s) => ret (String c s)
       | _ => query (generate_final_cc_number year (Department.code (department request)))
       end) db = (Return (assigned_final_number year request number db), db)).
    { unfold assigned_final_number. destruct number as [[| c s] |]; reflexivity. }
    rewrite Hnumber. unfold bind at 1. unfold query at 1.
    assert (Htaken :
      existsb (fun r => andb (match final_cc_number r with
                              | Some n => String.eqb n
                                            (assigned_final_number year request number db)
                              | None => false
                              end)
                             (negb (Nat.eqb (pk r) (pk request))))
              (requests db) = true).
    { apply existsb_exists. exists other. split; [exact Hin |].
      rewrite Hfinal, String.eqb_refl. cbn [andb].
      apply negb_true_iff, Nat.eqb_neq, Hother. }
    rewrite Htaken. reflexivity.
Qed.

Lemma existsb_filter {A} (p q : A -> bool) l :
  existsb (fun x => andb (p x) (q x)) l =
  match filter p (filter q l) with [] => false | _ :: _ => true end.
Proof.
  induction l as [| x l IH]; [reflexivity |].
  cbn [existsb filter]. destruct (q x); cbn [filter].
  - destruct (p x); cbn [andb orb]; [reflexivity | exact IH].
  - rewrite andb_false_r. exact IH.
Qed.

(** X15.  SubmitCFTEvaluation on a request in PendingCFTEvaluation is
    refused without a write exactly when [can_evaluate_cft] fails for the
    actor and the department: the core repeats the permission test. *)
Theorem cft_evaluation_needs_assignment :
  forall now request actor department impact_type decision risk_level notes documents db,
    status request = PENDING_CFT_EVALUATION ->
    can_evaluate_cft actor request (Some department) db = false <->
    cft_evaluation now request actor department impact_type decision risk_level notes
                   documents db =
      (Raise (ValidationError ("User " ++ username actor ++
                               " is not assigned as evaluator for " ++
                               Department.code department)), db).
Proof.
  intros now request actor department impact_type decision risk_level notes documents db
         Hstatus.
  unfold cft_evaluation, can_evaluate_cft, is_cft_evaluator.
  rewrite Hstatus. cbn [status_eqb negb].
  unfold bind at 1. unfold query at 1.
  rewrite existsb_filter.
  destruct (filter _ (filter _ _)) as [| e l]; cbn [negb].
  - split; reflexivity.
  - split; [discriminate |].
    intros Hrun. exfalso. revert Hrun.
    unfold bind at 1. unfold get_or_create_evaluation.
    destruct (filter _ (evaluations_of request db)) as [| x [| y t]];
      [| | discriminate].
    + cbv beta iota. unfold bind at 1. unfold ret at 1.
      unfold bind at 1.
      rewrite for_each_documents.
      unfold bind, log_workflow_history, write, query, save_request, ret.
      destruct (Nat.eqb _ _); discriminate.
    + cbv beta iota. unfold bind at 1. unfold bind at 1.
      unfold save_evaluation at 1. unfold write at 1. unfold ret at 1.
      unfold bind at 1.
      rewrite for_each_documents.
      unfold bind, log_workflow_history, write, query, save_request, ret.
      destruct (Nat.eqb _ _); discriminate.
Qed.

(** ** Risk assessment; the department of a user *)

(** A row saved over the one that a search finds is found by the same
    search. *)
Lemma find_saved_over {A} (key : A -> nat) (p : A -> bool) (x old : A) rows :
  find p rows = Some old -> key x = key old -> p x = true ->
  find p (save_row key x rows) = Some x.
Proof.
  intros Hfind Hkey Hp.
  induction rows as [| r rs IH]; [discriminate |].
  cbn [save_row find] in *.
  destruct (Nat.eqb_spec (key r) (key x)) as [Heq | Hne]; cbn [find].
  - now rewrite Hp.
  - destruct (p r); [| exact (IH Hfind)].
    inversion Hfind; subst. congruence.
Qed.

(** X16.  CompleteRiskAssessment returns exactly when the request has a
    risk assessment and the actor is its assignee; the assessment is then
    saved as Completed with the findings, the recommendations and the
    completion date, for the same assignee, and is the one the request
    shows afterwards. *)
Theorem complete_risk_assessment_records_findings :
  forall now request actor findings recommendations db,
    ((exists result db',
         complete_risk_assessment now request actor findings recommendations db =
           (Return result, db'))
     <-> exists a, risk_assessment_of request db = Some a /\
                   user_eqb (RiskAssessment.assigned_to a) actor = true) /\
    (forall a, risk_assessment_of request db = Some a ->
               user_eqb (RiskAssessment.assigned_to a) actor = true ->
               exists request' db',
                 complete_risk_assessment now request actor findings recommendations db =
                   (Return (request', completed_assessment now a findings recommendations),
                    db') /\
                 risk_assessment_of request db' =
                   Some (completed_assessment now a findings recommendations)).
Proof.
  intros now request actor findings recommendations db.
  split.
  - unfold complete_risk_assessment. unfold bind at 1. unfold query at 1.
    destruct (risk_assessment_of request db) as [a |].
    + destruct (user_eqb (RiskAssessment.assigned_to a) actor) eqn:Hactor; cbn [negb].
      * split; [eauto |]. intros _.
        unfold bind, save_risk_assessment, save_request, log_workflow_history, write, ret.
        eauto.
      * split; [intros (r & d & H); discriminate |].
        intros (a' & Heq & H). inversion Heq; subst. congruence.
    + split; [intros (r & d & H); discriminate | intros (a' & Heq & _); discriminate].
  - intros a Ha Hactor.
    unfold complete_risk_assessment. unfold bind at 1. unfold query at 1.
    rewrite Ha, Hactor. cbn [negb].
    unfold bind, save_risk_assessment, save_request, log_workflow_history, write, ret.
    do 2 eexists. split; [reflexivity |].
    unfold risk_assessment_of in *.
    destruct db as [rq evs evals docs ras revs plans hist]. cbn in *.
    match goal with
    | |- find _ (save_row _ ?x _) = _ =>
        apply (find_saved_over RiskAssessment.pk _ x a); [exact Ha | reflexivity |]
    end.
    cbn. apply find_some in Ha. destruct Ha as (_ & Hmatch).
    replace (pk (set_current_step 6 (set_status PENDING_DOCUMENT_UPDATE request)))
      with (pk request) by (destruct request; reflexivity).
    exact Hmatch.
Qed.

(** X17.  CreateRiskAssessment always returns, and a request has at most
    the assessment it creates: a second call, by whomever and for whatever
    assignee, returns the same assessment and writes nothing. *)
Theorem create_risk_assessment_is_idempotent :
  forall request actor assigned_to db,
    exists request' a db',
      create_risk_assessment request actor assigned_to db = (Return (request', a), db') /\
      risk_assessment_of request db' = Some a /\
      forall actor' assigned_to',
        create_risk_assessment request' actor' assigned_to' db' =
          (Return (request', a), db').
Proof.
  intros request actor assigned_to db.
  assert (Hagain : forall request' a db',
             risk_assessment_of request' db' = Some a ->
             forall actor' assigned_to',
               create_risk_assessment request' actor' assigned_to' db' =
                 (Return (request', a), db')).
  { intros request' a db' Ha actor' assigned_to'.
    unfold create_risk_assessment. unfold bind at 1. unfold query at 1.
    now rewrite Ha. }
  destruct (risk_assessment_of request db) as [a |] eqn:Hexisting.
  - exists request, a, db. split; [now apply Hagain |]. split; [exact Hexisting |].
    now apply Hagain.
  - unfold create_risk_assessment at 1.
    unfold bind at 1. unfold query at 1. rewrite Hexisting.
    unfold bind at 1. unfold query at 1.
    unfold bind at 1. unfold write at 1.
    set (a := RiskAssessment.mk _ _ _ _ _ _ _).
    set (db1 := set_risk_assessments _ db).
    assert (Ha1 : forall r, pk r = pk request -> risk_assessment_of r db1 = Some a).
    { intros r Hr. subst db1. unfold risk_assessment_of in *. rewrite Hr.
      destruct db as [rq evs evals docs ras revs plans hist]. cbn in *.
      rewrite (find_app_none _ _ _ Hexisting). subst a. cbn [RiskAssessment.request].
      now rewrite Nat.eqb_refl. }
    unfold bind at 1.
    destruct (status_eqb (status request) PENDING_CFT_EVALUATION).
    + unfold bind at 1. unfold query at 1. unfold bind at 1. unfold query at 1.
      destruct (Nat.eqb _ _).
      * unfold bind, save_request, log_workflow_history, write, ret.
        set (saved := set_current_step 5 _).
        assert (Hpk : pk saved = pk request) by (subst saved; destruct request; reflexivity).
        do 3 eexists. split; [reflexivity |].
        assert (Hfound : forall r, pk r = pk request ->
                   risk_assessment_of r
                     (set_workflow_history
                        (workflow_history (set_requests (save_row pk saved (requests db1)) db1)
                         ++ [WorkflowHistory.mk (pk saved) 5 "Risk Assessment" actor
                               "Risk assessment task created"
                               ("Assigned to " ++ username (RiskAssessment.assigned_to a))
                               (status saved) (status saved)])
                        (set_requests (save_row pk saved (requests db1)) db1)) = Some a).
        { intros r Hr. rewrite <- (Ha1 r Hr). destruct db1; reflexivity. }
        split; [apply Hfound; reflexivity |].
        apply Hagain. apply Hfound. exact Hpk.
      * unfold bind, log_workflow_history, write, ret.
        do 3 eexists. split; [reflexivity |].
        assert (Hfound : forall r, pk r = pk request ->
                   risk_assessment_of r
                     (set_workflow_history
                        (workflow_history db1 ++
                         [WorkflowHistory.mk (pk request) 5 "Risk Assessment" actor
                            "Risk assessment task created"
                            ("Assigned to " ++ username (RiskAssessment.assigned_to a))
                            (status request) (status request)]) db1) = Some a).
        { intros r Hr. rewrite <- (Ha1 r Hr). destruct db1; reflexivity. }
        split; [apply Hfound; reflexivity |].
        apply Hagain. apply Hfound. reflexivity.
    + unfold bind, log_workflow_history, write, ret.
      do 3 eexists. split; [reflexivity |].
      assert (Hfound : forall r, pk r = pk request ->
                 risk_assessment_of r
                   (set_workflow_history
                      (workflow_history db1 ++
                       [WorkflowHistory.mk (pk request) 5 "Risk Assessment" actor
                          "Risk assessment task created"
                          ("Assigned to " ++ username (RiskAssessment.assigned_to a))
                          (status request) (status request)]) db1) = Some a).
      { intros r Hr. rewrite <- (Ha1 r Hr). destruct db1; reflexivity. }
      split; [apply Hfound; reflexivity |].
      apply Hagain. apply Hfound. reflexivity.
Qed.

(** X18.  [get_user_department] answers a department only if it is the one
    department of the table that the user heads, answers none exactly when
    the user heads none, and raises MultipleObjectsReturned, which the
    function does not catch, as soon as the user heads two. *)
Theorem get_user_department_spec :
  forall departments user,
    (forall d, get_user_department departments user = Return (Some d) ->
               In d departments /\ is_department_head user (Some d) = true /\
               forall d', In d' departments ->
                          is_department_head user (Some d') = true -> d' = d) /\
    (get_user_department departments user = Return None <->
     forall d, In d departments -> is_department_head user (Some d) = false) /\
    (forall d1 d2, In d1 departments -> In d2 departments -> d1 <> d2 ->
                   is_department_head user (Some d1) = true ->
                   is_department_head user (Some d2) = true ->
                   get_user_department departments user = Raise MultipleObjectsReturned).
Proof.
  intros departments user. unfold get_user_department.
  set (headed := filter (fun d => is_department_head user (Some d)) departments).
  assert (Hheaded : forall d, In d headed <->
                              In d departments /\ is_department_head user (Some d) = true)
    by (intros d; apply filter_In).
  destruct headed as [| d0 [| d1 rest]].
  - split; [discriminate |]. split.
    + split; [| reflexivity]. intros _ d Hd.
      destruct (is_department_head user (Some d)) eqn:Hhead; [| reflexivity].
      destruct (proj2 (Hheaded d) (conj Hd Hhead)).
    + intros d1 d2 H1 _ _ Hh1 _. destruct (proj2 (Hheaded d1) (conj H1 Hh1)).
  - split.
    + intros d Hd. inversion Hd; subst.
      destruct (proj1 (Hheaded d) (or_introl eq_refl)) as (Hin & Hhead).
      split; [exact Hin |]. split; [exact Hhead |].
      intros d' Hin' Hhead'.
      destruct (proj2 (Hheaded d') (conj Hin' Hhead')) as [<- | []]. reflexivity.
    + split.
      * split; [discriminate |]. intros Hnone.
        destruct (proj1 (Hheaded d0) (or_introl eq_refl)) as (Hin & Hhead).
        rewrite (Hnone d0 Hin) in Hhead. discriminate.
      * intros d1 d2 H1 H2 Hne Hh1 Hh2.
        destruct (proj2 (Hheaded d1) (conj H1 Hh1)) as [<- | []].
        destruct (proj2 (Hheaded d2) (conj H2 Hh2)) as [<- | []].
        congruence.
  - split; [discriminate |]. split.
    + split; [discriminate |]. intros Hnone.
      destruct (proj1 (Hheaded d0) (or_introl eq_refl)) as (Hin & Hhead).
      rewrite (Hnone d0 Hin) in Hhead. discriminate.
    + reflexivity.
Qed.

(** ** Action plans *)

(** The loop of [action_plan_management] over entries that are complete. *)
Lemma create_plans request good :
  Forall (fun d => complete_plan d = true) good ->
  forall rest db,
  exists added,
    map plan_summary added = map (wanted_plan request) good /\
    for_each (good ++ rest) (create_plan request) db =
    for_each rest (create_plan request)
             (set_action_plans (action_plans db ++ added) db).
Proof.
  induction 1 as [| d good Hd Hgood IH]; intros rest db.
  - exists []. split; [reflexivity |]. cbn [app]. rewrite app_nil_r.
    destruct db; reflexivity.
  - cbn [app for_each]. unfold bind at 1. unfold create_plan at 1.
    unfold complete_plan in Hd.
    destruct (ad_description d) as [description |] eqn:Hdescription; [| discriminate].
    destruct (ad_responsible_person d) as [person |] eqn:Hperson; [| discriminate].
    destruct (ad_expected_timeline d) as [timeline |] eqn:Htimeline; [| discriminate].
    set (row := ActionPlan.mk _ _ _ _ _ _ _ _).
    destruct (IH rest (set_action_plans (action_plans db ++ [row]) db))
      as (added & Hadded & Hrun).
    exists (row :: added). split.
    + cbn [map]. f_equal; [| exact Hadded]. unfold wanted_plan.
      rewrite Hdescription, Hperson, Htimeline. reflexivity.
    + rewrite Hrun. destruct db; cbn. now rewrite <- app_assoc.
Qed.

(** X19.  CreateActionPlans on a request in PendingActionPlan, every
    entry naming a description, a responsible person and a timeline:
    the call returns; one Pending plan of the request is appended for
    each entry, in order, with the values of the entry; the request keeps
    its status and is saved at step 7. *)
Theorem action_plan_management_adds_plans :
  forall request actor plans db,
    status request = PENDING_ACTION_PLAN ->
    Forall (fun d => complete_plan d = true) plans ->
    exists request' db' added,
      action_plan_management request actor plans db = (Return request', db') /\
      action_plans db' = action_plans db ++ added /\
      map plan_summary added = map (wanted_plan request) plans /\
      get_object (pk request) db' = Some request' /\
      status request' = PENDING_ACTION_PLAN /\ current_step request' = 7%Z.
Proof.
  intros request actor plans db Hstatus Hplans.
  unfold action_plan_management. rewrite Hstatus. cbn [status_eqb negb].
  destruct (create_plans request plans Hplans [] db) as (added & Hadded & Hrun).
  rewrite app_nil_r in Hrun. unfold bind at 1. rewrite Hrun. cbn [for_each].
  unfold ret at 1. unfold bind, save_request, log_workflow_history, write, ret.
  set (saved := set_current_step 7 request).
  assert (Hpk : pk saved = pk request) by (subst saved; destruct request; reflexivity).
  exists saved, (set_workflow_history
                  (workflow_history
                     (set_requests
                        (save_row pk saved
                           (requests (set_action_plans (action_plans db ++ added) db)))
                        (set_action_plans (action_plans db ++ added) db)) ++
                   [WorkflowHistory.mk (pk saved) 7 "Action Plan & Implementation" actor
                      "Action plan created/updated" EmptyString (status saved)
                      (status saved)])
                  (set_requests
                     (save_row pk saved
                        (requests (set_action_plans (action_plans db ++ added) db)))
                     (set_action_plans (action_plans db ++ added) db))), added.
  split; [reflexivity |].
  split; [destruct db; reflexivity |].
  split; [exact Hadded |].
  split.
  { unfold get_object. destruct db as [rq evs evals docs ras revs plans' hist]. cbn.
    rewrite <- Hpk. apply (find_save_row pk). }
  split; subst saved; destruct request; cbn in *; [exact Hstatus | reflexivity].
Qed.

(** X20.  CreateActionPlans stops at the first entry that lacks a
    description, a responsible person or a timeline: it raises
    IntegrityError, the plans of the entries before it stay in the
    database, and neither the request nor the history is written. *)
Theorem action_plan_management_stops_at_incomplete_entry :
  forall request actor good bad rest db,
    status request = PENDING_ACTION_PLAN ->
    Forall (fun d => complete_plan d = true) good ->
    complete_plan bad = false ->
    exists db' added,
      action_plan_management request actor (good ++ bad :: rest) db =
        (Raise IntegrityError, db') /\
      action_plans db' = action_plans db ++ added /\
      map plan_summary added = map (wanted_plan request) good /\
      requests db' = requests db /\
      workflow_history db' = workflow_history db.
Proof.
  intros request actor good bad rest db Hstatus Hgood Hbad.
  unfold action_plan_management. rewrite Hstatus. cbn [status_eqb negb].
  destruct (create_plans request good Hgood (bad :: rest) db) as (added & Hadded & Hrun).
  unfold bind at 1. rewrite Hrun. cbn [for_each]. unfold bind at 1.
  unfold create_plan at 1. unfold complete_plan in Hbad.
  exists (set_action_plans (action_plans db ++ added) db), added.
  split.
  - destruct (ad_description bad); [| reflexivity].
    destruct (ad_responsible_person bad); [| reflexivity].
    destruct (ad_expected_timeline bad); [discriminate | reflexivity].
  - destruct db; cbn. repeat split; assumption.
Qed.

(** ** Document revisions *)

Lemma open_after_completion (p : DocumentRevision.t -> bool) completed key revisions :
  DocumentRevision.open completed = false ->
  filter DocumentRevision.open
    (filter p (map (fun r => if Nat.eqb (DocumentRevision.pk r) key then completed else r)
                   revisions)) =
  filter (fun r => andb (DocumentRevision.open r) (negb (Nat.eqb (DocumentRevision.pk r) key)))
         (filter p revisions).
Proof.
  intros Hclosed. induction revisions as [| r rs IH]; [reflexivity |].
  cbn [map filter].
  destruct (Nat.eqb (DocumentRevision.pk r) key) eqn:Hkey.
  - destruct (p completed), (p r); cbn [filter];
      rewrite ?Hclosed, ?Hkey, ?andb_false_r; exact IH.
  - destruct (p r); cbn [filter]; [| exact IH].
    rewrite Hkey, andb_true_r. destruct (DocumentRevision.open r); now rewrite IH.
Qed.

(** X21.  CompleteDocumentRevision always returns and saves the revision
    as Completed with the notes, the date and the actor, whatever the
    status of the request and whoever the actor is.  When no other
    revision of the request is Pending or InProgress and the request is in
    PendingDocumentUpdate, the request is saved in PendingActionPlan at
    step 7; otherwise neither the request nor the history is written. *)
Theorem complete_document_revision_effect :
  forall now request actor revision notes db,
    NoDup (map DocumentRevision.pk (document_revisions db)) ->
    In revision (document_revisions db) ->
    exists request' db',
      complete_document_revision now request actor revision notes db =
        (Return (request', completed_revision now actor revision notes), db') /\
      document_revisions db' =
        map (fun r => if Nat.eqb (DocumentRevision.pk r) (DocumentRevision.pk revision)
                      then completed_revision now actor revision notes else r)
            (document_revisions db) /\
      (other_open_revisions request revision db = [] ->
       status request = PENDING_DOCUMENT_UPDATE ->
       status request' = PENDING_ACTION_PLAN /\ current_step request' = 7%Z /\
       get_object (pk request) db' = Some request') /\
      (other_open_revisions request revision db <> [] \/
       status request <> PENDING_DOCUMENT_UPDATE ->
       request' = request /\ requests db' = requests db /\
       workflow_history db' = workflow_history db).
Proof.
  intros now request actor revision notes db Hkeys Hin.
  unfold complete_document_revision.
  fold (completed_revision now actor revision notes).
  set (completed := completed_revision now actor revision notes).
  unfold bind at 1. unfold save_revision at 1. unfold write at 1.
  unfold bind at 1. unfold query at 1.
  assert (Hsaved :
    save_row DocumentRevision.pk completed (document_revisions db) =
    map (fun r => if Nat.eqb (DocumentRevision.pk r) (DocumentRevision.pk revision)
                  then completed else r) (document_revisions db))
    by (apply (save_row_existing DocumentRevision.pk completed revision); auto).
  assert (Hpending :
    filter DocumentRevision.open
      (revisions_of request
         (set_document_revisions
            (save_row DocumentRevision.pk completed (document_revisions db)) db)) =
    other_open_revisions request revision db).
  { unfold other_open_revisions, revisions_of. rewrite Hsaved.
    destruct db as [rq evs evals docs ras revs plans hist]. cbn.
    now apply open_after_completion. }
  rewrite Hpending.
  destruct (other_open_revisions request revision db) as [| r0 others].
  - destruct (status_eqb (status request) PENDING_DOCUMENT_UPDATE) eqn:Hstatus.
    + unfold bind, save_request, log_workflow_history, write, ret.
      set (saved := set_current_step 7 _).
      assert (Hpk : pk saved = pk request) by (subst saved; destruct request; reflexivity).
      do 2 eexists. split; [reflexivity |].
      split; [rewrite <- Hsaved; destruct db; reflexivity |].
      split.
      * intros _ _. split; [subst saved; destruct request; reflexivity |].
        split; [subst saved; destruct request; reflexivity |].
        unfold get_object. destruct db as [rq evs evals docs ras revs plans hist]. cbn.
        rewrite <- Hpk. apply (find_save_row pk).
      * apply status_eqb_eq in Hstatus. intros [H | H]; congruence.
    + unfold ret. do 2 eexists. split; [reflexivity |].
      split; [rewrite <- Hsaved; destruct db; reflexivity |].
      split.
      * intros _ H. rewrite H in Hstatus. discriminate.
      * intros _. destruct db; repeat split; reflexivity.
  - unfold ret. do 2 eexists. split; [reflexivity |].
    split; [rewrite <- Hsaved; destruct db; reflexivity |].
    split.
    + discriminate.
    + intros _. destruct db; repeat split; reflexivity.
Qed.

(** ** Document management *)

Lemma save_row_twice {A} (key : A -> nat) (x : A) rows :
  save_row key x (save_row key x rows) = save_row key x rows.
Proof.
  induction rows as [| r rs IH]; cbn [save_row].
  - now rewrite Nat.eqb_refl.
  - destruct (Nat.eqb (key r) (key x)) eqn:Hr; cbn [save_row].
    + now rewrite Nat.eqb_refl.
    + now rewrite Hr, IH.
Qed.

Lemma revision_matches_same n c d n' c' d' r0 :
  revision_matches n c d r0 = true -> revision_matches n' c' d' r0 = true ->
  forall r, revision_matches n c d r = revision_matches n' c' d' r.
Proof.
  unfold revision_matches, Department.eqb. intros H H' r.
  apply andb_prop in H. destruct H as (Hn & H). apply andb_prop in H. destruct H as (Hc & Hd).
  apply andb_prop in H'. destruct H' as (Hn' & H').
  apply andb_prop in H'. destruct H' as (Hc' & Hd').
  apply String.eqb_eq in Hn, Hc, Hn', Hc'. apply Nat.eqb_eq in Hd, Hd'.
  replace n' with n by congruence. replace c' with c by congruence.
  replace (Department.pk d') with (Department.pk d) by congruence. reflexivity.
Qed.

Lemma get_or_create_revision_records request d db db' :
  get_or_create_revision request d db = (Return tt, db') ->
  recorded request d db' /\
  (forall d', recorded request d' db -> recorded request d' db').
Proof.
  unfold get_or_create_revision, recorded.
  destruct (rd_document_name d) as [n |]; [| discriminate].
  destruct (rd_assigned_department d) as [dept |]; [| discriminate].
  fold (revision_matches n (match rd_document_code d with Some c => c | None => EmptyString end)
                         dept).
  set (c := match rd_document_code d with Some c => c | None => EmptyString end).
  destruct (filter (revision_matches n c dept) (revisions_of request db))
    as [| x [| y l]] eqn:Hfound; [| | discriminate].
  - intros H. inversion H; subst db'; clear H.
    set (row := DocumentRevision.mk _ _ _ _ _ _ _ _ _).
    assert (Hrows : revisions_of request
                      (set_document_revisions (document_revisions db ++ [row]) db) =
                    revisions_of request db ++ [row]).
    { unfold revisions_of. destruct db as [rq evs evals docs ras revs plans hist]. cbn.
      rewrite filter_app. cbn [filter]. subst row. cbn [DocumentRevision.request].
      now rewrite Nat.eqb_refl. }
    assert (Hrow : revision_matches n c dept row = true).
    { subst row. unfold revision_matches, Department.eqb. cbn.
      now rewrite !String.eqb_refl, Nat.eqb_refl. }
    split.
    + exists n, dept, row. split; [reflexivity |]. split; [reflexivity |].
      rewrite Hrows, filter_app, Hfound. cbn [filter app]. now rewrite Hrow.
    + intros d' (n' & dept' & x' & Hn' & Hd' & Hx').
      exists n', dept', x'. split; [exact Hn' |]. split; [exact Hd' |].
      rewrite Hrows, filter_app, Hx'. cbn [filter].
      set (c' := match rd_document_code d' with Some c => c | None => EmptyString end) in *.
      destruct (revision_matches n' c' dept' row) eqn:Hrow'; [| reflexivity].
      exfalso.
      assert (Hsame : filter (revision_matches n c dept) (revisions_of request db) =
                      filter (revision_matches n' c' dept') (revisions_of request db))
        by (apply filter_ext; exact (revision_matches_same _ _ _ _ _ _ row Hrow Hrow')).
      rewrite Hfound, Hx' in Hsame. discriminate.
  - intros H. inversion H; subst db'; clear H. split.
    + exists n, dept, x. auto.
    + auto.
Qed.

Lemma get_or_create_revision_recorded request d db :
  recorded request d db -> get_or_create_revision request d db = (Return tt, db).
Proof.
  intros (n & dept & x & Hn & Hd & Hx). unfold get_or_create_revision.
  rewrite Hn, Hd.
  fold (revision_matches n (match rd_document_code d with Some c => c | None => EmptyString end)
                         dept).
  now rewrite Hx.
Qed.

Lemma revisions_loop_keeps request d' docs :
  forall db db',
    for_each docs (get_or_create_revision request) db = (Return tt, db') ->
    recorded request d' db -> recorded request d' db'.
Proof.
  induction docs as [| d docs IH]; intros db db' Hrun Hd'.
  - inversion Hrun; subst. exact Hd'.
  - cbn [for_each] in Hrun. unfold bind in Hrun.
    destruct (get_or_create_revision request d db) as [[[] | e] db1] eqn:Hstep;
      [| discriminate].
    apply (IH db1 db' Hrun).
    exact (proj2 (get_or_create_revision_records _ _ _ _ Hstep) d' Hd').
Qed.

Lemma revisions_loop_records request docs :
  forall db db',
    for_each docs (get_or_create_revision request) db = (Return tt, db') ->
    Forall (fun d => recorded request d db') docs.
Proof.
  induction docs as [| d docs IH]; intros db db' Hrun; [constructor |].
  cbn [for_each] in Hrun. unfold bind in Hrun.
  destruct (get_or_create_revision request d db) as [[[] | e] db1] eqn:Hstep;
    [| discriminate].
  constructor.
  - apply (revisions_loop_keeps request d docs db1 db' Hrun).
    exact (proj1 (get_or_create_revision_records _ _ _ _ Hstep)).
  - exact (IH db1 db' Hrun).
Qed.

Lemma revisions_loop_recorded request docs db :
  Forall (fun d => recorded request d db) docs ->
  for_each docs (get_or_create_revision request) db = (Return tt, db).
Proof.
  induction 1 as [| d docs Hd Hdocs IH]; [reflexivity |].
  cbn [for_each]. unfold bind. now rewrite (get_or_create_revision_recorded _ _ _ Hd).
Qed.

Lemma recorded_moved request request' d db db' :
  pk request' = pk request -> document_revisions db' = document_revisions db ->
  recorded request d db -> recorded request' d db'.
Proof.
  intros Hpk Hrows. unfold recorded, revisions_of. now rewrite Hpk, Hrows.
Qed.

(** X22.  Document management is idempotent on the revisions.  After a
    call that returned, the same call on the request it returned also
    returns, creates no revision and leaves the request as saved: all it
    writes is one more history entry. *)
Theorem document_management_is_idempotent :
  forall request actor documents db request' db',
    document_management request actor documents db = (Return request', db') ->
    exists entry,
      document_management request' actor documents db' =
        (Return request',
         set_workflow_history (workflow_history db' ++ [entry]) db').
Proof.
  intros request actor documents db request' db' Hrun.
  unfold document_management in Hrun.
  destruct (negb (orb (status_eqb (status request) PENDING_DOCUMENT_UPDATE)
                      (status_eqb (status request) PENDING_ACTION_PLAN))) eqn:Hguard;
    [discriminate |].
  unfold bind at 1 in Hrun.
  destruct (for_each documents (get_or_create_revision request) db)
    as [[[] | e] db1] eqn:Hloop; [| discriminate].
  pose proof (revisions_loop_records request documents db db1 Hloop) as Hrecorded.
  assert (Hagain : forall r d,
             pk r = pk request -> document_revisions d = document_revisions db1 ->
             for_each documents (get_or_create_revision r) d = (Return tt, d)).
  { intros r d Hpk Hrows. apply revisions_loop_recorded.
    apply Forall_forall. intros doc Hdoc. rewrite Forall_forall in Hrecorded.
    exact (recorded_moved request r doc db1 d Hpk Hrows (Hrecorded doc Hdoc)). }
  destruct (status_eqb (status request) PENDING_DOCUMENT_UPDATE) eqn:Hstatus.
  - unfold bind, save_request, log_workflow_history, write, ret in Hrun.
    inversion Hrun; subst request' db'; clear Hrun.
    set (saved := set_current_step 6 request).
    assert (Hpk : pk saved = pk request) by (subst saved; destruct request; reflexivity).
    assert (Hsame : status saved = status request)
      by (subst saved; destruct request; reflexivity).
    assert (Hstep : set_current_step 6 saved = saved)
      by (subst saved; destruct request; reflexivity).
    eexists.
    unfold document_management. rewrite Hsame, Hstatus. cbn [orb negb].
    unfold bind at 1. rewrite Hagain by (try exact Hpk; destruct db1; reflexivity).
    unfold bind, save_request, log_workflow_history, write, ret.
    rewrite Hstep. f_equal.
    destruct db1 as [rq evs evals docs ras revs plans hist]. cbn.
    rewrite save_row_twice. reflexivity.
  - unfold bind, log_workflow_history, write, ret in Hrun.
    inversion Hrun; subst request' db'; clear Hrun.
    eexists.
    unfold document_management. rewrite Hstatus.
    cbn [orb] in Hguard |- *. rewrite Hguard.
    unfold bind at 1. rewrite Hagain by (try reflexivity; destruct db1; reflexivity).
    unfold bind, log_workflow_history, write, ret.
    reflexivity.
Qed.

(** ** Evaluations and assignments *)

Lemma by_assigned_evaluator_extended db db' e :
  extended (cft_evaluators db) (cft_evaluators db') ->
  by_assigned_evaluator db e = true -> by_assigned_evaluator db' e = true.
Proof.
  intros [added Hadded]. unfold by_assigned_evaluator. rewrite Hadded, existsb_app.
  intros ->. reflexivity.
Qed.

Lemma by_assigned_evaluator_fields db e e' :
  CFTEvaluation.request e' = CFTEvaluation.request e ->
  CFTEvaluation.department e' = CFTEvaluation.department e ->
  CFTEvaluation.evaluator e' = CFTEvaluation.evaluator e ->
  by_assigned_evaluator db e' = by_assigned_evaluator db e.
Proof. unfold by_assigned_evaluator. now intros -> -> ->. Qed.

Lemma Forall_save_row {A} (key : A -> nat) (Q : A -> Prop) x rows :
  Q x -> Forall Q rows -> Forall Q (save_row key x rows).
Proof.
  intros Hx. induction 1 as [| r rs Hr Hrs IH]; cbn [save_row].
  - now constructor.
  - destruct (Nat.eqb (key r) (key x)); constructor; auto.
Qed.

(** The evaluation table is written by [cft_evaluation] alone. *)
Lemma perform_keeps_evaluations op db :
  (forall now request actor department impact_type decision risk_level notes,
      op <> SubmitCFTEvaluation now request actor department impact_type decision
                                risk_level notes) ->
  cft_evaluations (snd (perform op db)) = cft_evaluations db.
Proof.
  intros Hop.
  set (P := fun d : Store => cft_evaluations d = cft_evaluations db).
  assert (Hrespond : forall A (to_request : A -> ChangeControlRequest.t) (m : M A),
             preserves P m -> P (snd (respond to_request m db))).
  { intros A to_request m Hm. unfold respond. specialize (Hm db eq_refl).
    destruct (m db) as [[a | e] db']; exact Hm. }
  assert (Hwrite : forall f, (forall d, cft_evaluations (f d) = cft_evaluations d) ->
                             preserves P (write f)).
  { intros f Hf d Hd. unfold P in *. cbn. now rewrite Hf. }
  assert (Hraw : forall A (m : M A),
             (forall d, cft_evaluations (snd (m d)) = cft_evaluations d) ->
             preserves P m).
  { intros A m Hm d Hd. unfold P in *. now rewrite Hm. }
  assert (Hevaluator : forall r d u, preserves P (get_or_create_evaluator r d u)).
  { intros r d u. apply Hraw. intros s. unfold get_or_create_evaluator.
    destruct (filter _ _) as [| x [| y l]]; try reflexivity.
    destruct (existsb _ _); [reflexivity | destruct s; reflexivity]. }
  assert (Hplan : forall r d, preserves P (create_plan r d)).
  { intros r d. apply Hraw. intros s. unfold create_plan.
    destruct (ad_description d); [| reflexivity].
    destruct (ad_responsible_person d); [| reflexivity].
    destruct (ad_expected_timeline d); [destruct s |]; reflexivity. }
  assert (Hcreate : forall row, preserves P (create_request row)).
  { intros row. apply Hraw. intros s. unfold create_request.
    destruct (existsb _ _); [reflexivity | destruct s; reflexivity]. }
  change (P (snd (perform op db))).
  destruct op; cbn [perform]; unfold with_request;
    try (destruct (get_object request db) as [loaded |]; [| reflexivity]);
    try (destruct (find _ _); [| reflexivity]);
    try (exfalso; eapply Hop; reflexivity);
    apply Hrespond;
    [ unfold initiate_request, route_to_dept_head
    | unfold dept_head_decision
    | unfold qa_registration, create_risk_assessment
    | unfold complete_risk_assessment
    | unfold complete_document_revision
    | unfold action_plan_management
    | unfold complete_action_plan
    | unfold qa_final_evaluation
    | unfold qa_head_approval
    | unfold post_implementation_verification, qa_closure ];
    unfold save_request, save_risk_assessment, save_revision, log_workflow_history;
    walk ltac:(first [ apply Hevaluator | apply Hplan | apply Hcreate
                     | apply Hwrite;
                       let d := fresh "d" in intros d; destruct d; reflexivity ]).
Qed.

Lemma perform_assigned op db :
  Forall (fun e => by_assigned_evaluator db e = true) (cft_evaluations db) ->
  Forall (fun e => by_assigned_evaluator (snd (perform op db)) e = true)
         (cft_evaluations (snd (perform op db))).
Proof.
  intros H.
  assert (Hgrown : extended (cft_evaluators db) (cft_evaluators (snd (perform op db))))
    by (destruct (perform_grown op db) as (_ & Hevaluators & _); exact Hevaluators).
  assert (Hkept : Forall (fun e => by_assigned_evaluator (snd (perform op db)) e = true)
                         (cft_evaluations db)).
  { eapply Forall_impl; [| exact H]. intros e. now apply by_assigned_evaluator_extended. }
  destruct op as [ | | | now key actor dept impact_type decision risk_level notes
                   | | | | | | | ];
    try (rewrite perform_keeps_evaluations by (intros; discriminate); exact Hkept).
  revert Hgrown Hkept. cbn [perform]. unfold with_request.
  destruct (get_object key db) as [loaded |]; [| intros _ Hkept; exact Hkept].
  unfold respond.
  destruct (cft_evaluation now loaded actor dept impact_type decision risk_level
                           notes [] db) as [[request' | e] db'] eqn:Hrun;
    cbn [snd].
  2: { apply all_or_nothing_cft_evaluation in Hrun. subst db'. intros _ Hkept; exact Hkept. }
  intros Hgrown Hkept.
  destruct (cft_evaluation_returns _ _ _ _ _ _ _ _ _ _ _ _ Hrun)
    as (Hstatus & Hassigned & Hone & v & ->).
  assert (Hrow : by_assigned_evaluator
                   (set_requests v
                      (after_upsert now loaded actor dept impact_type decision
                                    risk_level notes [] db))
                   (upserted_row now loaded actor dept impact_type decision
                                 risk_level notes db) = true).
  { unfold upserted_row.
    destruct (evaluations_for loaded dept db) as [| old rest] eqn:Hfor.
    - unfold by_assigned_evaluator. cbn [CFTEvaluation.request CFTEvaluation.department
                                         CFTEvaluation.evaluator].
      replace (cft_evaluators (set_requests v (after_upsert now loaded actor dept
                 impact_type decision risk_level notes [] db)))
        with (cft_evaluators db) by (destruct db; reflexivity).
      unfold assigned_evaluator, evaluators_of in Hassigned.
      apply existsb_exists in Hassigned. destruct Hassigned as (a & Hin & Ha).
      apply filter_In in Hin. destruct Hin as (Hin & Hrequest).
      apply existsb_exists. exists a. split; [exact Hin |]. now rewrite Hrequest, Ha.
    - assert (Hold : In old (cft_evaluations db)).
      { assert (Hin : In old (evaluations_for loaded dept db))
          by (rewrite Hfor; now left).
        unfold evaluations_for, evaluations_of in Hin.
        apply filter_In in Hin. destruct Hin as (Hin & _).
        apply filter_In in Hin. exact (proj1 Hin). }
      rewrite Forall_forall in Hkept.
      rewrite <- (Hkept old Hold). now apply by_assigned_evaluator_fields. }
  replace (cft_evaluations
             (set_requests v
                (after_upsert now loaded actor dept impact_type decision risk_level
                              notes [] db)))
    with (match evaluations_for loaded dept db with
          | [] => cft_evaluations db ++
                  [upserted_row now loaded actor dept impact_type decision
                                risk_level notes db]
          | _ :: _ => save_row CFTEvaluation.pk
                        (upserted_row now loaded actor dept impact_type decision
                                      risk_level notes db)
                        (cft_evaluations db)
          end) by (destruct db; reflexivity).
  destruct (evaluations_for loaded dept db).
  - apply Forall_app. split; [exact Hkept | constructor; [exact Hrow | constructor]].
  - apply Forall_save_row; assumption.
Qed.

(** X23.  No evaluation is recorded for a user who is not assigned.  If
    every stored evaluation names, as its evaluator, a user assigned to
    its request and department, the same holds after any sequence of
    workflow calls. *)
Theorem evaluations_come_from_assigned_evaluators :
  forall ops db,
    (forall e, In e (cft_evaluations db) -> by_assigned_evaluator db e = true) ->
    forall e, In e (cft_evaluations (run ops db)) ->
              by_assigned_evaluator (run ops db) e = true.
Proof.
  induction ops as [| op ops IH]; intros db H; cbn [run]; [exact H |].
  apply IH. apply Forall_forall. apply perform_assigned. now apply Forall_forall.
Qed.

(** ** Final tracking numbers; evaluation documents *)

Lemma existing_final_numbers_spec prefix db number :
  In number (existing_final_numbers prefix db) <->
  exists r, In r (requests db) /\
            final_cc_number r = Some number /\
            like_startswith prefix number = true.
Proof.
  unfold existing_final_numbers. rewrite in_flat_map. split.
  - intros (r & Hin & Hr). exists r. split; [exact Hin |].
    destruct (final_cc_number r) as [n |]; [| destruct Hr].
    destruct (like_startswith prefix n) eqn:Hp; [| destruct Hr].
    destruct Hr as [<- | []]. auto.
  - intros (r & Hin & Hr & Hp). exists r. split; [exact Hin |].
    rewrite Hr, Hp. now left.
Qed.

(** X26.  For every department code and year, and for a database whose
    final numbers under the prefix have a last segment of fewer than 4300
    characters, the final tracking number is the prefix REQ/CC/<YY>/<DEPT>/,
    or REQ/CC/<YY>/GEN/ when the code is empty, followed by the decimal
    form, zero padded to five digits, of [m + 1].  Here [m] is the largest
    number that [int] reads from the last segment of an existing final
    number that the lookup [startswith] finds for the prefix (0 when there
    is none), and [m + 1] has at most 4300 digits; requests without a final
    number play no part, and the number is <prefix>00001 when the lookup
    finds no final number. *)
Theorem generate_final_cc_number_spec :
  forall (current_year department_code : string) (db : Store),
    let prefix :=
      (if String.eqb department_code EmptyString
       then "REQ/CC/" ++ current_year ++ "/GEN/"
       else "REQ/CC/" ++ current_year ++ "/" ++ department_code ++ "/")%string in
    let shares := fun number =>
      exists r, In r (requests db) /\
                final_cc_number r = Some number /\
                like_startswith prefix number = true in
    (forall number, shares number ->
                    (String.length (sequence_part number) < 4300)%nat) ->
    exists m : Z,
      (0 <= m)%Z /\
      (forall number v,
          shares number -> py_int (sequence_part number) = Some v -> (v <= m)%Z) /\
      (m = 0%Z \/
       exists number, shares number /\ py_int (sequence_part number) = Some m) /\
      (m + 1 < 10 ^ 4300)%Z /\
      generate_final_cc_number current_year department_code db =
        (prefix ++ zfill 5 (str (m + 1)))%string /\
      py_int (zfill 5 (str (m + 1))) = Some (m + 1)%Z /\
      ((forall number, ~ shares number) ->
       generate_final_cc_number current_year department_code db
       = (prefix ++ "00001")%string).
Proof.
  intros current_year department_code db prefix shares Hshort.
  set (existing := existing_final_numbers prefix db).
  assert (Hshares : forall number, In number existing <-> shares number)
    by (intros number; apply existing_final_numbers_spec).
  exists (max_sequence_from 0 existing).
  pose proof (max_sequence_from_ge existing 0) as Hge.
  destruct (zfill_str (max_sequence_from 0 existing + 1) ltac:(lia))
    as (Hread & _ & _).
  split; [exact Hge |].
  split.
  { intros number v Hnumber Hv.
    apply (max_sequence_from_upper existing 0 number v); [apply Hshares |]; assumption. }
  split.
  { destruct (max_sequence_from_attained existing 0) as [Hzero | (number & Hin & Hnum)].
    - left. exact Hzero.
    - right. exists number. split; [apply Hshares |]; assumption. }
  split.
  { apply next_sequence_small. intros number Hin. apply Hshort, Hshares, Hin. }
  split; [reflexivity |].
  split; [exact Hread |].
  intros Hnone.
  assert (Hgen : generate_final_cc_number current_year department_code db =
                 (prefix ++ zfill 5 (str (max_sequence_from 0 existing + 1)))%string)
    by reflexivity.
  rewrite Hgen. clear Hgen Hread Hge.
  destruct existing as [| number rest].
  - reflexivity.
  - exfalso. apply (Hnone number). apply Hshares. now left.
Qed.

Lemma in_save_row {A} (key : A -> nat) (x : A) rows : In x (save_row key x rows).
Proof.
  induction rows as [| r rs IH]; cbn [save_row]; [now left |].
  destruct (Nat.eqb (key r) (key x)); [now left | now right].
Qed.

(** X27.  A submission that returns attaches its documents to the
    evaluation of the request and department: one row per document is
    appended to the document table, in order, with the file and the
    description (empty when none is given), each under the key of a stored
    evaluation of that request and department.  Nothing tells a document
    that was sent before: a resubmission appends its documents again. *)
Theorem cft_evaluation_attaches_documents :
  forall now request actor department impact_type decision risk_level notes documents
         db request' db',
    cft_evaluation now request actor department impact_type decision risk_level notes
                   documents db = (Return request', db') ->
    exists evaluation,
      In evaluation (cft_evaluations db') /\
      CFTEvaluation.request evaluation = pk request /\
      Department.eqb (CFTEvaluation.department evaluation) department = true /\
      cft_evaluation_documents db' =
        cft_evaluation_documents db ++
        map (fun doc =>
               CFTEvaluationDocument.mk (CFTEvaluation.pk evaluation) (dd_file doc)
                 (match dd_description doc with Some d => d | None => EmptyString end))
            documents.
Proof.
  intros now request actor department impact_type decision risk_level notes documents
         db request' db' Hrun.
  destruct (cft_evaluation_returns _ _ _ _ _ _ _ _ _ _ _ _ Hrun)
    as (_ & _ & _ & v & ->).
  exists (upserted_row now request actor department impact_type decision risk_level notes db).
  assert (Hrows :
    cft_evaluations
      (set_requests v (after_upsert now request actor department impact_type decision
                                    risk_level notes documents db)) =
    match evaluations_for request department db with
    | [] => cft_evaluations db ++
            [upserted_row now request actor department impact_type decision risk_level
                          notes db]
    | _ :: _ => save_row CFTEvaluation.pk
                  (upserted_row now request actor department impact_type decision
                                risk_level notes db)
                  (cft_evaluations db)
    end) by (destruct db; reflexivity).
  rewrite Hrows.
  split; [| split; [| split]].
  - destruct (evaluations_for request department db);
      [apply in_or_app; right; now left | apply in_save_row].
  - unfold upserted_row.
    destruct (evaluations_for request department db) as [| old rest] eqn:Hfor;
      [reflexivity |].
    cbn [CFTEvaluation.request].
    assert (Hin : In old (evaluations_for request department db))
      by (rewrite Hfor; now left).
    unfold evaluations_for, evaluations_of in Hin.
    apply filter_In in Hin. destruct Hin as (Hin & _).
    apply filter_In in Hin. destruct Hin as (_ & Hrequest).
    now apply Nat.eqb_eq.
  - unfold upserted_row.
    destruct (evaluations_for request department db) as [| old rest] eqn:Hfor.
    + cbn [CFTEvaluation.department]. apply Nat.eqb_refl.
    + cbn [CFTEvaluation.department].
      assert (Hin : In old (evaluations_for request department db))
        by (rewrite Hfor; now left).
      unfold evaluations_for in Hin. apply filter_In in Hin. exact (proj2 Hin).
  - destruct db; reflexivity.
Qed.

(** ** The further theorems at concrete inputs *)

(** Initiation in QA, whose head is bob. *)
Lemma initiate_request_succeeds_witness :
  Department.head dept_qa = Some bob /\
  exists request' db',
    initiate_request "26" alice (Some dept_qa) "X" "change X" empty_store =
      (Return request', db') /\
    temporary_cc_number request' = generate_temp_cc_number "26" "QA" empty_store /\
    status request' = PENDING_DEPT_HEAD.
Proof.
  split; [reflexivity |].
  destruct (initiate_request_succeeds "26" alice dept_qa bob "X" "change X" empty_store
              eq_refl)
    as (request' & db' & Hrun & _ & _ & _ & Hnumber & _ & Hstatus & _).
  exists request', db'. split; [exact Hrun |]. split; [exact Hnumber | exact Hstatus].
Defined.

(** The number after the first one of the year in QA. *)
Lemma temporary_numbers_are_consecutive_witness :
  let db' := run [Initiate "26" alice (Some dept_qa) "X" "change X"] empty_store in
  exists n : Z,
    (1 <= n)%Z /\
    temporary_cc_number (first_request db') = ("REQ/CC/26/QA/" ++ zfill 5 (str n))%string /\
    generate_temp_cc_number "26" "QA" db' =
      ("REQ/CC/26/QA/" ++ zfill 5 (str (n + 1)))%string.
Proof.
  cbv zeta.
  set (db' := run [Initiate "26" alice (Some dept_qa) "X" "change X"] empty_store).
  assert (Hrun : initiate_request "26" alice (Some dept_qa) "X" "change X" empty_store =
                 (Return (first_request db'), db')) by (vm_compute; reflexivity).
  exact (temporary_numbers_are_consecutive "26" alice dept_qa "X" "change X" empty_store
           (first_request db') db' Hrun).
Defined.


(** The invariants along the requests of [rejected_ops]. *)
Lemma step_follows_status_witness :
  (forall r, In r (requests empty_store) -> step_matches_status r = true) /\
  (forall r, In r (requests (run rejected_ops empty_store)) ->
             step_matches_status r = true).
Proof.
  assert (H : forall r, In r (requests empty_store) -> step_matches_status r = true)
    by (intros r []).
  split; [exact H | exact (step_follows_status rejected_ops empty_store H)].
Defined.

Lemma qa_evaluation_is_never_reached_witness :
  (forall r, In r (requests empty_store) -> before_qa_evaluation r = true) /\
  (forall r, In r (requests (run rejected_ops empty_store)) ->
             before_qa_evaluation r = true).
Proof.
  assert (H : forall r, In r (requests empty_store) -> before_qa_evaluation r = true)
    by (intros r []).
  split; [exact H | exact (qa_evaluation_is_never_reached rejected_ops empty_store H)].
Defined.

Lemma stored_requests_stay_clean_witness :
  (forall r, In r (requests empty_store) -> clean r = Return tt) /\
  (forall r, In r (requests (run rejected_ops empty_store)) -> clean r = Return tt).
Proof.
  assert (H : forall r, In r (requests empty_store) -> clean r = Return tt)
    by (intros r []).
  split; [exact H | exact (stored_requests_stay_clean rejected_ops empty_store H)].
Defined.

Lemma evaluations_come_from_assigned_evaluators_witness :
  (forall e, In e (cft_evaluations empty_store) ->
             by_assigned_evaluator empty_store e = true) /\
  (forall e, In e (cft_evaluations (run rejected_ops empty_store)) ->
             by_assigned_evaluator (run rejected_ops empty_store) e = true).
Proof.
  assert (H : forall e, In e (cft_evaluations empty_store) ->
                        by_assigned_evaluator empty_store e = true)
    by (intros e []).
  split; [exact H |].
  exact (evaluations_come_from_assigned_evaluators rejected_ops empty_store H).
Defined.

(** An approval by the QA head on a request that awaits registration. *)
Lemma refused_calls_write_nothing_witness :
  let db := run approved_ops empty_store in
  let op := QAHeadApproval 1 quinn true EmptyString in
  validates_first op = true /\ snd (perform op db) = db.
Proof.
  cbv zeta.
  set (db := run approved_ops empty_store).
  set (op := QAHeadApproval 1 quinn true EmptyString).
  split; [reflexivity |].
  destruct (refused_calls_write_nothing op db (fst (perform op db)) (snd (perform op db))
              eq_refl (surjective_pairing (perform op db)))
    as [(request & Hok) | Hsame]; [| exact Hsame].
  vm_compute in Hok. discriminate Hok.
Defined.

(** The QA head returns a request for correction. *)
Lemma qa_head_approval_effect_witness :
  let request := sample_request PENDING_QA_HEAD_APPROVAL 9 (Some MINOR) in
  status request = PENDING_QA_HEAD_APPROVAL /\
  exists request' db',
    qa_head_approval request bob false "redo the plan" (store_of request) =
      (Return request', db') /\
    status request' = PENDING_ACTION_PLAN /\
    rejection_reason request' = EmptyString.
Proof.
  cbv zeta.
  set (request := sample_request PENDING_QA_HEAD_APPROVAL 9 (Some MINOR)).
  assert (H : status request = PENDING_QA_HEAD_APPROVAL) by reflexivity.
  split; [exact H |].
  destruct (qa_head_approval_effect request bob false "redo the plan" (store_of request) H)
    as (request' & db' & entry & Hrun & _ & Hstatus & _ & Hreason & _).
  exists request', db'. split; [exact Hrun |]. split; [exact Hstatus | exact Hreason].
Defined.

Lemma verification_closes_request_witness :
  let request := sample_request PENDING_VERIFICATION 10 (Some MINOR) in
  status request = PENDING_VERIFICATION /\
  exists request' db',
    post_implementation_verification 90%Z request quinn true true true "done"
                                     (store_of request) = (Return request', db') /\
    status request' = CLOSED /\ closed_at request' = Some 90%Z.
Proof.
  cbv zeta.
  set (request := sample_request PENDING_VERIFICATION 10 (Some MINOR)).
  assert (H : status request = PENDING_VERIFICATION) by reflexivity.
  split; [exact H |].
  destruct (verification_closes_request 90%Z request quinn "done" (store_of request) H)
    as (request' & db' & Hrun & _ & Hstatus & _ & Hclosed & _).
  exists request', db'. split; [exact Hrun |]. split; [exact Hstatus | exact Hclosed].
Defined.

(** Registration with an impact level that does not exist. *)
Lemma qa_registration_refusals_witness :
  let db := run approved_ops empty_store in
  let request := first_request db in
  status request = PENDING_QA_REGISTRATION /\
  qa_registration "26" 20%Z request quinn None "Huge" [] 400%Z db =
    (Raise (ValidationError "Invalid impact level: Huge"), db).
Proof.
  cbv zeta.
  set (db := run approved_ops empty_store).
  set (request := first_request db).
  assert (H : status request = PENDING_QA_REGISTRATION) by reflexivity.
  split; [exact H |].
  exact (proj1 (qa_registration_refusals "26" 20%Z request quinn None "Huge" [] 400%Z db H)
               eq_refl).
Defined.

(** alice is not an evaluator of the registered request. *)
Lemma cft_evaluation_needs_assignment_witness :
  let db := run minor_ops empty_store in
  let request := first_request db in
  status request = PENDING_CFT_EVALUATION /\
  can_evaluate_cft alice request (Some dept_pd) db = false /\
  cft_evaluation 30%Z request alice dept_pd CFTEvaluation.QUALITY CFTEvaluation.APPROVED
                 CFTEvaluation.LOW "fine" [] db =
    (Raise (ValidationError "User alice is not assigned as evaluator for PD"), db).
Proof.
  cbv zeta.
  set (db := run minor_ops empty_store).
  set (request := first_request db).
  assert (H1 : status request = PENDING_CFT_EVALUATION) by reflexivity.
  assert (H2 : can_evaluate_cft alice request (Some dept_pd) db = false) by reflexivity.
  split; [exact H1 |]. split; [exact H2 |].
  exact (proj1 (cft_evaluation_needs_assignment 30%Z request alice dept_pd
                  CFTEvaluation.QUALITY CFTEvaluation.APPROVED CFTEvaluation.LOW "fine" []
                  db H1) H2).
Defined.

Lemma action_plan_management_adds_plans_witness :
  let request := sample_request PENDING_ACTION_PLAN 7 (Some MINOR) in
  status request = PENDING_ACTION_PLAN /\
  Forall (fun d => complete_plan d = true) [training_plan] /\
  exists request' db' added,
    action_plan_management request quinn [training_plan] (store_of request) =
      (Return request', db') /\
    action_plans db' = added /\
    map plan_summary added = [wanted_plan request training_plan].
Proof.
  cbv zeta.
  set (request := sample_request PENDING_ACTION_PLAN 7 (Some MINOR)).
  assert (H1 : status request = PENDING_ACTION_PLAN) by reflexivity.
  assert (H2 : Forall (fun d => complete_plan d = true) [training_plan])
    by (constructor; [reflexivity | constructor]).
  split; [exact H1 |]. split; [exact H2 |].
  destruct (action_plan_management_adds_plans request quinn [training_plan]
              (store_of request) H1 H2)
    as (request' & db' & added & Hrun & Hplans & Hadded & _).
  exists request', db', added. split; [exact Hrun |]. split; [exact Hplans | exact Hadded].
Defined.

Lemma action_plan_management_stops_at_incomplete_entry_witness :
  let request := sample_request PENDING_ACTION_PLAN 7 (Some MINOR) in
  status request = PENDING_ACTION_PLAN /\
  Forall (fun d => complete_plan d = true) [training_plan] /\
  complete_plan nameless_plan = false /\
  exists db' added,
    action_plan_management request quinn [training_plan; nameless_plan; training_plan]
                           (store_of request) = (Raise IntegrityError, db') /\
    action_plans db' = added /\
    map plan_summary added = [wanted_plan request training_plan] /\
    workflow_history db' = [].
Proof.
  cbv zeta.
  set (request := sample_request PENDING_ACTION_PLAN 7 (Some MINOR)).
  assert (H1 : status request = PENDING_ACTION_PLAN) by reflexivity.
  assert (H2 : Forall (fun d => complete_plan d = true) [training_plan])
    by (constructor; [reflexivity | constructor]).
  assert (H3 : complete_plan nameless_plan = false) by reflexivity.
  split; [exact H1 |]. split; [exact H2 |]. split; [exact H3 |].
  destruct (action_plan_management_stops_at_incomplete_entry request quinn [training_plan]
              nameless_plan [training_plan] (store_of request) H1 H2 H3)
    as (db' & added & Hrun & Hplans & Hadded & _ & Hhistory).
  exists db', added. split; [exact Hrun |]. split; [exact Hplans |].
  split; [exact Hadded | exact Hhistory].
Defined.

(** The first of two pending revisions is completed. *)
Lemma complete_document_revision_effect_witness :
  NoDup (map DocumentRevision.pk (document_revisions revising_store)) /\
  In revision_sop (document_revisions revising_store) /\
  other_open_revisions revising_request revision_sop revising_store <> [] /\
  exists request' db',
    complete_document_revision 50%Z revising_request dana revision_sop "revised"
                               revising_store =
      (Return (request', completed_revision 50%Z dana revision_sop "revised"), db') /\
    request' = revising_request /\
    requests db' = requests revising_store.
Proof.
  assert (H1 : NoDup (map DocumentRevision.pk (document_revisions revising_store))).
  { vm_compute. constructor; [intros [H | []]; discriminate H |].
    constructor; [intros [] | constructor]. }
  assert (H2 : In revision_sop (document_revisions revising_store)) by (left; reflexivity).
  assert (H3 : other_open_revisions revising_request revision_sop revising_store <> [])
    by (vm_compute; discriminate).
  split; [exact H1 |]. split; [exact H2 |]. split; [exact H3 |].
  destruct (complete_document_revision_effect 50%Z revising_request dana revision_sop
              "revised" revising_store H1 H2)
    as (request' & db' & Hrun & _ & _ & Hkept).
  destruct (Hkept (or_introl H3)) as (Hsame & Hrequests & _).
  exists request', db'. split; [exact Hrun |]. split; [exact Hsame | exact Hrequests].
Defined.

(** The same document suggested twice. *)
Lemma document_management_is_idempotent_witness :
  let db := store_of revising_request in
  let db' := snd (document_management revising_request quinn [sop_document] db) in
  document_management revising_request quinn [sop_document] db =
    (Return revising_request, db') /\
  exists entry,
    document_management revising_request quinn [sop_document] db' =
      (Return revising_request,
       set_workflow_history (workflow_history db' ++ [entry]) db').
Proof.
  cbv zeta.
  set (db := store_of revising_request).
  set (db' := snd (document_management revising_request quinn [sop_document] db)).
  assert (H : document_management revising_request quinn [sop_document] db =
              (Return revising_request, db')) by (vm_compute; reflexivity).
  split; [exact H |].
  exact (document_management_is_idempotent revising_request quinn [sop_document] db
           revising_request db' H).
Defined.

(** The evaluator of the registered Minor request submits with a document. *)
Lemma cft_evaluation_attaches_documents_witness :
  let db := run minor_ops empty_store in
  let request := first_request db in
  let documents := [mk_document_data (Some "report.pdf"%string) None] in
  let out := cft_evaluation 30%Z request eve dept_pd CFTEvaluation.QUALITY
                            CFTEvaluation.APPROVED CFTEvaluation.LOW "fine" documents db in
  (exists request', out = (Return request', snd out)) /\
  exists evaluation,
    In evaluation (cft_evaluations (snd out)) /\
    CFTEvaluation.request evaluation = pk request /\
    cft_evaluation_documents (snd out) =
      [CFTEvaluationDocument.mk (CFTEvaluation.pk evaluation) (Some "report.pdf"%string)
                                EmptyString].
Proof.
  cbv zeta.
  set (db := run minor_ops empty_store).
  set (request := first_request db).
  set (documents := [mk_document_data (Some "report.pdf"%string) None]).
  set (out := cft_evaluation 30%Z request eve dept_pd CFTEvaluation.QUALITY
                             CFTEvaluation.APPROVED CFTEvaluation.LOW "fine" documents db).
  assert (Hrun : out = (Return (set_current_step 6
                                  (set_status PENDING_DOCUMENT_UPDATE request)), snd out))
    by (vm_compute; reflexivity).
  split; [eexists; exact Hrun |].
  destruct (cft_evaluation_attaches_documents 30%Z request eve dept_pd CFTEvaluation.QUALITY
              CFTEvaluation.APPROVED CFTEvaluation.LOW "fine" documents db _ _ Hrun)
    as (evaluation & Hin & Hrequest & _ & Hdocuments).
  exists evaluation. split; [exact Hin |]. split; [exact Hrequest | exact Hdocuments].
Defined.

(** The number of the department qa after one initiation in QA. *)
Lemma generate_temp_cc_number_spec_witness :
  (forall number,
      (exists r, In r (requests initiated_store) /\
                 ChangeControlRequest.temporary_cc_number r = number /\
                 like_startswith "REQ/CC/26/qa/" number = true) ->
      (String.length (sequence_part number) < 4300)%nat) /\
  exists m : Z,
    (m = 0%Z \/
     exists number,
       In number (map temporary_cc_number (requests initiated_store)) /\
       py_int (sequence_part number) = Some m) /\
    generate_temp_cc_number "26" "qa" initiated_store =
      ("REQ/CC/26/qa/" ++ zfill 5 (str (m + 1)))%string.
Proof.
  assert (Hshort : forall number,
             (exists r, In r (requests initiated_store) /\
                        ChangeControlRequest.temporary_cc_number r = number /\
                        like_startswith "REQ/CC/26/qa/" number = true) ->
             (String.length (sequence_part number) < 4300)%nat).
  { intros number (r & Hin & Hr & _).
    vm_compute in Hin. destruct Hin as [<- | []].
    subst number. vm_compute. lia. }
  split; [exact Hshort |].
  destruct (generate_temp_cc_number_spec "26" "qa" initiated_store Hshort)
    as (m & _ & _ & Hattained & _ & Hgen & _).
  exists m. split; [| exact Hgen].
  destruct Hattained as [Hzero | (number & (r & Hin & Hr & _) & Hnum)]; [now left |].
  right. exists number. split; [| exact Hnum].
  rewrite <- Hr. now apply in_map.
Defined.

(** The final number after one that was typed in with the code in small
    letters and an Arabic-Indic three. *)
Lemma generate_final_cc_number_spec_witness :
  (forall number,
      (exists r, In r (requests (run typed_ops empty_store)) /\
                 final_cc_number r = Some number /\
                 like_startswith "REQ/CC/26/QA/" number = true) ->
      (String.length (sequence_part number) < 4300)%nat) /\
  map final_cc_number (requests (run typed_ops empty_store)) = [Some typed_number] /\
  generate_final_cc_number "26" "QA" (run typed_ops empty_store) =
    "REQ/CC/26/QA/00004"%string.
Proof.
  assert (Hshort : forall number,
             (exists r, In r (requests (run typed_ops empty_store)) /\
                        final_cc_number r = Some number /\
                        like_startswith "REQ/CC/26/QA/" number = true) ->
             (String.length (sequence_part number) < 4300)%nat).
  { intros number (r & Hin & Hr & _).
    vm_compute in Hin. destruct Hin as [<- | []].
    injection Hr as <-. vm_compute. lia. }
  split; [exact Hshort |].
  split; [vm_compute; reflexivity |].
  assert (Hthree : py_int (sequence_part typed_number) = Some 3%Z) by (vm_compute; reflexivity).
  destruct (generate_final_cc_number_spec "26" "QA" (run typed_ops empty_store) Hshort)
    as (m & _ & Hupper & Hattained & _ & Hgen & _).
  assert (Hm : m = 3%Z).
  { destruct Hattained as [Hzero | (number & (r & Hin & Hr & _) & Hnum)].
    - specialize (Hupper typed_number 3%Z). subst m.
      assert (3 <= 0)%Z; [| lia]. apply Hupper; [| exact Hthree].
      exists (first_request (run typed_ops empty_store)).
      split; [vm_compute; now left |]. split; vm_compute; reflexivity.
    - vm_compute in Hin. destruct Hin as [<- | []].
      injection Hr as <-. vm_compute in Hnum. now injection Hnum. }
  rewrite Hgen, Hm. vm_compute. reflexivity.
Defined.
